(** * The recurrence container of kcalendarcore (Recurrence, recurrence.cpp)

    A shallow embedding of [KCal::Recurrence]: the object that bundles
    inclusion rules, exclusion rules and explicit inclusion / exclusion
    dates around one start date/time, answers occurrence queries and
    reports changes to its observers.

    [KDateTime], [QDate], [QTime] and [KDateTime::Spec] come from Qt and
    kdelibs, and [RecurrenceRule] is a class of its own (recurrencerule.cpp).
    The date/time types and the rule class are therefore interfaces
    ([TimeModel], [RuleModel]) over which every definition is parametrised;
    two small instances ([FixedOffset], [TableRules]) make the definitions
    runnable.  A state is a value: every mutator takes the state and returns
    the new one, and the calls made to the observers are kept in the state
    as a trace. *)

From Stdlib Require Import List Bool ZArith Lia Sorted.
Import ListNotations.

Set Implicit Arguments.

(** ** Interfaces *)

(** The operations of KDateTime / QDate / QTime that recurrence.cpp calls. *)
Class TimeModel : Type := {
  KDateTime : Type;
  QDate : Type;
  QTime : Type;
  Spec : Type;                                   (* KDateTime::Spec *)
  dt_lt : KDateTime -> KDateTime -> bool;        (* operator< *)
  dt_eq : KDateTime -> KDateTime -> bool;        (* operator== *)
  date_lt : QDate -> QDate -> bool;
  date_eq : QDate -> QDate -> bool;
  time_lt : QTime -> QTime -> bool;
  time_eq : QTime -> QTime -> bool;
  toTimeSpec : KDateTime -> Spec -> KDateTime;   (* same moment, other spec *)
  setTimeSpec : KDateTime -> Spec -> KDateTime;  (* same wall clock, other spec *)
  timeSpec : KDateTime -> Spec;
  date : KDateTime -> QDate;
  time : KDateTime -> QTime;
  setDate : KDateTime -> QDate -> KDateTime;
  setTime : KDateTime -> QTime -> KDateTime;
  isDateOnly : KDateTime -> bool;
  mkDateTime : QDate -> QTime -> Spec -> KDateTime;  (* KDateTime(qd, qt, spec) *)
  endOfDay : QTime;                              (* QTime(23,59,59) *)
  nullDateTime : KDateTime                       (* KDateTime() *)
}.

(** RecurrenceRule::PeriodType *)
Inductive PeriodType : Type :=
  | rNone | rSecondly | rMinutely | rHourly | rDaily | rWeekly | rMonthly | rYearly.

(** The classification codes of Recurrence that are cached in
    [mCachedType]; [rMax] marks the cache as empty.  The codes other than
    [rMax] are written with a [t], since RecurrenceRule::PeriodType has the
    same names: [tDaily] is Recurrence::rDaily. *)
Inductive RecurType : Type :=
  | tNone | tMinutely | tHourly | tDaily | tWeekly
  | tMonthlyPos | tMonthlyDay | tYearlyMonth | tYearlyDay | tYearlyPos
  | tOther | rMax.

Definition RecurType_eqb (a b : RecurType) : bool :=
  match a, b with
  | tNone, tNone | tMinutely, tMinutely | tHourly, tHourly | tDaily, tDaily
  | tWeekly, tWeekly | tMonthlyPos, tMonthlyPos | tMonthlyDay, tMonthlyDay
  | tYearlyMonth, tYearlyMonth | tYearlyDay, tYearlyDay
  | tYearlyPos, tYearlyPos | tOther, tOther | rMax, rMax => true
  | _, _ => false
  end.

(** RecurrenceRule::WDayPos: position and weekday. *)
Definition WDayPos : Type := (Z * Z)%type.

(** The part of RecurrenceRule that recurrence.cpp uses.  A rule object is
    held through a pointer; [rule_addr] is that pointer's value, the only
    thing [removeAll] compares.  A query that answers with an invalid
    KDateTime answers [None] here. *)
Class RuleModel (TM : TimeModel) : Type := {
  RecurrenceRule : Type;
  rule_addr : RecurrenceRule -> nat;
  rule_new : nat -> RecurrenceRule;              (* new RecurrenceRule() *)
  (* accessors *)
  rule_startDt : RecurrenceRule -> KDateTime;
  rule_floats : RecurrenceRule -> bool;
  rule_recurrenceType : RecurrenceRule -> PeriodType;
  rule_frequency : RecurrenceRule -> Z;
  rule_duration : RecurrenceRule -> Z;
  rule_durationTo : RecurrenceRule -> KDateTime -> Z;
  rule_endDt : RecurrenceRule -> option KDateTime;
  rule_bySetPos : RecurrenceRule -> list Z;
  rule_bySeconds : RecurrenceRule -> list Z;
  rule_byMinutes : RecurrenceRule -> list Z;
  rule_byHours : RecurrenceRule -> list Z;
  rule_byDays : RecurrenceRule -> list WDayPos;
  rule_byMonthDays : RecurrenceRule -> list Z;
  rule_byYearDays : RecurrenceRule -> list Z;
  rule_byWeekNumbers : RecurrenceRule -> list Z;
  rule_byMonths : RecurrenceRule -> list Z;
  (* mutators, as functions on the object's value *)
  rule_setStartDt : KDateTime -> RecurrenceRule -> RecurrenceRule;
  rule_setFloats : bool -> RecurrenceRule -> RecurrenceRule;
  rule_setEndDt : KDateTime -> RecurrenceRule -> RecurrenceRule;
  rule_setDuration : Z -> RecurrenceRule -> RecurrenceRule;
  rule_setFrequency : Z -> RecurrenceRule -> RecurrenceRule;
  rule_shiftTimes : Spec -> Spec -> RecurrenceRule -> RecurrenceRule;
  rule_setRecurrenceType : PeriodType -> RecurrenceRule -> RecurrenceRule;
  rule_setWeekStart : Z -> RecurrenceRule -> RecurrenceRule;
  rule_setByDays : list WDayPos -> RecurrenceRule -> RecurrenceRule;
  rule_setByMonthDays : list Z -> RecurrenceRule -> RecurrenceRule;
  rule_setByYearDays : list Z -> RecurrenceRule -> RecurrenceRule;
  rule_setByMonths : list Z -> RecurrenceRule -> RecurrenceRule;
  (* occurrence queries *)
  rule_recursAt : RecurrenceRule -> KDateTime -> bool;
  rule_recursOn : RecurrenceRule -> QDate -> Spec -> bool;
  rule_recurTimesOn : RecurrenceRule -> QDate -> Spec -> list QTime;
  rule_timesInInterval : RecurrenceRule -> KDateTime -> KDateTime -> list KDateTime;
  rule_getNextDate : RecurrenceRule -> KDateTime -> option KDateTime;
  rule_getPreviousDate : RecurrenceRule -> KDateTime -> option KDateTime
}.

(** ** SortableList *)

(** sortablelist.h, the SortableList template behind DateList, DateTimeList
    and TimeList, is not under src/.  The spec keeps the date and instant
    lists "sorted ascending and free of duplicates" and names the operations
    by what they look up; each operation below is the plain left-to-right
    function with that result on a sorted list. *)
Module SortableList.
Section Ops.
Variable T : Type.
Variables ltb eqb : T -> T -> bool.

(** Modelled from the spec: SortableList::containsSorted(value), is an
    element equal to [v] in the list. *)
Definition containsSorted (v : T) (l : list T) : bool := existsb (eqb v) l.

(** Modelled from the spec: SortableList::insertSorted(value), put [v] at
    its sorted position unless an equal element is already there. *)
Fixpoint insertSorted (v : T) (l : list T) : list T :=
  match l with
  | [] => [v]
  | x :: xs =>
      if ltb v x then v :: x :: xs
      else if eqb v x then x :: xs
      else x :: insertSorted v xs
  end.

(** Modelled from the spec: SortableList::sortUnique(), sort ascending and
    drop duplicates. *)
Definition sortUnique (l : list T) : list T := fold_right insertSorted [] l.

(** Modelled from the spec: SortableList::findGT(value), the index of the
    first element greater than [v]. *)
Fixpoint findGT (v : T) (l : list T) : option nat :=
  match l with
  | [] => None
  | x :: xs => if ltb v x then Some O else option_map S (findGT v xs)
  end.

(** Modelled from the spec: SortableList::findLT(value), the index of the
    last element less than [v]. *)
Fixpoint findLT (v : T) (l : list T) : option nat :=
  match l with
  | [] => None
  | x :: xs =>
      match findLT v xs with
      | Some i => Some (S i)
      | None => if ltb x v then Some O else None
      end
  end.

(** Modelled from the spec: SortableList::findSorted(value, start), the
    index, not below [start], of an element equal to [v]. *)
Fixpoint findSorted (v : T) (start : nat) (l : list T) : option nat :=
  match l with
  | [] => None
  | x :: xs =>
      match start with
      | O => if eqb v x then Some O else option_map S (findSorted v O xs)
      | S s => option_map S (findSorted v s xs)
      end
  end.

(** QList::removeAt(i) *)
Fixpoint removeAt (i : nat) (l : list T) : list T :=
  match l, i with
  | [], _ => []
  | _ :: xs, O => xs
  | x :: xs, S j => x :: removeAt j xs
  end.

(** Modelled from the spec: SortableList::removeSorted(value, start),
    remove the element found by findSorted and report its index. *)
Definition removeSorted (v : T) (start : nat) (l : list T) : option nat * list T :=
  match findSorted v start l with
  | Some i => (Some i, removeAt i l)
  | None => (None, l)
  end.

(** The loop that both recurTimesOn and timesInInterval end with:
    [for each e in extimes: j = times.removeSorted(e, st); if (j >= 0) st = j]. *)
Fixpoint removeEach (extimes : list T) (st : nat) (times : list T) : list T :=
  match extimes with
  | [] => times
  | e :: es =>
      match removeSorted e st times with
      | (Some j, times') => removeEach es j times'
      | (None, times') => removeEach es st times'
      end
  end.
End Ops.
End SortableList.
Import SortableList.

(** ** The Recurrence object *)

(** A RecurrenceObserver, by identity. *)
Definition Observer : Type := nat.

Section Engine.
Context {TM : TimeModel} {RM : RuleModel TM}.

(** Recurrence::Private, plus [delivered]: the recurrenceUpdated() calls
    made so far, oldest first (the observers themselves are outside the
    library).  The rule lists own their objects (setAutoDelete), so every
    rule object is held once and is stored here by value. *)
Record Recurrence : Type := mkRecurrence {
  mExRules : list RecurrenceRule;
  mRRules : list RecurrenceRule;
  mRDateTimes : list KDateTime;
  mRDates : list QDate;
  mExDateTimes : list KDateTime;
  mExDates : list QDate;
  mStartDateTime : KDateTime;
  mObservers : list (option Observer);         (* observer pointers, maybe null *)
  mCachedType : RecurType;
  mFloating : bool;
  mRecurReadOnly : bool;
  delivered : list Observer
}.

Definition set_mExRules v r := mkRecurrence v (mRRules r) (mRDateTimes r) (mRDates r)
  (mExDateTimes r) (mExDates r) (mStartDateTime r) (mObservers r) (mCachedType r)
  (mFloating r) (mRecurReadOnly r) (delivered r).
Definition set_mRRules v r := mkRecurrence (mExRules r) v (mRDateTimes r) (mRDates r)
  (mExDateTimes r) (mExDates r) (mStartDateTime r) (mObservers r) (mCachedType r)
  (mFloating r) (mRecurReadOnly r) (delivered r).
Definition set_mRDateTimes v r := mkRecurrence (mExRules r) (mRRules r) v (mRDates r)
  (mExDateTimes r) (mExDates r) (mStartDateTime r) (mObservers r) (mCachedType r)
  (mFloating r) (mRecurReadOnly r) (delivered r).
Definition set_mRDates v r := mkRecurrence (mExRules r) (mRRules r) (mRDateTimes r) v
  (mExDateTimes r) (mExDates r) (mStartDateTime r) (mObservers r) (mCachedType r)
  (mFloating r) (mRecurReadOnly r) (delivered r).
Definition set_mExDateTimes v r := mkRecurrence (mExRules r) (mRRules r) (mRDateTimes r)
  (mRDates r) v (mExDates r) (mStartDateTime r) (mObservers r) (mCachedType r)
  (mFloating r) (mRecurReadOnly r) (delivered r).
Definition set_mExDates v r := mkRecurrence (mExRules r) (mRRules r) (mRDateTimes r)
  (mRDates r) (mExDateTimes r) v (mStartDateTime r) (mObservers r) (mCachedType r)
  (mFloating r) (mRecurReadOnly r) (delivered r).
Definition set_mStartDateTime v r := mkRecurrence (mExRules r) (mRRules r) (mRDateTimes r)
  (mRDates r) (mExDateTimes r) (mExDates r) v (mObservers r) (mCachedType r)
  (mFloating r) (mRecurReadOnly r) (delivered r).
Definition set_mObservers v r := mkRecurrence (mExRules r) (mRRules r) (mRDateTimes r)
  (mRDates r) (mExDateTimes r) (mExDates r) (mStartDateTime r) v (mCachedType r)
  (mFloating r) (mRecurReadOnly r) (delivered r).
Definition set_mCachedType v r := mkRecurrence (mExRules r) (mRRules r) (mRDateTimes r)
  (mRDates r) (mExDateTimes r) (mExDates r) (mStartDateTime r) (mObservers r) v
  (mFloating r) (mRecurReadOnly r) (delivered r).
Definition set_mFloating v r := mkRecurrence (mExRules r) (mRRules r) (mRDateTimes r)
  (mRDates r) (mExDateTimes r) (mExDates r) (mStartDateTime r) (mObservers r)
  (mCachedType r) v (mRecurReadOnly r) (delivered r).
Definition set_mRecurReadOnly v r := mkRecurrence (mExRules r) (mRRules r) (mRDateTimes r)
  (mRDates r) (mExDateTimes r) (mExDates r) (mStartDateTime r) (mObservers r)
  (mCachedType r) (mFloating r) v (delivered r).
Definition set_delivered v r := mkRecurrence (mExRules r) (mRRules r) (mRDateTimes r)
  (mRDates r) (mExDateTimes r) (mExDates r) (mStartDateTime r) (mObservers r)
  (mCachedType r) (mFloating r) (mRecurReadOnly r) v.

(** Recurrence::Recurrence() *)
Definition newRecurrence : Recurrence :=
  mkRecurrence [] [] [] [] [] [] nullDateTime [] rMax false false [].

(** *** Observers and the change notification *)

Definition observer_eqb (a b : option Observer) : bool :=
  match a, b with
  | Some x, Some y => Nat.eqb x y
  | None, None => true
  | _, _ => false
  end.

Definition addObserver (o : option Observer) (r : Recurrence) : Recurrence :=
  if existsb (observer_eqb o) (mObservers r) then r
  else set_mObservers (mObservers r ++ [o]) r.

Definition removeObserver (o : option Observer) (r : Recurrence) : Recurrence :=
  if existsb (observer_eqb o) (mObservers r)
  then set_mObservers (filter (fun x => negb (observer_eqb o x)) (mObservers r)) r
  else r.

(** One pass of the loop in updated(): every non-null observer, in order. *)
Fixpoint notified (obs : list (option Observer)) : list Observer :=
  match obs with
  | [] => []
  | Some o :: rest => o :: notified rest
  | None :: rest => notified rest
  end.

(** Recurrence::updated() *)
Definition updated (r : Recurrence) : Recurrence :=
  let r1 := set_mCachedType rMax r in
  set_delivered (delivered r1 ++ notified (mObservers r1)) r1.

(** Recurrence::recurrenceChanged(): the callback of a held rule. *)
Definition recurrenceChanged (rule : RecurrenceRule) (r : Recurrence) : Recurrence :=
  updated r.

(** *** Simple accessors *)

Definition startDateTime (r : Recurrence) : KDateTime := mStartDateTime r.
Definition startDate (r : Recurrence) : QDate := date (mStartDateTime r).
Definition floats (r : Recurrence) : bool := mFloating r.
Definition recurReadOnly (r : Recurrence) : bool := mRecurReadOnly r.
Definition setRecurReadOnly (readOnly : bool) (r : Recurrence) : Recurrence :=
  set_mRecurReadOnly readOnly r.

(** Recurrence::defaultRRuleConst() *)
Definition defaultRRuleConst (r : Recurrence) : option RecurrenceRule :=
  match mRRules r with
  | [] => None
  | x :: _ => Some x
  end.

Definition isEmpty {A : Type} (l : list A) : bool :=
  match l with [] => true | _ => false end.

Definition PeriodType_eqb (a b : PeriodType) : bool :=
  match a, b with
  | rNone, rNone | rSecondly, rSecondly | rMinutely, rMinutely | rHourly, rHourly
  | rDaily, rDaily | rWeekly, rWeekly | rMonthly, rMonthly | rYearly, rYearly => true
  | _, _ => false
  end.

(** Recurrence::recurrenceType(rrule), the static classifier. *)
Definition recurrenceTypeOf (rrule : option RecurrenceRule) : RecurType :=
  match rrule with
  | None => tNone
  | Some rrule =>
    let type := rule_recurrenceType rrule in
    if negb (isEmpty (rule_bySetPos rrule))
       || negb (isEmpty (rule_bySeconds rrule))
       || negb (isEmpty (rule_byWeekNumbers rrule)) then tOther
    else if negb (isEmpty (rule_byMinutes rrule))
       || negb (isEmpty (rule_byHours rrule)) then tOther
    else if (negb (isEmpty (rule_byYearDays rrule)) && negb (PeriodType_eqb type rYearly))
       || (negb (isEmpty (rule_byMonths rrule)) && negb (PeriodType_eqb type rYearly))
    then tOther
    else if negb (isEmpty (rule_byDays rrule))
            && (negb (PeriodType_eqb type rYearly)
                && negb (PeriodType_eqb type rMonthly)
                && negb (PeriodType_eqb type rWeekly))
    then tOther
    else
      match type with
      | rNone => tNone
      | rMinutely => tMinutely
      | rHourly => tHourly
      | rDaily => tDaily
      | rWeekly => tWeekly
      | rMonthly =>
          if isEmpty (rule_byDays rrule) then tMonthlyDay
          else if isEmpty (rule_byMonthDays rrule) then tMonthlyPos
          else tOther
      | rYearly =>
          if negb (isEmpty (rule_byDays rrule)) then
            if isEmpty (rule_byMonthDays rrule) && isEmpty (rule_byYearDays rrule)
            then tYearlyPos else tOther
          else if negb (isEmpty (rule_byYearDays rrule)) then
            if isEmpty (rule_byMonths rrule) && isEmpty (rule_byMonthDays rrule)
            then tYearlyDay else tOther
          else tYearlyMonth
      | rSecondly => tOther
      end
  end.

(** Recurrence::recurrenceType(): fills the cache when it is empty. *)
Definition recurrenceType (r : Recurrence) : RecurType * Recurrence :=
  if RecurType_eqb (mCachedType r) rMax
  then let t := recurrenceTypeOf (defaultRRuleConst r) in (t, set_mCachedType t r)
  else (mCachedType r, r).

(** Recurrence::duration() *)
Definition duration (r : Recurrence) : Z :=
  match defaultRRuleConst r with
  | Some rrule => rule_duration rrule
  | None => 0%Z
  end.

(** Recurrence::durationTo(const KDateTime &) *)
Definition durationTo (r : Recurrence) (datetime : KDateTime) : Z :=
  match defaultRRuleConst r with
  | Some rrule => rule_durationTo rrule datetime
  | None => 0%Z
  end.

(** Recurrence::durationTo(const QDate &) *)
Definition durationToDate (r : Recurrence) (d : QDate) : Z :=
  durationTo r (mkDateTime d endOfDay (timeSpec (mStartDateTime r))).

(** Recurrence::frequency() *)
Definition frequency (r : Recurrence) : Z :=
  match defaultRRuleConst r with
  | Some rrule => rule_frequency rrule
  | None => 0%Z
  end.

(** *** Rules held by the recurrence *)

(** Is the object [rule] points to one of the held rules. *)
Definition holds (r : Recurrence) (rule : RecurrenceRule) : bool :=
  existsb (fun x => Nat.eqb (rule_addr x) (rule_addr rule)) (mRRules r ++ mExRules r).

(** Modelled from the spec: the notification a RecurrenceRule sends when
    one of its mutators has run (recurrencerule.cpp is not under src/).  By
    the spec's observer design a recurrence registers itself as a listener
    on each rule it holds, and every mutation of a rule invokes the
    recurrence's recurrenceChanged(rule).  [ruleMutated] is that call for a
    rule that may or may not be held. *)
Definition ruleMutated (rule : RecurrenceRule) (r : Recurrence) : Recurrence :=
  if holds r rule then recurrenceChanged rule r else r.

(** A mutator run on each rule of a held list, the rule's call-back
    following each one. *)
Fixpoint mutateRules (f : RecurrenceRule -> RecurrenceRule)
    (rules : list RecurrenceRule) (r : Recurrence) : list RecurrenceRule * Recurrence :=
  match rules with
  | [] => ([], r)
  | x :: xs =>
      let x' := f x in
      let r1 := recurrenceChanged x' r in
      let '(xs', r2) := mutateRules f xs r1 in
      (x' :: xs', r2)
  end.

(** [for (i...) d->mRRules[i]->f()] and the same over mExRules. *)
Definition eachRRule (f : RecurrenceRule -> RecurrenceRule) (r : Recurrence) : Recurrence :=
  let '(rules, r') := mutateRules f (mRRules r) r in set_mRRules rules r'.

Definition eachExRule (f : RecurrenceRule -> RecurrenceRule) (r : Recurrence) : Recurrence :=
  let '(rules, r') := mutateRules f (mExRules r) r in set_mExRules rules r'.

(** Recurrence::setFloats() *)
Definition setFloats (floats : bool) (r : Recurrence) : Recurrence :=
  if mRecurReadOnly r || Bool.eqb floats (mFloating r) then r
  else
    let r1 := set_mFloating floats r in
    let r2 := eachRRule (rule_setFloats floats) r1 in
    let r3 := eachExRule (rule_setFloats floats) r2 in
    updated r3.

(** Recurrence::addRRule(); a null pointer is [None]. *)
Definition addRRule (rrule : option RecurrenceRule) (r : Recurrence) : Recurrence :=
  match rrule with
  | None => r
  | Some rrule =>
      if mRecurReadOnly r then r
      else
        let r1 := ruleMutated rrule r in
        let r2 := set_mRRules (mRRules r1 ++ [rule_setFloats (mFloating r) rrule]) r1 in
        updated r2
  end.

(** QList::removeAll() on a list of rule pointers. *)
Definition removeAll (rule : RecurrenceRule) (l : list RecurrenceRule) : list RecurrenceRule :=
  filter (fun x => negb (Nat.eqb (rule_addr x) (rule_addr rule))) l.

(** Recurrence::removeRRule() *)
Definition removeRRule (rrule : RecurrenceRule) (r : Recurrence) : Recurrence :=
  if mRecurReadOnly r then r
  else updated (set_mRRules (removeAll rrule (mRRules r)) r).

(** Recurrence::addExRule() *)
Definition addExRule (exrule : option RecurrenceRule) (r : Recurrence) : Recurrence :=
  match exrule with
  | None => r
  | Some exrule =>
      if mRecurReadOnly r then r
      else
        let r1 := ruleMutated exrule r in
        let r2 := set_mExRules (mExRules r1 ++ [rule_setFloats (mFloating r) exrule]) r1 in
        updated r2
  end.

(** Recurrence::removeExRule() *)
Definition removeExRule (exrule : RecurrenceRule) (r : Recurrence) : Recurrence :=
  if mRecurReadOnly r then r
  else updated (set_mExRules (removeAll exrule (mExRules r)) r).

(** An address no held rule has: where [new RecurrenceRule()] lands. *)
Definition freshAddr (r : Recurrence) : nat :=
  S (fold_right Nat.max O (map rule_addr (mRRules r ++ mExRules r))).

(** Recurrence::defaultRRule(create): the first inclusion rule, created on
    demand; the state comes back because creation goes through addRRule. *)
Definition defaultRRule (create : bool) (r : Recurrence)
    : option RecurrenceRule * Recurrence :=
  match mRRules r with
  | [] =>
      if negb create || mRecurReadOnly r then (None, r)
      else
        let rrule := rule_setStartDt (startDateTime r) (rule_new (freshAddr r)) in
        let r' := addRRule (Some rrule) r in
        (defaultRRuleConst r', r')
  | x :: _ => (Some x, r)
  end.

(** [rrule->f()] for the pointer defaultRRule returned: the head of mRRules. *)
Definition mutateDefaultRRule (f : RecurrenceRule -> RecurrenceRule) (r : Recurrence)
    : Recurrence :=
  match mRRules r with
  | [] => r
  | x :: xs => let x' := f x in recurrenceChanged x' (set_mRRules (x' :: xs) r)
  end.

(** Recurrence::setEndDateTime() *)
Definition setEndDateTime (dateTime : KDateTime) (r : Recurrence) : Recurrence :=
  if mRecurReadOnly r then r
  else
    match defaultRRule true r with
    | (None, r1) => r1
    | (Some _, r1) => updated (mutateDefaultRRule (rule_setEndDt dateTime) r1)
    end.

(** Recurrence::setDuration() *)
Definition setDuration (duration : Z) (r : Recurrence) : Recurrence :=
  if mRecurReadOnly r then r
  else
    match defaultRRule true r with
    | (None, r1) => r1
    | (Some _, r1) => updated (mutateDefaultRRule (rule_setDuration duration) r1)
    end.

(** Recurrence::setFrequency() *)
Definition setFrequency (freq : Z) (r : Recurrence) : Recurrence :=
  if mRecurReadOnly r || (freq <=? 0)%Z then r
  else
    match defaultRRule true r with
    | (None, r1) => updated r1
    | (Some _, r1) => updated (mutateDefaultRRule (rule_setFrequency freq) r1)
    end.

(** [dt = dt.toTimeSpec(oldSpec); dt.setTimeSpec(newSpec)] *)
Definition shiftDateTime (oldSpec newSpec : Spec) (dt : KDateTime) : KDateTime :=
  setTimeSpec (toTimeSpec dt oldSpec) newSpec.

(** Recurrence::shiftTimes() *)
Definition shiftTimes (oldSpec newSpec : Spec) (r : Recurrence) : Recurrence :=
  if mRecurReadOnly r then r
  else
    let r1 := set_mStartDateTime (shiftDateTime oldSpec newSpec (mStartDateTime r)) r in
    let r2 := set_mRDateTimes (map (shiftDateTime oldSpec newSpec) (mRDateTimes r1)) r1 in
    let r3 := set_mExDateTimes (map (shiftDateTime oldSpec newSpec) (mExDateTimes r2)) r2 in
    let r4 := eachRRule (rule_shiftTimes oldSpec newSpec) r3 in
    eachExRule (rule_shiftTimes oldSpec newSpec) r4.

(** Recurrence::unsetRecurs() *)
Definition unsetRecurs (r : Recurrence) : Recurrence :=
  if mRecurReadOnly r then r
  else updated (set_mRRules [] r).

(** Recurrence::clear() *)
Definition clear (r : Recurrence) : Recurrence :=
  if mRecurReadOnly r then r
  else
    let r1 := set_mRRules [] r in
    let r2 := set_mExRules [] r1 in
    let r3 := set_mRDates [] r2 in
    let r4 := set_mRDateTimes [] r3 in
    let r5 := set_mExDates [] r4 in
    let r6 := set_mExDateTimes [] r5 in
    let r7 := set_mCachedType rMax r6 in
    updated r7.

(** Recurrence::setStartDateTime() *)
Definition setStartDateTime (start : KDateTime) (r : Recurrence) : Recurrence :=
  if mRecurReadOnly r then r
  else
    let r1 := set_mStartDateTime start r in
    if isDateOnly start then updated (setFloats true r1)
    else
      let r2 := setFloats false r1 in
      let r3 := eachRRule (rule_setStartDt start) r2 in
      let r4 := eachExRule (rule_setStartDt start) r3 in
      updated r4.

(** *** The four explicit lists *)

(** Recurrence::setRDateTimes() *)
Definition setRDateTimes (rdates : list KDateTime) (r : Recurrence) : Recurrence :=
  if mRecurReadOnly r then r
  else updated (set_mRDateTimes (sortUnique dt_lt dt_eq rdates) r).

(** Recurrence::addRDateTime() *)
Definition addRDateTime (rdate : KDateTime) (r : Recurrence) : Recurrence :=
  if mRecurReadOnly r then r
  else updated (set_mRDateTimes (insertSorted dt_lt dt_eq rdate (mRDateTimes r)) r).

(** Recurrence::setRDates() *)
Definition setRDates (rdates : list QDate) (r : Recurrence) : Recurrence :=
  if mRecurReadOnly r then r
  else updated (set_mRDates (sortUnique date_lt date_eq rdates) r).

(** Recurrence::addRDate() *)
Definition addRDate (rdate : QDate) (r : Recurrence) : Recurrence :=
  if mRecurReadOnly r then r
  else updated (set_mRDates (insertSorted date_lt date_eq rdate (mRDates r)) r).

(** Recurrence::setExDateTimes(): the one setter that ends without
    updated(). *)
Definition setExDateTimes (exdates : list KDateTime) (r : Recurrence) : Recurrence :=
  if mRecurReadOnly r then r
  else set_mExDateTimes (sortUnique dt_lt dt_eq exdates) r.

(** Recurrence::addExDateTime() *)
Definition addExDateTime (exdate : KDateTime) (r : Recurrence) : Recurrence :=
  if mRecurReadOnly r then r
  else updated (set_mExDateTimes (insertSorted dt_lt dt_eq exdate (mExDateTimes r)) r).

(** Recurrence::setExDates() *)
Definition setExDates (exdates : list QDate) (r : Recurrence) : Recurrence :=
  if mRecurReadOnly r then r
  else updated (set_mExDates (sortUnique date_lt date_eq exdates) r).

(** Recurrence::addExDate() *)
Definition addExDate (exdate : QDate) (r : Recurrence) : Recurrence :=
  if mRecurReadOnly r then r
  else updated (set_mExDates (insertSorted date_lt date_eq exdate (mExDates r)) r).

(** *** The rule-building interface of the old recurrence class *)

(** Recurrence::setEndDate() *)
Definition setEndDate (d : QDate) (r : Recurrence) : Recurrence :=
  let dt := mkDateTime d (time (mStartDateTime r)) (timeSpec (mStartDateTime r)) in
  let dt := if floats r then setTime dt endOfDay else dt in
  setEndDateTime dt r.

(** Recurrence::setNewRecurrenceType(): the flag tells whether a rule came
    back. *)
Definition setNewRecurrenceType (type : PeriodType) (freq : Z) (r : Recurrence)
    : bool * Recurrence :=
  if mRecurReadOnly r || (freq <=? 0)%Z then (false, r)
  else
    let r1 := updated (set_mRRules [] r) in
    match defaultRRule true r1 with
    | (None, r2) => (false, r2)
    | (Some _, r2) =>
        let r3 := mutateDefaultRRule (rule_setRecurrenceType type) r2 in
        let r4 := mutateDefaultRRule (rule_setFrequency freq) r3 in
        let r5 := mutateDefaultRRule (rule_setDuration (-1)) r4 in
        (true, r5)
    end.

(** [if (setNewRecurrenceType(type, freq)) updated();] *)
Definition setPeriodic (type : PeriodType) (freq : Z) (r : Recurrence) : Recurrence :=
  let '(rrule, r1) := setNewRecurrenceType type freq r in
  if rrule then updated r1 else r1.

(** Recurrence::setMinutely() *)
Definition setMinutely (freq : Z) (r : Recurrence) : Recurrence := setPeriodic rMinutely freq r.

(** Recurrence::setHourly() *)
Definition setHourly (freq : Z) (r : Recurrence) : Recurrence := setPeriodic rHourly freq r.

(** Recurrence::setDaily() *)
Definition setDaily (freq : Z) (r : Recurrence) : Recurrence := setPeriodic rDaily freq r.

(** Recurrence::setMonthly() *)
Definition setMonthly (freq : Z) (r : Recurrence) : Recurrence := setPeriodic rMonthly freq r.

(** Recurrence::setYearly() *)
Definition setYearly (freq : Z) (r : Recurrence) : Recurrence := setPeriodic rYearly freq r.

(** Recurrence::setWeekly(freq, weekStart) *)
Definition setWeekly (freq weekStart : Z) (r : Recurrence) : Recurrence :=
  let '(rrule, r1) := setNewRecurrenceType rWeekly freq r in
  if rrule then updated (mutateDefaultRRule (rule_setWeekStart weekStart) r1) else r1.

Definition WDayPos_eqb (p q : WDayPos) : bool :=
  (fst p =? fst q)%Z && (snd p =? snd q)%Z.

(** The loop of addMonthlyPos() over the seven bits of [days], from bit
    [i] on. *)
Fixpoint addPositions (pos : Z) (days : list bool) (i steps : nat)
    (positions : list WDayPos) (changed : bool) : list WDayPos * bool :=
  match steps with
  | O => (positions, changed)
  | S k =>
      if nth i days false then
        let p := (pos, Z.of_nat i + 1)%Z in
        if existsb (WDayPos_eqb p) positions
        then addPositions pos days (S i) k positions changed
        else addPositions pos days (S i) k (positions ++ [p]) true
      else addPositions pos days (S i) k positions changed
  end.

(** Recurrence::addMonthlyPos(pos, days); the bit array is a list of seven
    flags. *)
Definition addMonthlyPos (pos : Z) (days : list bool) (r : Recurrence) : Recurrence :=
  if mRecurReadOnly r || (53 <? pos)%Z || (pos <? -53)%Z then r
  else
    match defaultRRule false r with
    | (None, r1) => r1
    | (Some rrule, r1) =>
        let '(positions, changed) := addPositions pos days 0 7 (rule_byDays rrule) false in
        if changed then updated (mutateDefaultRRule (rule_setByDays positions) r1) else r1
    end.

(** Recurrence::addMonthlyPos(pos, day) *)
Definition addMonthlyPosDay (pos day : Z) (r : Recurrence) : Recurrence :=
  if mRecurReadOnly r || (53 <? pos)%Z || (pos <? -53)%Z then r
  else
    match defaultRRule false r with
    | (None, r1) => r1
    | (Some rrule, r1) =>
        let positions := rule_byDays rrule in
        if existsb (WDayPos_eqb (pos, day)) positions then r1
        else updated (mutateDefaultRRule (rule_setByDays (positions ++ [(pos, day)])) r1)
    end.

(** Recurrence::setWeekly(freq, days, weekStart) *)
Definition setWeeklyDays (freq : Z) (days : list bool) (weekStart : Z) (r : Recurrence)
    : Recurrence :=
  addMonthlyPos 0 days (setWeekly freq weekStart r).

(** Recurrence::addWeeklyDays() *)
Definition addWeeklyDays (days : list bool) (r : Recurrence) : Recurrence :=
  addMonthlyPos 0 days r.

(** Recurrence::addMonthlyDate() *)
Definition addMonthlyDate (day : Z) (r : Recurrence) : Recurrence :=
  if mRecurReadOnly r || (31 <? day)%Z || (day <? -31)%Z then r
  else
    match defaultRRule true r with
    | (None, r1) => r1
    | (Some rrule, r1) =>
        let monthDays := rule_byMonthDays rrule in
        if existsb (Z.eqb day) monthDays then r1
        else updated (mutateDefaultRRule (rule_setByMonthDays (monthDays ++ [day])) r1)
    end.

(** Recurrence::addYearlyDay(): the one mutator without the read-only
    test. *)
Definition addYearlyDay (day : Z) (r : Recurrence) : Recurrence :=
  match defaultRRule false r with
  | (None, r1) => r1
  | (Some rrule, r1) =>
      let days := rule_byYearDays rrule in
      if existsb (Z.eqb day) days then r1
      else updated (mutateDefaultRRule (rule_setByYearDays (days ++ [day])) r1)
  end.

(** What passing an int to a parameter of type short makes of it: the value
    modulo 2^16, between -32768 and 32767. *)
Definition toShort (n : Z) : Z := ((n + 32768) mod 65536 - 32768)%Z.

(** Recurrence::addYearlyDate(int): the day goes to addMonthlyDate(short). *)
Definition addYearlyDate (day : Z) (r : Recurrence) : Recurrence :=
  addMonthlyDate (toShort day) r.

(** Recurrence::addYearlyPos() *)
Definition addYearlyPos (pos : Z) (days : list bool) (r : Recurrence) : Recurrence :=
  addMonthlyPos pos days r.

(** Recurrence::addYearlyMonth() *)
Definition addYearlyMonth (month : Z) (r : Recurrence) : Recurrence :=
  if mRecurReadOnly r || (month <? 1)%Z || (12 <? month)%Z then r
  else
    match defaultRRule false r with
    | (None, r1) => r1
    | (Some rrule, r1) =>
        let months := rule_byMonths rrule in
        if existsb (Z.eqb month) months then r1
        else updated (mutateDefaultRRule (rule_setByMonths (months ++ [month])) r1)
    end.

(** *** Occurrence queries *)

(** [for (i = 0; i < end && !flag; ++i) flag = p(l[i]);] *)
Fixpoint scanUntil {A : Type} (p : A -> bool) (l : list A) (flag : bool) : bool :=
  match l with
  | [] => flag
  | x :: xs => if flag then flag else scanUntil p xs (p x)
  end.

(** The loop that collects the times of the date/times of a sorted list
    falling on [qd], leaving at the first miss after a hit. *)
Fixpoint timesOnDate (l : list KDateTime) (qd : QDate) (ts : Spec) (foundDate : bool)
    : list QTime :=
  match l with
  | [] => []
  | x :: xs =>
      let dt := toTimeSpec x ts in
      if date_eq (date dt) qd then time dt :: timesOnDate xs qd ts true
      else if foundDate then []
      else timesOnDate xs qd ts foundDate
  end.

(** Recurrence::recurTimesOn() *)
Definition recurTimesOn (r : Recurrence) (qd : QDate) (ts : Spec) : list QTime :=
  if containsSorted date_eq qd (mExDates r) then []
  else if floats r && existsb (fun x => rule_recursOn x qd ts) (mExRules r) then []
  else
    let dt := toTimeSpec (startDateTime r) ts in
    let times := if date_eq (date dt) qd then [time dt] else [] in
    let times := times ++ timesOnDate (mRDateTimes r) qd ts false in
    let times := times ++ flat_map (fun x => rule_recurTimesOn x qd ts) (mRRules r) in
    let times := sortUnique time_lt time_eq times in
    let extimes := timesOnDate (mExDateTimes r) qd ts false in
    let extimes :=
      if negb (floats r)
      then extimes ++ flat_map (fun x => rule_recurTimesOn x qd ts) (mExRules r)
      else extimes in
    let extimes := sortUnique time_lt time_eq extimes in
    removeEach time_eq extimes 0 times.

(** Recurrence::recursOn() *)
Definition recursOn (r : Recurrence) (qd : QDate) (ts : Spec) : bool :=
  if dt_lt (mkDateTime qd endOfDay ts) (mStartDateTime r) then false
  else if containsSorted date_eq qd (mExDates r) then false
  else if floats r && existsb (fun x => rule_recursOn x qd ts) (mExRules r) then false
  else if containsSorted date_eq qd (mRDates r) then true
  else
    let recurs := date_eq (startDate r) qd in
    let recurs :=
      scanUntil (fun x => date_eq (date (toTimeSpec x ts)) qd) (mRDateTimes r) recurs in
    let recurs := scanUntil (fun x => rule_recursOn x qd ts) (mRRules r) recurs in
    if negb recurs then false
    else
      let exon :=
        scanUntil (fun x => date_eq (date (toTimeSpec x ts)) qd) (mExDateTimes r) false in
      let exon :=
        if negb (floats r)
        then scanUntil (fun x => rule_recursOn x qd ts) (mExRules r) exon
        else exon in
      if negb exon then recurs
      else negb (isEmpty (recurTimesOn r qd ts)).

(** Recurrence::recursAt() *)
Definition recursAt (r : Recurrence) (dt : KDateTime) : bool :=
  let dtrecur := toTimeSpec dt (timeSpec (mStartDateTime r)) in
  if containsSorted dt_eq dtrecur (mExDateTimes r)
     || containsSorted date_eq (date dtrecur) (mExDates r) then false
  else if existsb (fun x => rule_recursAt x dtrecur) (mExRules r) then false
  else if dt_eq (startDateTime r) dtrecur
          || containsSorted dt_eq dtrecur (mRDateTimes r) then true
  else existsb (fun x => rule_recursAt x dtrecur) (mRRules r).

(** [kdt.setDate(d); times += kdt] over the inclusion dates: each date
    takes the time of day and spec of the start date/time. *)
Fixpoint promoteRDates (kdt : KDateTime) (ds : list QDate) : list KDateTime :=
  match ds with
  | [] => []
  | d :: rest => let kdt' := setDate kdt d in kdt' :: promoteRDates kdt' rest
  end.

Fixpoint span {A : Type} (p : A -> bool) (l : list A) : list A * list A :=
  match l with
  | [] => ([], [])
  | x :: xs => if p x then let '(a, b) := span p xs in (x :: a, b) else ([], l)
  end.

Fixpoint dropWhile {A : Type} (p : A -> bool) (l : list A) : list A :=
  match l with
  | [] => []
  | x :: xs => if p x then dropWhile p xs else l
  end.

(** The first exclusion loop of timesInInterval(): walk the sorted times
    and the sorted excluded dates together, removing the times of each
    excluded date; it stops when the times are used up. *)
Fixpoint removeExDates (exDates : list QDate) (times : list KDateTime) : list KDateTime :=
  match exDates with
  | [] => times
  | d :: ds =>
      match times with
      | [] => []
      | _ =>
          let '(kept, rest) := span (fun t => date_lt (date t) d) times in
          kept ++ removeExDates ds (dropWhile (fun t => date_eq (date t) d) rest)
      end
  end.

(** Recurrence::timesInInterval() *)
Definition timesInInterval (r : Recurrence) (start end_ : KDateTime) : list KDateTime :=
  let times := flat_map (fun x => rule_timesInInterval x start end_) (mRRules r) in
  let times := times ++ mRDateTimes r in
  let times := times ++ promoteRDates (startDateTime r) (mRDates r) in
  let times := sortUnique dt_lt dt_eq times in
  let times := removeExDates (mExDates r) times in
  let extimes := flat_map (fun x => rule_timesInInterval x start end_) (mExRules r) in
  let extimes := extimes ++ mExDateTimes r in
  let extimes := sortUnique dt_lt dt_eq extimes in
  removeEach dt_eq extimes 0 times.

(** [dates << mRDateTimes[i]] for an index a search returned. *)
Definition elementAt (l : list KDateTime) (i : option nat) : list KDateTime :=
  match i with
  | Some n => match nth_error l n with Some x => [x] | None => [] end
  | None => []
  end.

(** The rDates loop of getNextDateTime(): the first inclusion date, taken
    at the start's time of day, that lies after [nextDT]. *)
Fixpoint firstRDateAfter (kdt : KDateTime) (ds : list QDate) (nextDT : KDateTime)
    : list KDateTime :=
  match ds with
  | [] => []
  | d :: rest =>
      let kdt' := setDate kdt d in
      if dt_lt nextDT kdt' then [kdt'] else firstRDateAfter kdt' rest nextDT
  end.

(** The rDates loop of getPreviousDateTime(), over the dates from the last
    one down. *)
Fixpoint lastRDateBefore (kdt : KDateTime) (dsDown : list QDate) (prevDT : KDateTime)
    : list KDateTime :=
  match dsDown with
  | [] => []
  | d :: rest =>
      let kdt' := setDate kdt d in
      if dt_lt kdt' prevDT then [kdt'] else lastRDateBefore kdt' rest prevDT
  end.

Definition validDate (dt : option KDateTime) : list KDateTime :=
  match dt with Some x => [x] | None => [] end.

(** [dates], sorted, of one round of getNextDateTime(). *)
Definition nextCandidates (r : Recurrence) (nextDT : KDateTime) : list KDateTime :=
  let dates := if dt_lt nextDT (startDateTime r) then [startDateTime r] else [] in
  let dates := dates ++ elementAt (mRDateTimes r) (findGT dt_lt nextDT (mRDateTimes r)) in
  let dates := dates ++ firstRDateAfter (startDateTime r) (mRDates r) nextDT in
  let dates :=
    dates ++ flat_map (fun x => validDate (rule_getNextDate x nextDT)) (mRRules r) in
  sortUnique dt_lt dt_eq dates.

(** [dates], sorted, of one round of getPreviousDateTime(). *)
Definition previousCandidates (r : Recurrence) (prevDT : KDateTime) : list KDateTime :=
  let dates := if dt_lt (startDateTime r) prevDT then [startDateTime r] else [] in
  let dates := dates ++ elementAt (mRDateTimes r) (findLT dt_lt prevDT (mRDateTimes r)) in
  let dates := dates ++ lastRDateBefore (startDateTime r) (rev (mRDates r)) prevDT in
  let dates :=
    dates ++ flat_map (fun x => validDate (rule_getPreviousDate x prevDT)) (mRRules r) in
  sortUnique dt_lt dt_eq dates.

(** The test both searches apply to the chosen date/time: not an excluded
    date, not an excluded date/time, and no exclusion rule recurs at it. *)
Definition admitted (r : Recurrence) (dt : KDateTime) : bool :=
  if negb (containsSorted date_eq (date dt) (mExDates r))
     && negb (containsSorted dt_eq dt (mExDateTimes r))
  then fold_left (fun allowed x => allowed && negb (rule_recursAt x dt)) (mExRules r) true
  else false.

(** How a search ended.  The source returns the same invalid KDateTime from
    two places; the two are told apart here. *)
Inductive Search : Type :=
  | Found (dt : KDateTime)
  | NoCandidate
  | LoopLimit.

(** The loop of getNextDateTime(), [rounds] rounds left. *)
Fixpoint nextSearch (rounds : nat) (r : Recurrence) (nextDT : KDateTime) : Search :=
  match rounds with
  | O => LoopLimit
  | S n =>
      match nextCandidates r nextDT with
      | [] => NoCandidate
      | first :: _ => if admitted r first then Found first else nextSearch n r first
      end
  end.

(** The loop of getPreviousDateTime(), [rounds] rounds left. *)
Fixpoint previousSearch (rounds : nat) (r : Recurrence) (prevDT : KDateTime) : Search :=
  match rounds with
  | O => LoopLimit
  | S n =>
      match rev (previousCandidates r prevDT) with
      | [] => NoCandidate
      | last :: _ => if admitted r last then Found last else previousSearch n r last
      end
  end.

Definition result (s : Search) : option KDateTime :=
  match s with
  | Found dt => Some dt
  | NoCandidate | LoopLimit => None
  end.

(** Recurrence::getNextDateTime() *)
Definition getNextDateTime (r : Recurrence) (preDateTime : KDateTime) : option KDateTime :=
  result (nextSearch 1000 r preDateTime).

(** Recurrence::getPreviousDateTime() *)
Definition getPreviousDateTime (r : Recurrence) (afterDateTime : KDateTime)
    : option KDateTime :=
  result (previousSearch 1000 r afterDateTime).

End Engine.

(** ** Predicates used in the statements *)

Section StatementPredicates.
Context {TM : TimeModel} {RM : RuleModel TM}.

(** [t] is named by an exclusion source: its date is an excluded date, it
    is an excluded date/time, or an exclusion rule recurs at it. *)
Definition excludedAt (r : Recurrence) (t : KDateTime) : Prop :=
  (exists d, In d (mExDates r) /\ date_eq (date t) d = true)
  \/ (exists x, In x (mExDateTimes r) /\ dt_eq t x = true)
  \/ (exists rule, In rule (mExRules r) /\ rule_recursAt rule t = true).

(** [t] is named by an inclusion source: it is the start, an inclusion
    date/time, or an inclusion rule recurs at it. *)
Definition includedAt (r : Recurrence) (t : KDateTime) : Prop :=
  dt_eq (startDateTime r) t = true
  \/ (exists x, In x (mRDateTimes r) /\ dt_eq t x = true)
  \/ (exists rule, In rule (mRRules r) /\ rule_recursAt rule t = true).

(** The rounds of a candidate search seen from outside: [pick c] is the
    date/time a round standing at [c] selects, [accept] the exclusion test.
    [rejectedRun c0 k c]: started at [c0], the search has selected and
    rejected [k] date/times in a row, the last of them being [c] (or
    [c = c0] when [k = 0]). *)
Inductive rejectedRun (pick : KDateTime -> option KDateTime) (accept : KDateTime -> bool)
    : KDateTime -> nat -> KDateTime -> Prop :=
  | rejected_none (c0 : KDateTime) : rejectedRun pick accept c0 O c0
  | rejected_more (c0 x c : KDateTime) (k : nat) :
      pick c0 = Some x -> accept x = false ->
      rejectedRun pick accept x k c ->
      rejectedRun pick accept c0 (S k) c.

(** What a round of getNextDateTime() selects: [dates.first()]. *)
Definition pickNext (r : Recurrence) (c : KDateTime) : option KDateTime :=
  hd_error (nextCandidates r c).

(** What a round of getPreviousDateTime() selects: [dates.last()]. *)
Definition pickPrevious (r : Recurrence) (c : KDateTime) : option KDateTime :=
  hd_error (rev (previousCandidates r c)).

Definition nextRejected (r : Recurrence) : KDateTime -> nat -> KDateTime -> Prop :=
  rejectedRun (pickNext r) (admitted r).

Definition previousRejected (r : Recurrence) : KDateTime -> nat -> KDateTime -> Prop :=
  rejectedRun (pickPrevious r) (admitted r).

(** The mutators of Recurrence that start with the read-only test. *)
Inductive Mutator : Type :=
  | Clear
  | UnsetRecurs
  | SetStartDateTime (start : KDateTime)
  | SetFloats (floats : bool)
  | SetEndDateTime (dateTime : KDateTime)
  | SetDuration (duration : Z)
  | SetFrequency (freq : Z)
  | ShiftTimes (oldSpec newSpec : Spec)
  | AddRRule (rrule : option RecurrenceRule)
  | RemoveRRule (rrule : RecurrenceRule)
  | AddExRule (exrule : option RecurrenceRule)
  | RemoveExRule (exrule : RecurrenceRule)
  | SetRDateTimes (rdates : list KDateTime)
  | AddRDateTime (rdate : KDateTime)
  | SetRDates (rdates : list QDate)
  | AddRDate (rdate : QDate)
  | SetExDateTimes (exdates : list KDateTime)
  | AddExDateTime (exdate : KDateTime)
  | SetExDates (exdates : list QDate)
  | AddExDate (exdate : QDate).

Definition run (m : Mutator) (r : Recurrence) : Recurrence :=
  match m with
  | Clear => clear r
  | UnsetRecurs => unsetRecurs r
  | SetStartDateTime start => setStartDateTime start r
  | SetFloats floats => setFloats floats r
  | SetEndDateTime dateTime => setEndDateTime dateTime r
  | SetDuration duration => setDuration duration r
  | SetFrequency freq => setFrequency freq r
  | ShiftTimes oldSpec newSpec => shiftTimes oldSpec newSpec r
  | AddRRule rrule => addRRule rrule r
  | RemoveRRule rrule => removeRRule rrule r
  | AddExRule exrule => addExRule exrule r
  | RemoveExRule exrule => removeExRule exrule r
  | SetRDateTimes rdates => setRDateTimes rdates r
  | AddRDateTime rdate => addRDateTime rdate r
  | SetRDates rdates => setRDates rdates r
  | AddRDate rdate => addRDate rdate r
  | SetExDateTimes exdates => setExDateTimes exdates r
  | AddExDateTime exdate => addExDateTime exdate r
  | SetExDates exdates => setExDates exdates r
  | AddExDate exdate => addExDate exdate r
  end.

(** [n] passes of updated() over the observers [obs]: each observer that is
    not null is called once in every pass. *)
Definition broadcast (obs : list (option Observer)) (n : nat) : list Observer :=
  concat (repeat (notified obs) n).

(** The number of updated() passes setFloats(b) makes on [r]: none when the
    flag stays, else one for every held rule (whose own setFloats reports
    back) and one of its own. *)
Definition floatsRounds (b : bool) (r : Recurrence) : nat :=
  if Bool.eqb b (mFloating r) then 0
  else length (mRRules r) + (length (mExRules r) + 1).

(** The passes of adding the rule [x]: the one of addRRule itself, and one
    before it when [x] is already held and so reports its setFloats. *)
Definition addRounds (x : RecurrenceRule) (r : Recurrence) : nat :=
  (if holds r x then 1 else 0) + 1.

(** The passes of a mutator that works on the default rule: those of
    creating the rule when there is none, the rule's report, and one of its
    own. *)
Definition defaultRuleRounds (r : Recurrence) : nat :=
  match mRRules r with
  | [] => addRounds (rule_setStartDt (startDateTime r) (rule_new (freshAddr r))) r + 2
  | _ :: _ => 2
  end.

(** How many passes of updated() a mutator makes on a recurrence that is
    not read-only. *)
Definition updateRounds (m : Mutator) (r : Recurrence) : nat :=
  match m with
  | Clear | UnsetRecurs => 1
  | SetStartDateTime start =>
      if isDateOnly start then floatsRounds true r + 1
      else floatsRounds false r + (length (mRRules r) + (length (mExRules r) + 1))
  | SetFloats floats => floatsRounds floats r
  | SetEndDateTime _ | SetDuration _ => defaultRuleRounds r
  | SetFrequency freq => if (freq <=? 0)%Z then 0 else defaultRuleRounds r
  | ShiftTimes _ _ => length (mRRules r) + length (mExRules r)
  | AddRRule None | AddExRule None => 0
  | AddRRule (Some x) | AddExRule (Some x) => addRounds x r
  | RemoveRRule _ | RemoveExRule _ => 1
  | SetRDateTimes _ | AddRDateTime _ | SetRDates _ | AddRDate _ => 1
  | AddExDateTime _ | SetExDates _ | AddExDate _ => 1
  | SetExDateTimes _ => 0
  end.


(** [n] calls of updated() in a row, in closed form. *)
Definition updatedTimes (n : nat) (r : Recurrence) : Recurrence :=
  mkRecurrence (mExRules r) (mRRules r) (mRDateTimes r) (mRDates r) (mExDateTimes r)
    (mExDates r) (mStartDateTime r) (mObservers r)
    (match n with O => mCachedType r | S _ => rMax end)
    (mFloating r) (mRecurReadOnly r) (delivered r ++ broadcast (mObservers r) n).

(** The loop shared by the two searches. *)
Fixpoint search (pick : KDateTime -> option KDateTime) (accept : KDateTime -> bool)
    (rounds : nat) (c : KDateTime) : Search :=
  match rounds with
  | O => LoopLimit
  | S n =>
      match pick c with
      | None => NoCandidate
      | Some x => if accept x then Found x else search pick accept n x
      end
  end.

(** [r'] is [r] after [n] passes of updated(), as far as the observers can
    tell: each of them has been called [n] more times, and the cached type
    is gone if there was a pass at all. *)
Definition passesBetween (n : nat) (r r' : Recurrence) : Prop :=
  delivered r' = delivered r ++ broadcast (mObservers r) n
  /\ mObservers r' = mObservers r
  /\ (0 < n -> mCachedType r' = rMax).

(** The wall-clock reading of a date/time: its date and its time of day. *)
Definition wallClock (k : KDateTime) : QDate * QTime := (date k, time k).

(** The date/times a recurrence stores itself: the start, the inclusion
    date/times and the exclusion date/times. *)
Definition storedInstants (r : Recurrence) : list KDateTime :=
  mStartDateTime r :: mRDateTimes r ++ mExDateTimes r.

(** A list is sorted ascending without duplicates: every element is less
    than, and not equal to, every later one. *)
Definition sortedUnique (T : Type) (ltb eqb : T -> T -> bool) (l : list T) : Prop :=
  StronglySorted (fun a b => ltb a b = true /\ eqb a b = false) l.

(** The four explicit lists of a recurrence are sorted and duplicate-free. *)
Definition listsSorted (r : Recurrence) : Prop :=
  sortedUnique dt_lt dt_eq (mRDateTimes r)
  /\ sortedUnique date_lt date_eq (mRDates r)
  /\ sortedUnique dt_lt dt_eq (mExDateTimes r)
  /\ sortedUnique date_lt date_eq (mExDates r).

(** What is asked of a comparison for sorting to make sense. *)
Record OrderLaws (T : Type) (ltb eqb : T -> T -> bool) : Prop := {
  lt_trans : forall a b c, ltb a b = true -> ltb b c = true -> ltb a c = true;
  lt_total : forall a b, ltb a b = false -> eqb a b = false -> ltb b a = true;
  lt_not_eq : forall a b, ltb a b = true -> eqb a b = false
}.

(** What is asked of the time specs for a shift to keep the order:
    converting keeps the moment, hence the order, and among date/times of
    one spec the order is that of the wall clock, which re-stamping keeps. *)
Record ShiftLaws : Prop := {
  toTimeSpec_spec : forall k s, timeSpec (toTimeSpec k s) = s;
  toTimeSpec_lt : forall a b s, dt_lt (toTimeSpec a s) (toTimeSpec b s) = dt_lt a b;
  setTimeSpec_lt : forall a b s,
    timeSpec a = timeSpec b -> dt_lt (setTimeSpec a s) (setTimeSpec b s) = dt_lt a b
}.

(** The rule-building mutators: they work on the inclusion rules only. *)
Inductive RuleBuilder : Type :=
  | SetEndDate (d : QDate)
  | SetMinutely (freq : Z)
  | SetHourly (freq : Z)
  | SetDaily (freq : Z)
  | SetWeekly (freq weekStart : Z)
  | SetWeeklyDays (freq : Z) (days : list bool) (weekStart : Z)
  | AddWeeklyDays (days : list bool)
  | SetMonthly (freq : Z)
  | AddMonthlyPos (pos : Z) (days : list bool)
  | AddMonthlyPosDay (pos day : Z)
  | AddMonthlyDate (day : Z)
  | SetYearly (freq : Z)
  | AddYearlyDay (day : Z)
  | AddYearlyDate (day : Z)
  | AddYearlyPos (pos : Z) (days : list bool)
  | AddYearlyMonth (month : Z).

Definition build (b : RuleBuilder) (r : Recurrence) : Recurrence :=
  match b with
  | SetEndDate d => setEndDate d r
  | SetMinutely freq => setMinutely freq r
  | SetHourly freq => setHourly freq r
  | SetDaily freq => setDaily freq r
  | SetWeekly freq weekStart => setWeekly freq weekStart r
  | SetWeeklyDays freq days weekStart => setWeeklyDays freq days weekStart r
  | AddWeeklyDays days => addWeeklyDays days r
  | SetMonthly freq => setMonthly freq r
  | AddMonthlyPos pos days => addMonthlyPos pos days r
  | AddMonthlyPosDay pos day => addMonthlyPosDay pos day r
  | AddMonthlyDate day => addMonthlyDate day r
  | SetYearly freq => setYearly freq r
  | AddYearlyDay day => addYearlyDay day r
  | AddYearlyDate day => addYearlyDate day r
  | AddYearlyPos pos days => addYearlyPos pos days r
  | AddYearlyMonth month => addYearlyMonth month r
  end.

(** The states a recurrence can be in: a fresh one, and whatever a public
    operation makes of a state it can be in. *)
Inductive Reachable : Recurrence -> Prop :=
  | reach_new : Reachable newRecurrence
  | reach_run (m : Mutator) (r : Recurrence) : Reachable r -> Reachable (run m r)
  | reach_build (b : RuleBuilder) (r : Recurrence) : Reachable r -> Reachable (build b r)
  | reach_addObserver (o : option Observer) (r : Recurrence) :
      Reachable r -> Reachable (addObserver o r)
  | reach_removeObserver (o : option Observer) (r : Recurrence) :
      Reachable r -> Reachable (removeObserver o r)
  | reach_setRecurReadOnly (b : bool) (r : Recurrence) :
      Reachable r -> Reachable (setRecurReadOnly b r)
  | reach_recurrenceType (r : Recurrence) :
      Reachable r -> Reachable (snd (recurrenceType r)).

(** A sequence of mutators run in order. *)
Definition replay (ms : list Mutator) (r : Recurrence) : Recurrence :=
  fold_left (fun r m => run m r) ms r.

(** The four explicit lists after a mutator has run on a recurrence that is
    not read-only. *)
Definition listsAfter (m : Mutator) (r : Recurrence)
    : list KDateTime * list QDate * list KDateTime * list QDate :=
  match m with
  | Clear => ([], [], [], [])
  | ShiftTimes oldSpec newSpec =>
      (map (shiftDateTime oldSpec newSpec) (mRDateTimes r), mRDates r,
       map (shiftDateTime oldSpec newSpec) (mExDateTimes r), mExDates r)
  | SetRDateTimes l => (sortUnique dt_lt dt_eq l, mRDates r, mExDateTimes r, mExDates r)
  | AddRDateTime x =>
      (insertSorted dt_lt dt_eq x (mRDateTimes r), mRDates r, mExDateTimes r, mExDates r)
  | SetRDates l => (mRDateTimes r, sortUnique date_lt date_eq l, mExDateTimes r, mExDates r)
  | AddRDate x =>
      (mRDateTimes r, insertSorted date_lt date_eq x (mRDates r), mExDateTimes r, mExDates r)
  | SetExDateTimes l => (mRDateTimes r, mRDates r, sortUnique dt_lt dt_eq l, mExDates r)
  | AddExDateTime x =>
      (mRDateTimes r, mRDates r, insertSorted dt_lt dt_eq x (mExDateTimes r), mExDates r)
  | SetExDates l => (mRDateTimes r, mRDates r, mExDateTimes r, sortUnique date_lt date_eq l)
  | AddExDate x =>
      (mRDateTimes r, mRDates r, mExDateTimes r, insertSorted date_lt date_eq x (mExDates r))
  | _ => (mRDateTimes r, mRDates r, mExDateTimes r, mExDates r)
  end.

Definition explicitLists (r : Recurrence)
    : list KDateTime * list QDate * list KDateTime * list QDate :=
  (mRDateTimes r, mRDates r, mExDateTimes r, mExDates r).

End StatementPredicates.

(** ** Further queries of Recurrence *)

Section FurtherQueries.
Context {TM : TimeModel} {RM : RuleModel TM}.

(** Recurrence::recurs() *)
Definition recurs (r : Recurrence) : bool :=
  negb (isEmpty (mRRules r)) || negb (isEmpty (mRDates r))
  || negb (isEmpty (mRDateTimes r)).

(** The loop over the inclusion rules in endDateTime(): the ends of the
    rules, or nothing as soon as one rule has no end. *)
Fixpoint ruleEnds (rules : list RecurrenceRule) : option (list KDateTime) :=
  match rules with
  | [] => Some []
  | x :: xs =>
      match rule_endDt x with
      | None => None
      | Some rl => option_map (cons rl) (ruleEnds xs)
      end
  end.

(** [dts], before sorting, of endDateTime() up to the loop over the rules;
    [midnight] is QTime(0,0,0). *)
Definition endCandidates (midnight : QTime) (r : Recurrence) : list KDateTime :=
  let dts := [startDateTime r] in
  let dts :=
    match rev (mRDates r) with
    | [] => dts
    | lastDate :: _ => dts ++ [mkDateTime lastDate midnight (timeSpec (mStartDateTime r))]
    end in
  match rev (mRDateTimes r) with
  | [] => dts
  | lastDateTime :: _ => dts ++ [lastDateTime]
  end.

(** Recurrence::endDateTime().  [valid] is KDateTime::isValid().  An answer
    that is not valid is [None]: the KDateTime() the function returns for a
    rule without end, and also a last date/time that is itself invalid, as
    the start of a recurrence that was never given one is. *)
Definition endDateTime (midnight : QTime) (valid : KDateTime -> bool) (r : Recurrence)
    : option KDateTime :=
  match ruleEnds (mRRules r) with
  | None => None
  | Some ends =>
      match rev (sortUnique dt_lt dt_eq (endCandidates midnight r ++ ends)) with
      | [] => None
      | lastEnd :: _ => if valid lastEnd then Some lastEnd else None
      end
  end.

(** Recurrence::endDate(); an invalid QDate is [None]. *)
Definition endDate (midnight : QTime) (valid : KDateTime -> bool) (r : Recurrence)
    : option QDate :=
  option_map date (endDateTime midnight valid r).

(** Recurrence::monthDays() *)
Definition monthDays (r : Recurrence) : list Z :=
  match defaultRRuleConst r with
  | Some rrule => rule_byMonthDays rrule
  | None => []
  end.

(** Recurrence::monthPositions() *)
Definition monthPositions (r : Recurrence) : list WDayPos :=
  match defaultRRuleConst r with
  | Some rrule => rule_byDays rrule
  | None => []
  end.

(** Recurrence::yearDays() *)
Definition yearDays (r : Recurrence) : list Z :=
  match defaultRRuleConst r with
  | Some rrule => rule_byYearDays rrule
  | None => []
  end.

(** Recurrence::yearDates() *)
Definition yearDates (r : Recurrence) : list Z := monthDays r.

(** Recurrence::yearMonths() *)
Definition yearMonths (r : Recurrence) : list Z :=
  match defaultRRuleConst r with
  | Some rrule => rule_byMonths rrule
  | None => []
  end.

(** Recurrence::yearPositions() *)
Definition yearPositions (r : Recurrence) : list WDayPos := monthPositions r.

(** What the rule-building mutators have no business with: everything but
    the inclusion rules, the cached type and the calls delivered. *)
Definition besideTheRules (r : Recurrence) :=
  (mExRules r, explicitLists r, mStartDateTime r, mObservers r, mFloating r,
   mRecurReadOnly r).

(** The cached type is empty or is the type of the first inclusion rule. *)
Definition cacheFresh (r : Recurrence) : Prop :=
  mCachedType r = rMax \/ mCachedType r = recurrenceTypeOf (defaultRRuleConst r).

(** What an operation may do to the cached type: drop it, or leave it and
    the inclusion rules as they were. *)
Definition cacheKept (r r' : Recurrence) : Prop :=
  mCachedType r' = rMax
  \/ (mCachedType r' = mCachedType r /\ mRRules r' = mRRules r).

(** The times that timesInInterval() starts from, before sorting. *)
Definition includedTimes (r : Recurrence) (start end_ : KDateTime) : list KDateTime :=
  flat_map (fun x => rule_timesInInterval x start end_) (mRRules r)
  ++ mRDateTimes r ++ promoteRDates (startDateTime r) (mRDates r).

End FurtherQueries.

(** What is asked of an equality test that goes with a comparison: it is an
    equivalence, and the comparison does not tell equal values apart. *)
Record EquivLaws (T : Type) (ltb eqb : T -> T -> bool) : Prop := {
  eqb_refl : forall a, eqb a a = true;
  eqb_sym : forall a b, eqb a b = true -> eqb b a = true;
  eqb_trans : forall a b c, eqb a b = true -> eqb b c = true -> eqb a c = true;
  ltb_eqb_l : forall a b c, eqb a b = true -> ltb a c = ltb b c;
  ltb_eqb_r : forall a b c, eqb a b = true -> ltb c a = ltb c b
}.

(** ** FreeBusy (freebusy.cpp) *)

(** QDateTime is taken through the one operation addLocalPeriod() uses,
    [a.secsTo(b)]; a period is its start and its end. *)
Section FreeBusyPeriods.
Variable QDateTime : Type.
Variable secsTo : QDateTime -> QDateTime -> Z.



End FreeBusyPeriods.

(** ** Two runnable instances *)

(** Date/times with a fixed offset from UTC.  [wall] counts the seconds of
    the local wall clock from 00:00 of day 0, [zone] is the offset of the
    wall clock from UTC in seconds; a day has 86400 seconds.  Two values
    compare by the moment they denote.  There is no invalid value: the
    start of a fresh recurrence is day 0, 00:00 UTC. *)
Module FixedOffset.

Record DateTime : Type := mkDT { wall : Z; zone : Z; dateOnly : bool }.

Definition utc (k : DateTime) : Z := (wall k - zone k)%Z.

Definition toSpec (k : DateTime) (s : Z) : DateTime :=
  mkDT (utc k + s) s (dateOnly k).

Definition setSpec (k : DateTime) (s : Z) : DateTime :=
  mkDT (wall k) s (dateOnly k).

Definition dayOf (k : DateTime) : Z := (wall k / 86400)%Z.

Definition timeOf (k : DateTime) : Z := (wall k mod 86400)%Z.

Definition withDate (k : DateTime) (d : Z) : DateTime :=
  mkDT (d * 86400 + wall k mod 86400) (zone k) (dateOnly k).

Definition withTime (k : DateTime) (t : Z) : DateTime :=
  mkDT (wall k / 86400 * 86400 + t) (zone k) false.

#[export] Instance model : TimeModel := {|
  KDateTime := DateTime;
  QDate := Z;
  QTime := Z;
  Spec := Z;
  dt_lt := fun a b => (utc a <? utc b)%Z;
  dt_eq := fun a b => (utc a =? utc b)%Z;
  date_lt := Z.ltb;
  date_eq := Z.eqb;
  time_lt := Z.ltb;
  time_eq := Z.eqb;
  toTimeSpec := toSpec;
  setTimeSpec := setSpec;
  timeSpec := zone;
  date := dayOf;
  time := timeOf;
  setDate := withDate;
  setTime := withTime;
  isDateOnly := dateOnly;
  mkDateTime := fun d t s => mkDT (d * 86400 + t) s false;
  endOfDay := 86399%Z;
  nullDateTime := mkDT 0 0 false
|}.

(** Day [d], [h]:[m], in the zone [z] hours east of UTC. *)
Definition at_ (d h m z : Z) : DateTime :=
  mkDT (d * 86400 + h * 3600 + m * 60) (z * 3600) false.

(** The date-only value of day [d] in the zone [z] hours east of UTC. *)
Definition day_ (d z : Z) : DateTime := mkDT (d * 86400) (z * 3600) true.

End FixedOffset.

(** Rules given by the table of their occurrences, over [FixedOffset]. *)
Module TableRules.
Import FixedOffset.

Record Rule : Type := mkRule {
  addr : nat;
  start : DateTime;
  allDay : bool;
  period : PeriodType;
  freq : Z;
  count : Z;
  until : option DateTime;
  weekStart : Z;
  byDays : list WDayPos;
  byMonthDays : list Z;
  byYearDays : list Z;
  byMonths : list Z;
  occurrences : list DateTime          (* ascending *)
}.

(** A rule with the given table and no BY list. *)
Definition table (a : nat) (s : DateTime) (p : PeriodType) (f n : Z)
    (occ : list DateTime) : Rule :=
  mkRule a s false p f n None 1 [] [] [] [] occ.

Definition onDay (d s : Z) (o : DateTime) : bool := (dayOf (toSpec o s) =? d)%Z.

#[export] Instance model : RuleModel FixedOffset.model := {|
  RecurrenceRule := Rule;
  rule_addr := addr;
  rule_new := fun a => table a (mkDT 0 0 false) rNone 1 0 [];
  rule_startDt := start;
  rule_floats := allDay;
  rule_recurrenceType := period;
  rule_frequency := freq;
  rule_duration := count;
  rule_durationTo := fun r t =>
    Z.of_nat (length (filter (fun o => negb (utc t <? utc o)%Z) (occurrences r)));
  rule_endDt := until;
  rule_bySetPos := fun _ => [];
  rule_bySeconds := fun _ => [];
  rule_byMinutes := fun _ => [];
  rule_byHours := fun _ => [];
  rule_byDays := byDays;
  rule_byMonthDays := byMonthDays;
  rule_byYearDays := byYearDays;
  rule_byWeekNumbers := fun _ => [];
  rule_byMonths := byMonths;
  rule_setStartDt := fun s r =>
    mkRule (addr r) s (allDay r) (period r) (freq r) (count r) (until r) (weekStart r)
      (byDays r) (byMonthDays r) (byYearDays r) (byMonths r) (occurrences r);
  rule_setFloats := fun b r =>
    mkRule (addr r) (start r) b (period r) (freq r) (count r) (until r) (weekStart r)
      (byDays r) (byMonthDays r) (byYearDays r) (byMonths r) (occurrences r);
  rule_setEndDt := fun t r =>
    mkRule (addr r) (start r) (allDay r) (period r) (freq r) 0 (Some t) (weekStart r)
      (byDays r) (byMonthDays r) (byYearDays r) (byMonths r) (occurrences r);
  rule_setDuration := fun n r =>
    mkRule (addr r) (start r) (allDay r) (period r) (freq r) n (until r) (weekStart r)
      (byDays r) (byMonthDays r) (byYearDays r) (byMonths r) (occurrences r);
  rule_setFrequency := fun f r =>
    mkRule (addr r) (start r) (allDay r) (period r) f (count r) (until r) (weekStart r)
      (byDays r) (byMonthDays r) (byYearDays r) (byMonths r) (occurrences r);
  rule_shiftTimes := fun o n r =>
    mkRule (addr r) (setSpec (toSpec (start r) o) n) (allDay r) (period r) (freq r)
      (count r) (until r) (weekStart r) (byDays r) (byMonthDays r) (byYearDays r)
      (byMonths r) (map (fun k => setSpec (toSpec k o) n) (occurrences r));
  rule_setRecurrenceType := fun p r =>
    mkRule (addr r) (start r) (allDay r) p (freq r) (count r) (until r) (weekStart r)
      (byDays r) (byMonthDays r) (byYearDays r) (byMonths r) (occurrences r);
  rule_setWeekStart := fun w r =>
    mkRule (addr r) (start r) (allDay r) (period r) (freq r) (count r) (until r) w
      (byDays r) (byMonthDays r) (byYearDays r) (byMonths r) (occurrences r);
  rule_setByDays := fun l r =>
    mkRule (addr r) (start r) (allDay r) (period r) (freq r) (count r) (until r)
      (weekStart r) l (byMonthDays r) (byYearDays r) (byMonths r) (occurrences r);
  rule_setByMonthDays := fun l r =>
    mkRule (addr r) (start r) (allDay r) (period r) (freq r) (count r) (until r)
      (weekStart r) (byDays r) l (byYearDays r) (byMonths r) (occurrences r);
  rule_setByYearDays := fun l r =>
    mkRule (addr r) (start r) (allDay r) (period r) (freq r) (count r) (until r)
      (weekStart r) (byDays r) (byMonthDays r) l (byMonths r) (occurrences r);
  rule_setByMonths := fun l r =>
    mkRule (addr r) (start r) (allDay r) (period r) (freq r) (count r) (until r)
      (weekStart r) (byDays r) (byMonthDays r) (byYearDays r) l (occurrences r);
  rule_recursAt := fun r t => existsb (fun o => (utc t =? utc o)%Z) (occurrences r);
  rule_recursOn := fun r d s => existsb (onDay d s) (occurrences r);
  rule_recurTimesOn := fun r d s =>
    map (fun o => timeOf (toSpec o s)) (filter (onDay d s) (occurrences r));
  rule_timesInInterval := fun r a b =>
    filter (fun o => negb (utc o <? utc a)%Z && negb (utc b <? utc o)%Z) (occurrences r);
  rule_getNextDate := fun r t => find (fun o => (utc t <? utc o)%Z) (occurrences r);
  rule_getPreviousDate := fun r t =>
    find (fun o => (utc o <? utc t)%Z) (rev (occurrences r))
|}.

(** The recurrence type of the two instances. *)
Definition Rec : Type := @Recurrence FixedOffset.model model.

(** The mutators of the two instances. *)
Definition Mut : Type := @Mutator FixedOffset.model model.

(** A recurrence that starts at [s] and holds nothing yet. *)
Definition startingAt (s : DateTime) : Rec :=
  set_mStartDateTime (TM := FixedOffset.model) s newRecurrence.

End TableRules.

(** Recurrences and histories that the statements below are tried on. *)
Module Examples.
Import FixedOffset TableRules.

(** Five daily occurrences at 08:00 UTC from day 60 on. *)
Definition daily : Rule :=
  table 1 (at_ 60 8 0 0) rDaily 1 5
    [at_ 60 8 0 0; at_ 61 8 0 0; at_ 62 8 0 0; at_ 63 8 0 0; at_ 64 8 0 0].

(** The daily rule from day 60 on, day 62 excluded. *)
Definition dailyButDay62 : Rec :=
  setExDates [62%Z] (addRRule (Some daily) (setStartDateTime (at_ 60 8 0 0) newRecurrence)).

(** The daily rule, with one more time at noon of day 61, whose 08:00 is
    excluded. *)
Definition dailyNoonDay61 : Rec :=
  addExDateTime (at_ 61 8 0 0)
    (addRDateTime (at_ 61 12 0 0)
       (addRRule (Some daily) (setStartDateTime (at_ 60 8 0 0) newRecurrence))).

(** Two observers and a null entry. *)
Definition observed : Rec :=
  addObserver (Some 2) (set_mObservers [Some 1; None] dailyNoonDay61).

(** A recurrence whose date/times are all stored one hour east of UTC. *)
Definition eastOfUTC : Rec :=
  addExDateTime (at_ 33 9 0 1) (addRDateTime (at_ 40 18 30 1) (startingAt (at_ 30 9 0 1))).

(** The daily rule alone, from day 60 on, nothing excluded. *)
Definition dailyOnly : Rec := addRRule (Some daily) (startingAt (at_ 60 8 0 0)).

(** The mutators of a small history. *)
Definition history : list Mut :=
  [ SetStartDateTime (at_ 60 8 0 0);
    AddRRule (Some daily);
    SetExDates [62%Z];
    SetRDateTimes [at_ 9 8 0 0; at_ 3 8 0 1; at_ 9 9 0 1; at_ 5 0 0 0];
    AddRDate 12%Z;
    ShiftTimes 0%Z 3600%Z ].

End Examples.

(** ** A time spec with a daylight-saving change *)

(** Date/times in two time specs: UTC, and a zone that is two hours east
    of UTC until 01:00 UTC of day 0 and one hour east from then on, as a
    zone is on the day its daylight-saving time ends.  A value holds the
    moment it denotes, in seconds UTC from 00:00 of day 0, and its spec; the
    wall clock is read off the two.  In the zone the wall-clock hour from
    02:00 to 03:00 of day 0 comes twice; re-stamping takes its first
    coming.  Two values compare by their moments. *)
Module Daylight.

Inductive Zone : Type := Utc | Local.

Record DateTime : Type := mkDT { moment : Z; spec : Zone }.

(** The moment the zone's clocks go back: 01:00 UTC of day 0. *)
Definition change : Z := 3600%Z.

(** The wall clock of the moment [m] in the spec [z]. *)
Definition wallAt (m : Z) (z : Zone) : Z :=
  match z with
  | Utc => m
  | Local => if (m <? change)%Z then (m + 7200)%Z else (m + 3600)%Z
  end.

(** The moment at which the wall clock of [z] reads [w]. *)
Definition momentAt (w : Z) (z : Zone) : Z :=
  match z with
  | Utc => w
  | Local => if (w <? change + 7200)%Z then (w - 7200)%Z else (w - 3600)%Z
  end.

Definition wall (k : DateTime) : Z := wallAt (moment k) (spec k).

(** The same moment in another spec. *)
Definition toSpec (k : DateTime) (z : Zone) : DateTime := mkDT (moment k) z.

(** The same wall clock in another spec. *)
Definition setSpec (k : DateTime) (z : Zone) : DateTime := mkDT (momentAt (wall k) z) z.

#[export] Instance model : TimeModel := {|
  KDateTime := DateTime;
  QDate := Z;
  QTime := Z;
  Spec := Zone;
  dt_lt := fun a b => (moment a <? moment b)%Z;
  dt_eq := fun a b => (moment a =? moment b)%Z;
  date_lt := Z.ltb;
  date_eq := Z.eqb;
  time_lt := Z.ltb;
  time_eq := Z.eqb;
  toTimeSpec := toSpec;
  setTimeSpec := setSpec;
  timeSpec := spec;
  date := fun k => (wall k / 86400)%Z;
  time := fun k => (wall k mod 86400)%Z;
  setDate := fun k d => mkDT (momentAt (d * 86400 + wall k mod 86400) (spec k)) (spec k);
  setTime := fun k t => mkDT (momentAt (wall k / 86400 * 86400 + t) (spec k)) (spec k);
  isDateOnly := fun _ => false;
  mkDateTime := fun d t z => mkDT (momentAt (d * 86400 + t) z) z;
  endOfDay := 86399%Z;
  nullDateTime := mkDT 0 Utc
|}.

(** One rule object that never recurs, for recurrences that hold no rule. *)
#[export] Instance rules : RuleModel model := {|
  RecurrenceRule := unit;
  rule_addr := fun _ => O;
  rule_new := fun _ => tt;
  rule_startDt := fun _ => mkDT 0 Utc;
  rule_floats := fun _ => false;
  rule_recurrenceType := fun _ => rNone;
  rule_frequency := fun _ => 0%Z;
  rule_duration := fun _ => 0%Z;
  rule_durationTo := fun _ _ => 0%Z;
  rule_endDt := fun _ => None;
  rule_bySetPos := fun _ => [];
  rule_bySeconds := fun _ => [];
  rule_byMinutes := fun _ => [];
  rule_byHours := fun _ => [];
  rule_byDays := fun _ => [];
  rule_byMonthDays := fun _ => [];
  rule_byYearDays := fun _ => [];
  rule_byWeekNumbers := fun _ => [];
  rule_byMonths := fun _ => [];
  rule_setStartDt := fun _ x => x;
  rule_setFloats := fun _ x => x;
  rule_setEndDt := fun _ x => x;
  rule_setDuration := fun _ x => x;
  rule_setFrequency := fun _ x => x;
  rule_shiftTimes := fun _ _ x => x;
  rule_setRecurrenceType := fun _ x => x;
  rule_setWeekStart := fun _ x => x;
  rule_setByDays := fun _ x => x;
  rule_setByMonthDays := fun _ x => x;
  rule_setByYearDays := fun _ x => x;
  rule_setByMonths := fun _ x => x;
  rule_recursAt := fun _ _ => false;
  rule_recursOn := fun _ _ _ => false;
  rule_recurTimesOn := fun _ _ _ => [];
  rule_timesInInterval := fun _ _ _ => [];
  rule_getNextDate := fun _ _ => None;
  rule_getPreviousDate := fun _ _ => None
|}.

Definition Rec : Type := @Recurrence model rules.

(** [h]:[m] UTC of day 0. *)
Definition utc_ (h m : Z) : DateTime := mkDT (h * 3600 + m * 60) Utc.

(** A fresh recurrence given the inclusion date/times 00:50 UTC and 01:10
    UTC of day 0: ten minutes before and ten minutes after the zone's clocks
    go back, 02:50 and 02:10 on the zone's wall clock. *)
Definition aroundTheChange : Rec := setRDateTimes [utc_ 0 50; utc_ 1 10] newRecurrence.

End Daylight.

(** * Properties *)

(** ** Facts about the list operations *)

Section ListFacts.
Variable T : Type.
Variables ltb eqb : T -> T -> bool.

Lemma isEmpty_app (A : Type) (a b : list A) :
  isEmpty (a ++ b) = isEmpty a && isEmpty b.
Proof. destruct a; reflexivity. Qed.

Lemma isEmpty_true (A : Type) (l : list A) : isEmpty l = true <-> l = [].
Proof. destruct l; simpl; split; congruence. Qed.

Lemma scanUntil_spec (A : Type) (p : A -> bool) (l : list A) (flag : bool) :
  scanUntil p l flag = flag || existsb p l.
Proof.
  revert flag; induction l as [|x xs IH]; intro flag; simpl.
  - now rewrite orb_false_r.
  - destruct flag; simpl; [reflexivity|]. now rewrite IH.
Qed.

Lemma insertSorted_not_nil (v : T) (l : list T) : insertSorted ltb eqb v l <> [].
Proof. destruct l as [|x xs]; simpl; [discriminate|]. destruct (ltb v x), (eqb v x); discriminate. Qed.

Lemma isEmpty_sortUnique (l : list T) : isEmpty (sortUnique ltb eqb l) = isEmpty l.
Proof.
  destruct l as [|x xs]; simpl; [reflexivity|].
  destruct (insertSorted ltb eqb x (sortUnique ltb eqb xs)) eqn:E; [|reflexivity].
  now apply insertSorted_not_nil in E.
Qed.

Lemma In_insertSorted (v x : T) (l : list T) :
  In x (insertSorted ltb eqb v l) -> x = v \/ In x l.
Proof.
  induction l as [|y ys IH]; simpl.
  - intros [->|[]]; now left.
  - destruct (ltb v y); [simpl; intuition|].
    destruct (eqb v y); [simpl; intuition|].
    simpl. intros [->|H]; [right; now left|]. destruct (IH H); intuition.
Qed.

Lemma In_sortUnique (x : T) (l : list T) : In x (sortUnique ltb eqb l) -> In x l.
Proof.
  induction l as [|y ys IH]; simpl; [tauto|].
  intro H. apply In_insertSorted in H. destruct H as [->|H]; [now left|right; auto].
Qed.

Lemma removeEach_nil_times (es : list T) (st : nat) : removeEach eqb es st [] = [].
Proof. revert st; induction es as [|e es IH]; intro st; simpl; [reflexivity|apply IH]. Qed.

Lemma findGT_elementAt (v x : T) (l : list T) (i : nat) :
  findGT ltb v l = Some i -> nth_error l i = Some x -> ltb v x = true /\ In x l.
Proof.
  revert i; induction l as [|y ys IH]; intro i; simpl; [discriminate|].
  destruct (ltb v y) eqn:E.
  - intros [= <-]; simpl. intros [= <-]. split; [assumption|now left].
  - destruct (findGT ltb v ys) as [j|]; [|discriminate]. simpl.
    intros [= <-]; simpl. intro H. destruct (IH j eq_refl H). split; [assumption|now right].
Qed.

Lemma findLT_elementAt (v x : T) (l : list T) (i : nat) :
  findLT ltb v l = Some i -> nth_error l i = Some x -> ltb x v = true /\ In x l.
Proof.
  revert i; induction l as [|y ys IH]; intro i; simpl; [discriminate|].
  destruct (findLT ltb v ys) as [j|].
  - intros [= <-]; simpl. intro H. destruct (IH j eq_refl H). split; [assumption|now right].
  - destruct (ltb y v) eqn:E; [|discriminate].
    intros [= <-]; simpl. intros [= <-]. split; [assumption|now left].
Qed.

End ListFacts.

(** ** Facts about the engine *)

Section EngineFacts.
Context {TM : TimeModel} {RM : RuleModel TM}.

Lemma isEmpty_timesOnDate (l : list KDateTime) (qd : QDate) (ts : Spec) :
  isEmpty (timesOnDate l qd ts false)
  = negb (existsb (fun x => date_eq (date (toTimeSpec x ts)) qd) l).
Proof.
  induction l as [|x xs IH]; simpl; [reflexivity|].
  destruct (date_eq (date (toTimeSpec x ts)) qd); simpl; [reflexivity|apply IH].
Qed.

Lemma isEmpty_rule_times (rules : list RecurrenceRule) (qd : QDate) (ts : Spec) :
  (forall x, In x rules ->
     rule_recursOn x qd ts = negb (isEmpty (rule_recurTimesOn x qd ts))) ->
  isEmpty (flat_map (fun x => rule_recurTimesOn x qd ts) rules)
  = negb (existsb (fun x => rule_recursOn x qd ts) rules).
Proof.
  induction rules as [|x xs IH]; intro H; simpl; [reflexivity|].
  rewrite isEmpty_app, IH by (intros; apply H; now right).
  rewrite (H x) by now left.
  rewrite negb_orb, negb_involutive. reflexivity.
Qed.

Lemma existsb_In (A : Type) (p : A -> bool) (l : list A) :
  existsb p l = true <-> exists x, In x l /\ p x = true.
Proof. apply existsb_exists. Qed.

Lemma existsb_none (A : Type) (p : A -> bool) (l : list A) :
  existsb p l = false <-> ~ exists x, In x l /\ p x = true.
Proof.
  rewrite <- existsb_exists. destruct (existsb p l); split; intro H; congruence.
Qed.

End EngineFacts.

(** ** Aggregate queries and the first inclusion rule *)

Section Aggregates.
Context {TM : TimeModel} {RM : RuleModel TM}.

(** C10: duration(), durationTo(t) and frequency() consult the first
    inclusion rule only.  With no inclusion rule they are 0; with a first
    rule [x] they are that rule's answers; and two recurrences with the same
    first inclusion rule agree on all three, whatever further rules,
    inclusion dates and exclusion sources each of them holds. *)
Theorem aggregates_consult_first_rule (r r' : Recurrence) :
  (mRRules r = [] ->
     duration r = 0%Z /\ (forall t, durationTo r t = 0%Z) /\ frequency r = 0%Z)
  /\ (forall x rest, mRRules r = x :: rest ->
        duration r = rule_duration x
        /\ (forall t, durationTo r t = rule_durationTo x t)
        /\ frequency r = rule_frequency x)
  /\ (hd_error (mRRules r) = hd_error (mRRules r') ->
        duration r = duration r'
        /\ (forall t, durationTo r t = durationTo r' t)
        /\ frequency r = frequency r').
Proof.
  unfold duration, durationTo, frequency, defaultRRuleConst.
  repeat split.
  1-3: intros; match goal with H : mRRules _ = _ |- _ => rewrite H end; reflexivity.
  1-3: intros; match goal with H : mRRules _ = _ |- _ => rewrite H end; reflexivity.
  all: destruct (mRRules r) as [|a l], (mRRules r') as [|b l']; simpl in *;
    intros; congruence.
Qed.

End Aggregates.

(** ** recursAt *)

Section RecursAt.
Context {TM : TimeModel} {RM : RuleModel TM}.

(** C1: with [t] the argument converted to the time spec of the start,
    recursAt is false whenever an exclusion source names [t]; otherwise it is
    true exactly when an inclusion source names [t]. *)
Theorem recursAt_exclusion_then_inclusion (r : Recurrence) (dt : KDateTime) :
  let t := toTimeSpec dt (timeSpec (mStartDateTime r)) in
  (excludedAt r t -> recursAt r dt = false)
  /\ (~ excludedAt r t -> (recursAt r dt = true <-> includedAt r t)).
Proof.
  intro t. unfold recursAt, excludedAt, includedAt, containsSorted. fold t.
  destruct (existsb (dt_eq t) (mExDateTimes r)) eqn:Edt.
  { split; [reflexivity|]. intro H. exfalso. apply H. right; left.
    now apply existsb_exists in Edt. }
  destruct (existsb (date_eq (date t)) (mExDates r)) eqn:Ed.
  { split; [reflexivity|]. intro H. exfalso. apply H. left.
    now apply existsb_exists in Ed. }
  destruct (existsb (fun x => rule_recursAt x t) (mExRules r)) eqn:Er.
  { split; [reflexivity|]. intro H. exfalso. apply H. right; right.
    now apply existsb_exists in Er. }
  simpl. split.
  - intros [H|[H|H]]; apply existsb_exists in H; congruence.
  - intros _. unfold startDateTime.
    destruct (dt_eq (mStartDateTime r) t) eqn:Es; simpl.
    { split; [intros _; now left|reflexivity]. }
    destruct (existsb (dt_eq t) (mRDateTimes r)) eqn:Ei; simpl.
    { split; [intros _; right; left; now apply existsb_exists in Ei|reflexivity]. }
    rewrite existsb_exists. split.
    + intro H. right; right. exact H.
    + intros [H|[H|H]]; [congruence| |exact H].
      apply existsb_exists in H. congruence.
Qed.

End RecursAt.

(** ** recursOn against recurTimesOn *)

Section RecursOn.
Context {TM : TimeModel} {RM : RuleModel TM}.

(** The two short cuts that end both functions alike. *)
Lemma excluded_day_agrees (r : Recurrence) (qd : QDate) (ts : Spec) :
  containsSorted date_eq qd (mExDates r) = true
  \/ (floats r = true /\ existsb (fun x => rule_recursOn x qd ts) (mExRules r) = true) ->
  recursOn r qd ts = false /\ recurTimesOn r qd ts = [].
Proof.
  unfold recursOn, recurTimesOn. intros [H|[Hf H]].
  - rewrite H. split; [now destruct (dt_lt _ _)|reflexivity].
  - rewrite Hf, H; simpl.
    split; [destruct (dt_lt _ _); [reflexivity|]|]; now destruct (containsSorted _ _ _).
Qed.

(** C2, as the code has it: recursOn(d, z) is true exactly when
    recurTimesOn(d, z) is not empty, provided that the last second of [d]
    in [z] is not before the start, that [d] is not an inclusion date
    (recurTimesOn never reads the inclusion dates), that the date of the
    start is [d] in the start's own spec exactly when it is in [z], and that
    each held rule recurs on [d] exactly when it has a time on [d].  The
    short cuts on an excluded date and on a matching exclusion rule of an
    all-day recurrence agree with recurTimesOn without any proviso. *)
Theorem recursOn_iff_recurTimesOn (r : Recurrence) (qd : QDate) (ts : Spec) :
  (dt_lt (mkDateTime qd endOfDay ts) (mStartDateTime r) = false ->
   containsSorted date_eq qd (mRDates r) = false ->
   date_eq (startDate r) qd = date_eq (date (toTimeSpec (startDateTime r) ts)) qd ->
   (forall x, In x (mRRules r ++ mExRules r) ->
      rule_recursOn x qd ts = negb (isEmpty (rule_recurTimesOn x qd ts))) ->
   (recursOn r qd ts = true <-> recurTimesOn r qd ts <> []))
  /\ (containsSorted date_eq qd (mExDates r) = true
      \/ (floats r = true
          /\ existsb (fun x => rule_recursOn x qd ts) (mExRules r) = true) ->
      recursOn r qd ts = false /\ recurTimesOn r qd ts = []).
Proof.
  split; [|apply excluded_day_agrees].
  intros Hstart Hrd Hdate Hrules.
  assert (Hb : recursOn r qd ts = negb (isEmpty (recurTimesOn r qd ts))).
  { destruct (containsSorted date_eq qd (mExDates r)) eqn:Eex.
    { destruct (excluded_day_agrees r qd ts (or_introl Eex)) as [-> ->]. reflexivity. }
    destruct (floats r && existsb (fun x => rule_recursOn x qd ts) (mExRules r)) eqn:Eall.
    { apply andb_true_iff in Eall.
      destruct (excluded_day_agrees r qd ts (or_intror Eall)) as [-> ->]. reflexivity. }
    unfold recursOn. rewrite Hstart, Eex, Eall, Hrd. rewrite !scanUntil_spec.
    set (recurs := date_eq (startDate r) qd
                   || existsb (fun x => date_eq (date (toTimeSpec x ts)) qd) (mRDateTimes r)
                   || existsb (fun x => rule_recursOn x qd ts) (mRRules r)).
    set (exon := if negb (floats r)
                 then (false || existsb (fun x => date_eq (date (toTimeSpec x ts)) qd)
                                  (mExDateTimes r))
                      || existsb (fun x => rule_recursOn x qd ts) (mExRules r)
                 else false || existsb (fun x => date_eq (date (toTimeSpec x ts)) qd)
                                 (mExDateTimes r)).
    assert (Htimes : forall times,
      times = (if date_eq (date (toTimeSpec (startDateTime r) ts)) qd
               then [time (toTimeSpec (startDateTime r) ts)] else [])
              ++ timesOnDate (mRDateTimes r) qd ts false ->
      isEmpty (sortUnique time_lt time_eq
                 (times ++ flat_map (fun x => rule_recurTimesOn x qd ts) (mRRules r)))
      = negb recurs).
    { intros times ->. rewrite isEmpty_sortUnique, !isEmpty_app, isEmpty_timesOnDate.
      rewrite isEmpty_rule_times by (intros; apply Hrules, in_or_app; now left).
      unfold recurs. rewrite Hdate.
      destruct (date_eq (date (toTimeSpec (startDateTime r) ts)) qd); simpl;
        [reflexivity|]. now rewrite negb_orb. }
    assert (Hex : isEmpty (sortUnique time_lt time_eq
                    (if negb (floats r)
                     then timesOnDate (mExDateTimes r) qd ts false
                          ++ flat_map (fun x => rule_recurTimesOn x qd ts) (mExRules r)
                     else timesOnDate (mExDateTimes r) qd ts false))
                  = negb exon).
    { rewrite isEmpty_sortUnique. unfold exon.
      destruct (negb (floats r)); simpl.
      - rewrite isEmpty_app, isEmpty_timesOnDate.
        rewrite isEmpty_rule_times by (intros; apply Hrules, in_or_app; now right).
        now rewrite negb_orb.
      - apply isEmpty_timesOnDate. }
    destruct recurs eqn:Erec; simpl.
    - destruct exon eqn:Eexon; simpl; [reflexivity|].
      unfold recurTimesOn. rewrite Eex, Eall.
      apply isEmpty_true in Hex. rewrite Hex. simpl.
      rewrite (Htimes _ eq_refl). reflexivity.
    - unfold recurTimesOn. rewrite Eex, Eall.
      specialize (Htimes _ eq_refl). apply isEmpty_true in Htimes.
      rewrite Htimes, removeEach_nil_times. reflexivity. }
  rewrite Hb. destruct (recurTimesOn r qd ts); simpl; split; congruence.
Qed.

End RecursOn.

(** ** timesInInterval *)

Section TimesInInterval.
Context {TM : TimeModel} {RM : RuleModel TM}.

(** Only the rules are asked about the interval: a recurrence without
    rules answers timesInInterval() the same for every interval. *)
Lemma timesInInterval_without_rules (r : Recurrence) (s e s' e' : KDateTime) :
  mRRules r = [] -> mExRules r = [] ->
  timesInInterval r s e = timesInInterval r s' e'.
Proof. intros Hr He. unfold timesInInterval. now rewrite Hr, He. Qed.

End TimesInInterval.

Section TimesInIntervalExample.
Import FixedOffset TableRules.

(** C3: a recurrence that starts on day 10 at 10:00 UTC and holds the
    inclusion date/time day 50, 09:00 and the inclusion date day 70.  Asked
    for the times from day 10 to day 20, timesInInterval() answers with both
    of them, although both lie after the end of the interval. *)
Theorem timesInInterval_ignores_the_interval :
  let r : Rec :=
    set_mRDates [70%Z] (set_mRDateTimes [at_ 50 9 0 0] (startingAt (at_ 10 10 0 0))) in
  let start_ := at_ 10 0 0 0 in
  let end_ := at_ 20 0 0 0 in
  timesInInterval r start_ end_ = [at_ 50 9 0 0; at_ 70 10 0 0]
  /\ dt_lt end_ (at_ 50 9 0 0) = true
  /\ dt_lt end_ (at_ 70 10 0 0) = true.
Proof. vm_compute. repeat split. Qed.

End TimesInIntervalExample.

(** ** getNextDateTime and getPreviousDateTime *)

Section SearchFacts.
Context {TM : TimeModel} {RM : RuleModel TM}.
Variable pick : KDateTime -> option KDateTime.
Variable accept : KDateTime -> bool.
Local Abbreviation search := (search pick accept).

Lemma search_NoCandidate (n : nat) (c0 : KDateTime) :
  search n c0 = NoCandidate
  <-> exists k c, k < n /\ rejectedRun pick accept c0 k c /\ pick c = None.
Proof.
  revert c0; induction n as [|n IH]; intro c0; simpl.
  - split; [discriminate|]. intros (k & c & Hk & _). lia.
  - destruct (pick c0) as [x|] eqn:Ep.
    + destruct (accept x) eqn:Ea.
      * split; [discriminate|]. intros (k & c & _ & Hr & Hc).
        inversion Hr; subst; congruence.
      * rewrite IH. split.
        -- intros (k & c & Hk & Hr & Hc). exists (S k), c.
           split; [lia|]. split; [|exact Hc]. now apply rejected_more with x.
        -- intros (k & c & Hk & Hr & Hc). inversion Hr; subst; [congruence|].
           assert (x0 = x) by congruence. subst x0.
           exists k0, c. split; [lia|]. now split.
    + split; [|reflexivity]. intros _. exists O, c0.
      split; [lia|]. split; [constructor|exact Ep].
Qed.

Lemma search_LoopLimit (n : nat) (c0 : KDateTime) :
  search n c0 = LoopLimit <-> exists c, rejectedRun pick accept c0 n c.
Proof.
  revert c0; induction n as [|n IH]; intro c0; simpl.
  - split; [intros _; exists c0; constructor|reflexivity].
  - destruct (pick c0) as [x|] eqn:Ep.
    + destruct (accept x) eqn:Ea.
      * split; [discriminate|]. intros (c & Hr). inversion Hr; subst; congruence.
      * rewrite IH. split.
        -- intros (c & Hr). exists c. now apply rejected_more with x.
        -- intros (c & Hr). inversion Hr; subst.
           assert (x0 = x) by congruence. subst x0. now exists c.
    + split; [discriminate|]. intros (c & Hr). inversion Hr; subst; congruence.
Qed.

Lemma search_Found (n : nat) (c0 t : KDateTime) :
  search n c0 = Found t ->
  exists k c, k < n /\ rejectedRun pick accept c0 k c /\ pick c = Some t /\ accept t = true.
Proof.
  revert c0; induction n as [|n IH]; intro c0; simpl; [discriminate|].
  destruct (pick c0) as [x|] eqn:Ep; [|discriminate].
  destruct (accept x) eqn:Ea.
  - intros [= <-]. exists O, c0. split; [lia|]. split; [constructor|]. now split.
  - intro H. destruct (IH _ H) as (k & c & Hk & Hr & Hc).
    exists (S k), c. split; [lia|]. split; [|exact Hc]. now apply rejected_more with x.
Qed.

(** A relation every selection respects and that is transitive holds
    between the start of a run and whatever the round after it selects. *)
Lemma selected_after_run (R : KDateTime -> KDateTime -> Prop) :
  (forall a b c, R a b -> R b c -> R a c) ->
  (forall c x, pick c = Some x -> R c x) ->
  forall c0 k c t, rejectedRun pick accept c0 k c -> pick c = Some t -> R c0 t.
Proof.
  intros Htrans Hpick c0 k c t Hr. induction Hr as [c0|c0 x c k Hp Ha Hr IH]; intro Ht.
  - now apply Hpick.
  - apply Htrans with x; [now apply Hpick|now apply IH].
Qed.

End SearchFacts.

Section Searches.
Context {TM : TimeModel} {RM : RuleModel TM}.

Lemma nextSearch_search (r : Recurrence) (n : nat) (c : KDateTime) :
  nextSearch n r c = search (pickNext r) (admitted r) n c.
Proof.
  revert c; induction n as [|n IH]; intro c; simpl; [reflexivity|].
  unfold pickNext. destruct (nextCandidates r c) as [|x xs]; simpl; [reflexivity|].
  destruct (admitted r x); [reflexivity|apply IH].
Qed.

Lemma previousSearch_search (r : Recurrence) (n : nat) (c : KDateTime) :
  previousSearch n r c = search (pickPrevious r) (admitted r) n c.
Proof.
  revert c; induction n as [|n IH]; intro c; simpl; [reflexivity|].
  unfold pickPrevious. destruct (rev (previousCandidates r c)) as [|x xs]; simpl;
    [reflexivity|].
  destruct (admitted r x); [reflexivity|apply IH].
Qed.

Lemma allowed_fold (p : RecurrenceRule -> bool) (l : list RecurrenceRule) (b : bool) :
  fold_left (fun allowed x => allowed && negb (p x)) l b = b && negb (existsb p l).
Proof.
  revert b; induction l as [|x xs IH]; intro b; simpl.
  - now rewrite andb_true_r.
  - rewrite IH, negb_orb, andb_assoc. reflexivity.
Qed.

Lemma admitted_not_excluded (r : Recurrence) (t : KDateTime) :
  admitted r t = true <-> ~ excludedAt r t.
Proof.
  unfold admitted, excludedAt, containsSorted. rewrite allowed_fold. simpl.
  destruct (existsb (date_eq (date t)) (mExDates r)) eqn:Ed; simpl.
  { split; [discriminate|]. intro H. exfalso. apply H. left.
    now apply existsb_exists in Ed. }
  destruct (existsb (dt_eq t) (mExDateTimes r)) eqn:Edt; simpl.
  { split; [discriminate|]. intro H. exfalso. apply H. right; left.
    now apply existsb_exists in Edt. }
  destruct (existsb (fun x => rule_recursAt x t) (mExRules r)) eqn:Er; simpl.
  { split; [discriminate|]. intro H. exfalso. apply H. right; right.
    now apply existsb_exists in Er. }
  split; [|reflexivity]. intros _ [H|[H|H]]; apply existsb_exists in H; congruence.
Qed.

Lemma In_elementAt (l : list KDateTime) (i : option nat) (x : KDateTime) :
  In x (elementAt l i) -> exists n, i = Some n /\ nth_error l n = Some x.
Proof.
  destruct i as [n|]; simpl; [|tauto].
  destruct (nth_error l n) as [y|] eqn:E; simpl; [|tauto].
  intros [<-|[]]. now exists n.
Qed.

Lemma In_firstRDateAfter (kdt : KDateTime) (ds : list QDate) (c x : KDateTime) :
  In x (firstRDateAfter kdt ds c) -> dt_lt c x = true.
Proof.
  revert kdt; induction ds as [|d ds IH]; intro kdt; simpl; [tauto|].
  destruct (dt_lt c (setDate kdt d)) eqn:E; [|apply IH].
  intros [<-|[]]. exact E.
Qed.

Lemma In_lastRDateBefore (kdt : KDateTime) (ds : list QDate) (c x : KDateTime) :
  In x (lastRDateBefore kdt ds c) -> dt_lt x c = true.
Proof.
  revert kdt; induction ds as [|d ds IH]; intro kdt; simpl; [tauto|].
  destruct (dt_lt (setDate kdt d) c) eqn:E; [|apply IH].
  intros [<-|[]]. exact E.
Qed.

Lemma In_validDates (f : RecurrenceRule -> option KDateTime) (l : list RecurrenceRule)
    (x : KDateTime) :
  In x (flat_map (fun rule => validDate (f rule)) l) ->
  exists rule, In rule l /\ f rule = Some x.
Proof.
  rewrite in_flat_map. intros (rule & Hin & H). exists rule. split; [exact Hin|].
  destruct (f rule); simpl in H; [|tauto]. destruct H as [->|[]]. reflexivity.
Qed.

(** Every candidate of a round of getNextDateTime() is later than the
    date/time the round starts from, as soon as the rules' own next dates
    are. *)
Lemma nextCandidates_later (r : Recurrence) (c x : KDateTime) :
  (forall rule y, In rule (mRRules r) -> rule_getNextDate rule c = Some y ->
     dt_lt c y = true) ->
  In x (nextCandidates r c) -> dt_lt c x = true.
Proof.
  intros Hrule Hin. unfold nextCandidates in Hin. apply In_sortUnique in Hin.
  rewrite !in_app_iff in Hin. destruct Hin as [[[H|H]|H]|H].
  - destruct (dt_lt c (startDateTime r)) eqn:E; simpl in H; [|tauto].
    destruct H as [<-|[]]. exact E.
  - apply In_elementAt in H. destruct H as (n & Hn & Hx).
    now destruct (findGT_elementAt _ _ _ Hn Hx).
  - now apply In_firstRDateAfter in H.
  - apply In_validDates in H. destruct H as (rule & Hin & H). now apply Hrule with rule.
Qed.

Lemma previousCandidates_earlier (r : Recurrence) (c x : KDateTime) :
  (forall rule y, In rule (mRRules r) -> rule_getPreviousDate rule c = Some y ->
     dt_lt y c = true) ->
  In x (previousCandidates r c) -> dt_lt x c = true.
Proof.
  intros Hrule Hin. unfold previousCandidates in Hin. apply In_sortUnique in Hin.
  rewrite !in_app_iff in Hin. destruct Hin as [[[H|H]|H]|H].
  - destruct (dt_lt (startDateTime r) c) eqn:E; simpl in H; [|tauto].
    destruct H as [<-|[]]. exact E.
  - apply In_elementAt in H. destruct H as (n & Hn & Hx).
    now destruct (findLT_elementAt _ _ _ Hn Hx).
  - now apply In_lastRDateBefore in H.
  - apply In_validDates in H. destruct H as (rule & Hin & H). now apply Hrule with rule.
Qed.

Lemma hd_error_In (A : Type) (l : list A) (x : A) : hd_error l = Some x -> In x l.
Proof. destruct l; simpl; [discriminate|]. intros [= ->]. now left. Qed.

Lemma hd_error_nil (A : Type) (l : list A) : hd_error l = None <-> l = [].
Proof. destruct l; simpl; split; congruence. Qed.

Lemma rev_nil_iff (A : Type) (l : list A) : rev l = [] <-> l = [].
Proof.
  split; [|intros ->; reflexivity]. intro H.
  rewrite <- (rev_involutive l), H. reflexivity.
Qed.

(** C4, as the code has it.  getNextDateTime(after) gives no date/time
    exactly when some round, the first included, has no candidate after the
    date/time the search then stands at (at first [after], later the
    candidate rejected last), or when 1000 candidates in a row have been
    rejected; a date/time it gives is later than [after] and no exclusion
    source names it.  getPreviousDateTime mirrors this with "earlier".  The
    rules are taken to answer getNextDate / getPreviousDate with a
    date/time on the asked side. *)
Theorem next_and_previous_search (r : Recurrence) (from : KDateTime) :
  (forall a b c, dt_lt a b = true -> dt_lt b c = true -> dt_lt a c = true) ->
  (forall rule c y, In rule (mRRules r) ->
     (rule_getNextDate rule c = Some y -> dt_lt c y = true)
     /\ (rule_getPreviousDate rule c = Some y -> dt_lt y c = true)) ->
  ((getNextDateTime r from = None
    <-> (exists k c, k < 1000 /\ nextRejected r from k c /\ nextCandidates r c = [])
        \/ (exists c, nextRejected r from 1000 c))
   /\ (forall t, getNextDateTime r from = Some t ->
         dt_lt from t = true /\ ~ excludedAt r t))
  /\ ((getPreviousDateTime r from = None
       <-> (exists k c, k < 1000 /\ previousRejected r from k c
                        /\ previousCandidates r c = [])
           \/ (exists c, previousRejected r from 1000 c))
      /\ (forall t, getPreviousDateTime r from = Some t ->
            dt_lt t from = true /\ ~ excludedAt r t)).
Proof.
  intros Htrans Hrules.
  unfold getNextDateTime, getPreviousDateTime, nextRejected, previousRejected.
  rewrite nextSearch_search, previousSearch_search.
  split; split.
  - destruct (search (pickNext r) (admitted r) 1000 from) eqn:E; simpl.
    + split; [discriminate|]. intros [H|H].
      * destruct H as (k & c & Hk & Hr & Hc).
        assert (search (pickNext r) (admitted r) 1000 from = NoCandidate); [|congruence].
        apply search_NoCandidate. exists k, c. repeat split; try assumption.
        unfold pickNext. now rewrite Hc.
      * apply search_LoopLimit in H. congruence.
    + split; [|reflexivity]. intros _. left.
      apply search_NoCandidate in E. destruct E as (k & c & Hk & Hr & Hc).
      exists k, c. repeat split; try assumption. now apply hd_error_nil.
    + split; [|reflexivity]. intros _. right. now apply search_LoopLimit.
  - intros t H. destruct (search (pickNext r) (admitted r) 1000 from) eqn:E;
      simpl in H; try discriminate. injection H as ->.
    apply search_Found in E. destruct E as (k & c & Hk & Hr & Hc & Ha).
    split; [|now apply admitted_not_excluded].
    refine (selected_after_run (fun a b => dt_lt a b = true) Htrans _ Hr Hc).
    intros c' x Hp. apply nextCandidates_later with r; [|now apply hd_error_In].
    intros rule y Hin. now apply Hrules.
  - destruct (search (pickPrevious r) (admitted r) 1000 from) eqn:E; simpl.
    + split; [discriminate|]. intros [H|H].
      * destruct H as (k & c & Hk & Hr & Hc).
        assert (search (pickPrevious r) (admitted r) 1000 from = NoCandidate);
          [|congruence].
        apply search_NoCandidate. exists k, c. repeat split; try assumption.
        unfold pickPrevious. now rewrite Hc.
      * apply search_LoopLimit in H. congruence.
    + split; [|reflexivity]. intros _. left.
      apply search_NoCandidate in E. destruct E as (k & c & Hk & Hr & Hc).
      exists k, c. repeat split; try assumption.
      now apply rev_nil_iff, hd_error_nil.
    + split; [|reflexivity]. intros _. right. now apply search_LoopLimit.
  - intros t H. destruct (search (pickPrevious r) (admitted r) 1000 from) eqn:E;
      simpl in H; try discriminate. injection H as ->.
    apply search_Found in E. destruct E as (k & c & Hk & Hr & Hc & Ha).
    split; [|now apply admitted_not_excluded].
    refine (selected_after_run (fun a b => dt_lt b a = true) _ _ Hr Hc).
    + intros a b c' H1 H2. now apply Htrans with b.
    + intros c' x Hp. apply previousCandidates_earlier with r.
      * intros rule y Hin. now apply Hrules.
      * apply hd_error_In in Hp. now apply in_rev.
Qed.

End Searches.

(** ** Change notification *)

Section Notification.
Context {TM : TimeModel} {RM : RuleModel TM}.

Lemma broadcast_add (obs : list (option Observer)) (a b : nat) :
  broadcast obs (a + b) = broadcast obs a ++ broadcast obs b.
Proof.
  unfold broadcast. rewrite repeat_app, concat_app. reflexivity.
Qed.

Lemma broadcast_one (obs : list (option Observer)) : broadcast obs 1 = notified obs.
Proof. unfold broadcast. simpl. apply app_nil_r. Qed.

Lemma updated_once (r : Recurrence) : updated r = updatedTimes 1 r.
Proof. destruct r. unfold updated, updatedTimes. simpl. now rewrite broadcast_one. Qed.

Lemma updatedTimes_zero (r : Recurrence) : updatedTimes 0 r = r.
Proof. destruct r. unfold updatedTimes, broadcast. simpl. now rewrite app_nil_r. Qed.

Lemma updatedTimes_more (a b : nat) (r : Recurrence) :
  updatedTimes a (updatedTimes b r) = updatedTimes (b + a) r.
Proof.
  destruct r. unfold updatedTimes. simpl.
  rewrite broadcast_add, app_assoc.
  destruct a, b; simpl; try reflexivity.
Qed.

Lemma mutateRules_closed (f : RecurrenceRule -> RecurrenceRule)
    (rules : list RecurrenceRule) (r : Recurrence) :
  mutateRules f rules r = (map f rules, updatedTimes (length rules) r).
Proof.
  revert r; induction rules as [|x xs IH]; intro r; simpl.
  - now rewrite updatedTimes_zero.
  - unfold recurrenceChanged. rewrite IH, updated_once, updatedTimes_more. reflexivity.
Qed.

Lemma eachRRule_closed (f : RecurrenceRule -> RecurrenceRule) (r : Recurrence) :
  eachRRule f r = set_mRRules (map f (mRRules r)) (updatedTimes (length (mRRules r)) r).
Proof. unfold eachRRule. now rewrite mutateRules_closed. Qed.

Lemma eachExRule_closed (f : RecurrenceRule -> RecurrenceRule) (r : Recurrence) :
  eachExRule f r = set_mExRules (map f (mExRules r)) (updatedTimes (length (mExRules r)) r).
Proof. unfold eachExRule. now rewrite mutateRules_closed. Qed.

End Notification.

(** Bring the loops over the held rules and updated() to closed form. *)
Ltac closed_forms :=
  repeat (rewrite ?eachRRule_closed, ?eachExRule_closed, ?updated_once; simpl).

Section NotificationOfMutators.
Context {TM : TimeModel} {RM : RuleModel TM}.

Lemma broadcast_zero (obs : list (option Observer)) : broadcast obs 0 = [].
Proof. reflexivity. Qed.

Lemma broadcast_twice (d : list Observer) (obs : list (option Observer)) (a b : nat) :
  (d ++ broadcast obs a) ++ broadcast obs b = d ++ broadcast obs (a + b).
Proof. now rewrite broadcast_add, app_assoc. Qed.

Lemma broadcast_first (d : list Observer) (obs : list (option Observer)) :
  d = d ++ broadcast obs 0.
Proof. now rewrite broadcast_zero, app_nil_r. Qed.

Ltac settle :=
  unfold passesBetween; simpl;
  split; [|split];
  [ rewrite <- ?broadcast_one, ?broadcast_twice;
    try (f_equal; f_equal; simpl; lia); try apply broadcast_first
  | reflexivity
  | try reflexivity ].

Lemma passes_of_mutator (m : Mutator) (r : Recurrence) :
  mRecurReadOnly r = false ->
  (forall l, m <> SetExDateTimes l) ->
  passesBetween (updateRounds m r) r (run m r).
Proof.
  intros Hro Hm.
  destruct r as [exr rr rdts rds exdts exds st obs cache fl ro dl].
  simpl in Hro; subst ro.
  destruct m; simpl;
    unfold clear, unsetRecurs, setStartDateTime, setFloats, setEndDateTime, setDuration,
      setFrequency, shiftTimes, addRRule, removeRRule, addExRule, removeExRule,
      setRDateTimes, addRDateTime, setRDates, addRDate, addExDateTime, setExDates,
      addExDate, floatsRounds, defaultRuleRounds, addRounds, defaultRRule, addRRule,
      ruleMutated, recurrenceChanged, mutateDefaultRRule; simpl.
  all: try (closed_forms; settle; fail).
  - destruct (isDateOnly start), fl; simpl; closed_forms; rewrite ?length_map; settle.
  - destruct floats0, fl; simpl; closed_forms; settle; intro; lia.
  - destruct rr; simpl; [destruct (holds _ _); simpl|]; closed_forms; settle.
  - destruct rr; simpl; [destruct (holds _ _); simpl|]; closed_forms; settle.
  - destruct (freq <=? 0)%Z; simpl; [settle; intro; lia|].
    destruct rr; simpl; [destruct (holds _ _); simpl|]; closed_forms; settle.
  - closed_forms; rewrite ?length_map; settle.
    destruct rr, exr; simpl; intro; try reflexivity; lia.
  - destruct rrule as [x|]; simpl; [|settle; intro; lia].
    destruct (holds _ x); simpl; closed_forms; settle.
  - destruct exrule as [x|]; simpl; [|settle; intro; lia].
    destruct (holds _ x); simpl; closed_forms; settle.
  - exfalso. now apply (Hm exdates).
Qed.

(** setExDateTimes() stores the sorted list and tells nobody. *)
Lemma setExDateTimes_is_silent (exdates : list KDateTime) (r : Recurrence) :
  delivered (setExDateTimes exdates r) = delivered r
  /\ mCachedType (setExDateTimes exdates r) = mCachedType r.
Proof. unfold setExDateTimes. destruct (mRecurReadOnly r); split; reflexivity. Qed.

(** shiftTimes() has no updated() of its own either: it re-stamps the start
    and the date/times, and with no rule held to report back it calls no
    observer and leaves the cached type. *)
Lemma shiftTimes_is_silent (oldSpec newSpec : Spec) (r : Recurrence) :
  mRecurReadOnly r = false -> mRRules r = [] -> mExRules r = [] ->
  mStartDateTime (shiftTimes oldSpec newSpec r)
  = shiftDateTime oldSpec newSpec (mStartDateTime r)
  /\ delivered (shiftTimes oldSpec newSpec r) = delivered r
  /\ mCachedType (shiftTimes oldSpec newSpec r) = mCachedType r.
Proof.
  intros Hro Hr He. unfold shiftTimes, eachRRule, eachExRule. rewrite Hro. simpl.
  rewrite Hr. simpl. rewrite He. simpl. now repeat split.
Qed.

Lemma run_read_only (m : Mutator) (r : Recurrence) :
  mRecurReadOnly r = true -> run m r = r.
Proof.
  intro Hro.
  destruct m; simpl;
    unfold clear, unsetRecurs, setStartDateTime, setFloats, setEndDateTime, setDuration,
      setFrequency, shiftTimes, addRRule, removeRRule, addExRule, removeExRule,
      setRDateTimes, addRDateTime, setRDates, addRDate, setExDateTimes, addExDateTime,
      setExDates, addExDate;
    rewrite ?Hro; try reflexivity.
  - now destruct rrule.
  - now destruct exrule.
Qed.

(** The rule-building mutators make the same test, addYearlyDay excepted. *)
Lemma build_read_only (b : RuleBuilder) (r : Recurrence) :
  mRecurReadOnly r = true -> (forall day, b <> AddYearlyDay day) -> build b r = r.
Proof.
  intros Hro Hb.
  assert (Hnew : forall type freq, setNewRecurrenceType type freq r = (false, r)).
  { intros. unfold setNewRecurrenceType. now rewrite Hro. }
  assert (Hpos : forall pos days, addMonthlyPos pos days r = r).
  { intros. unfold addMonthlyPos. now rewrite Hro. }
  destruct b; simpl;
    unfold setEndDate, setEndDateTime, setMinutely, setHourly, setDaily, setMonthly,
      setYearly, setPeriodic, setWeeklyDays, setWeekly, addWeeklyDays, addMonthlyPosDay,
      addMonthlyDate, addYearlyDate, addYearlyPos, addYearlyMonth, addMonthlyDate;
    rewrite ?Hnew, ?Hpos, ?Hro; try reflexivity.
  exfalso. now apply (Hb day).
Qed.

(** C6: on a read-only recurrence every guarded mutator returns the state
    it was given: lists, rules, start, flags, cached type, observers and the
    calls delivered so far are all as before. *)
Theorem read_only_mutators_are_no_ops (m : Mutator) (r : Recurrence) :
  mRecurReadOnly r = true -> run m r = r.
Proof. apply run_read_only. Qed.

End NotificationOfMutators.

(** ** Sorting *)

Section SortingFacts.
Variable T : Type.
Variables ltb eqb : T -> T -> bool.
Hypothesis laws : OrderLaws ltb eqb.

Lemma insertSorted_sorted (v : T) (l : list T) :
  sortedUnique ltb eqb l -> sortedUnique ltb eqb (insertSorted ltb eqb v l).
Proof.
  unfold sortedUnique. induction 1 as [|x xs Hs IH Hx]; simpl.
  - constructor; constructor.
  - destruct (ltb v x) eqn:Elt.
    + constructor; [now constructor|]. constructor.
      * split; [exact Elt|]. now apply (lt_not_eq laws).
      * rewrite Forall_forall in *. intros y Hy. destruct (Hx y Hy) as [Hxy _].
        assert (ltb v y = true) by now apply (lt_trans laws) with x.
        split; [assumption|]. now apply (lt_not_eq laws).
    + destruct (eqb v x) eqn:Eeq; [now constructor|].
      constructor; [exact IH|]. rewrite Forall_forall in *. intros y Hy.
      apply In_insertSorted in Hy. destruct Hy as [->|Hy]; [|now apply Hx].
      assert (ltb x v = true) by now apply (lt_total laws).
      split; [assumption|]. now apply (lt_not_eq laws).
Qed.

Lemma sortUnique_sorted (l : list T) : sortedUnique ltb eqb (sortUnique ltb eqb l).
Proof.
  induction l as [|x xs IH]; simpl; [constructor|]. now apply insertSorted_sorted.
Qed.

Lemma sorted_map (f : T -> T) (l : list T) :
  (forall a b, ltb a b = true -> ltb (f a) (f b) = true) ->
  sortedUnique ltb eqb l -> sortedUnique ltb eqb (map f l).
Proof.
  intro Hf. unfold sortedUnique. induction 1 as [|x xs Hs IH Hx]; simpl; constructor.
  - exact IH.
  - rewrite Forall_forall in *. intros y Hy. apply in_map_iff in Hy.
    destruct Hy as (z & <- & Hz). destruct (Hx z Hz) as [Hlt _].
    split; [now apply Hf|]. now apply (lt_not_eq laws), Hf.
Qed.

End SortingFacts.

(** ** The sorted lists as an invariant *)

Section SortedInvariant.
Context {TM : TimeModel} {RM : RuleModel TM}.

Lemma explicitLists_of_run (m : Mutator) (r : Recurrence) :
  mRecurReadOnly r = false -> explicitLists (run m r) = listsAfter m r.
Proof.
  intro Hro.
  destruct r as [exr rr rdts rds exdts exds st obs cache fl ro dl].
  simpl in Hro; subst ro.
  destruct m; simpl;
    unfold clear, unsetRecurs, setStartDateTime, setFloats, setEndDateTime, setDuration,
      setFrequency, shiftTimes, addRRule, removeRRule, addExRule, removeExRule,
      setRDateTimes, addRDateTime, setRDates, addRDate, setExDateTimes, addExDateTime,
      setExDates, addExDate, defaultRRule, addRRule, ruleMutated, recurrenceChanged,
      mutateDefaultRRule; simpl.
  all: try (closed_forms; reflexivity).
  - destruct (isDateOnly start), fl; simpl; closed_forms; reflexivity.
  - destruct floats0, fl; simpl; closed_forms; reflexivity.
  - destruct rr; simpl; [destruct (holds _ _); simpl|]; closed_forms; reflexivity.
  - destruct rr; simpl; [destruct (holds _ _); simpl|]; closed_forms; reflexivity.
  - destruct (freq <=? 0)%Z; simpl; [reflexivity|].
    destruct rr; simpl; [destruct (holds _ _); simpl|]; closed_forms; reflexivity.
  - destruct rrule as [x|]; simpl; [|reflexivity].
    destruct (holds _ x); simpl; closed_forms; reflexivity.
  - destruct exrule as [x|]; simpl; [|reflexivity].
    destruct (holds _ x); simpl; closed_forms; reflexivity.
Qed.

Lemma explicitLists_updated (r : Recurrence) : explicitLists (updated r) = explicitLists r.
Proof. reflexivity. Qed.

Lemma explicitLists_set_mRRules (v : list RecurrenceRule) (r : Recurrence) :
  explicitLists (set_mRRules v r) = explicitLists r.
Proof. reflexivity. Qed.

Lemma explicitLists_mutateDefaultRRule (f : RecurrenceRule -> RecurrenceRule)
    (r : Recurrence) :
  explicitLists (mutateDefaultRRule f r) = explicitLists r.
Proof. unfold mutateDefaultRRule. now destruct (mRRules r). Qed.

Lemma explicitLists_addRRule (x : option RecurrenceRule) (r : Recurrence) :
  explicitLists (addRRule x r) = explicitLists r.
Proof.
  unfold addRRule, ruleMutated. destruct x as [x|]; [|reflexivity].
  destruct (mRecurReadOnly r); [reflexivity|]. now destruct (holds r x).
Qed.

Lemma explicitLists_defaultRRule (create : bool) (r : Recurrence) :
  explicitLists (snd (defaultRRule create r)) = explicitLists r.
Proof.
  unfold defaultRRule. destruct (mRRules r); [|reflexivity].
  destruct (negb create || mRecurReadOnly r); [reflexivity|].
  cbn [snd]. apply explicitLists_addRRule.
Qed.

Lemma explicitLists_setEndDateTime (dt : KDateTime) (r : Recurrence) :
  explicitLists (setEndDateTime dt r) = explicitLists r.
Proof.
  unfold setEndDateTime. destruct (mRecurReadOnly r); [reflexivity|].
  pose proof (explicitLists_defaultRRule true r) as E.
  destruct (defaultRRule true r) as [[x|] r1]; simpl in E; [|exact E].
  now rewrite explicitLists_updated, explicitLists_mutateDefaultRRule.
Qed.

Lemma explicitLists_setNewRecurrenceType (type : PeriodType) (freq : Z) (r : Recurrence) :
  explicitLists (snd (setNewRecurrenceType type freq r)) = explicitLists r.
Proof.
  unfold setNewRecurrenceType. destruct (mRecurReadOnly r || (freq <=? 0)%Z); [reflexivity|].
  pose proof (explicitLists_defaultRRule true (updated (set_mRRules [] r))) as E.
  destruct (defaultRRule true (updated (set_mRRules [] r))) as [[x|] r1]; simpl in *;
    [|exact E].
  now rewrite !explicitLists_mutateDefaultRRule.
Qed.

Lemma explicitLists_setPeriodic (type : PeriodType) (freq : Z) (r : Recurrence) :
  explicitLists (setPeriodic type freq r) = explicitLists r.
Proof.
  unfold setPeriodic. pose proof (explicitLists_setNewRecurrenceType type freq r) as E.
  destruct (setNewRecurrenceType type freq r) as [[|] r1]; simpl in E; [|exact E].
  now rewrite explicitLists_updated.
Qed.

Lemma explicitLists_setWeekly (freq weekStart : Z) (r : Recurrence) :
  explicitLists (setWeekly freq weekStart r) = explicitLists r.
Proof.
  unfold setWeekly. pose proof (explicitLists_setNewRecurrenceType rWeekly freq r) as E.
  destruct (setNewRecurrenceType rWeekly freq r) as [[|] r1]; simpl in E; [|exact E].
  now rewrite explicitLists_updated, explicitLists_mutateDefaultRRule.
Qed.

Lemma explicitLists_addMonthlyPos (pos : Z) (days : list bool) (r : Recurrence) :
  explicitLists (addMonthlyPos pos days r) = explicitLists r.
Proof.
  unfold addMonthlyPos.
  destruct (mRecurReadOnly r || (53 <? pos)%Z || (pos <? -53)%Z); [reflexivity|].
  pose proof (explicitLists_defaultRRule false r) as E.
  destruct (defaultRRule false r) as [[x|] r1]; simpl in E; [|exact E].
  destruct (addPositions pos days 0 7 (rule_byDays x) false) as [positions [|]];
    [|exact E].
  now rewrite explicitLists_updated, explicitLists_mutateDefaultRRule.
Qed.

Lemma explicitLists_addMonthlyDate (day : Z) (r : Recurrence) :
  explicitLists (addMonthlyDate day r) = explicitLists r.
Proof.
  unfold addMonthlyDate.
  destruct (mRecurReadOnly r || (31 <? day)%Z || (day <? -31)%Z); [reflexivity|].
  pose proof (explicitLists_defaultRRule true r) as E.
  destruct (defaultRRule true r) as [[x|] r1]; simpl in E; [|exact E].
  destruct (existsb (Z.eqb day) (rule_byMonthDays x)); [exact E|].
  now rewrite explicitLists_updated, explicitLists_mutateDefaultRRule.
Qed.

(** The rule-building mutators leave the four explicit lists alone. *)
Lemma explicitLists_of_build (b : RuleBuilder) (r : Recurrence) :
  explicitLists (build b r) = explicitLists r.
Proof.
  destruct b; simpl;
    unfold setEndDate, setMinutely, setHourly, setDaily, setMonthly, setYearly,
      setWeeklyDays, addWeeklyDays, addYearlyDate, addYearlyPos;
    rewrite ?explicitLists_setEndDateTime, ?explicitLists_setPeriodic,
      ?explicitLists_addMonthlyPos, ?explicitLists_setWeekly,
      ?explicitLists_addMonthlyDate; try reflexivity.
  - unfold addMonthlyPosDay.
    destruct (mRecurReadOnly r || (53 <? pos)%Z || (pos <? -53)%Z); [reflexivity|].
    pose proof (explicitLists_defaultRRule false r) as E.
    destruct (defaultRRule false r) as [[x|] r1]; simpl in E; [|exact E].
    destruct (existsb _ (rule_byDays x)); [exact E|].
    now rewrite explicitLists_updated, explicitLists_mutateDefaultRRule.
  - unfold addYearlyDay.
    pose proof (explicitLists_defaultRRule false r) as E.
    destruct (defaultRRule false r) as [[x|] r1]; simpl in E; [|exact E].
    destruct (existsb _ (rule_byYearDays x)); [exact E|].
    now rewrite explicitLists_updated, explicitLists_mutateDefaultRRule.
  - unfold addYearlyMonth.
    destruct (mRecurReadOnly r || (month <? 1)%Z || (12 <? month)%Z); [reflexivity|].
    pose proof (explicitLists_defaultRRule false r) as E.
    destruct (defaultRRule false r) as [[x|] r1]; simpl in E; [|exact E].
    destruct (existsb _ (rule_byMonths x)); [exact E|].
    now rewrite explicitLists_updated, explicitLists_mutateDefaultRRule.
Qed.

Section UnderLaws.
Hypothesis dt_laws : OrderLaws dt_lt dt_eq.
Hypothesis date_laws : OrderLaws date_lt date_eq.
Hypothesis shift_laws : ShiftLaws.

Lemma shiftDateTime_lt (oldSpec newSpec : Spec) (a b : KDateTime) :
  dt_lt a b = true ->
  dt_lt (shiftDateTime oldSpec newSpec a) (shiftDateTime oldSpec newSpec b) = true.
Proof.
  intro H. unfold shiftDateTime.
  rewrite (setTimeSpec_lt shift_laws), (toTimeSpec_lt shift_laws); [exact H|].
  now rewrite !(toTimeSpec_spec shift_laws).
Qed.

Lemma run_keeps_lists_sorted (m : Mutator) (r : Recurrence) :
  listsSorted r -> listsSorted (run m r).
Proof.
  intro H. destruct (mRecurReadOnly r) eqn:Hro.
  { now rewrite run_read_only. }
  pose proof (explicitLists_of_run m r Hro) as E.
  unfold listsSorted in *. destruct H as (H1 & H2 & H3 & H4).
  unfold explicitLists in E.
  destruct m; simpl run in *; simpl listsAfter in E;
    injection E as E1 E2 E3 E4; rewrite E1, E2, E3, E4; repeat split;
    try assumption;
    try constructor;
    try (now apply sortUnique_sorted);
    try (now apply insertSorted_sorted);
    try (apply sorted_map; [assumption| |assumption]; apply shiftDateTime_lt).
Qed.

Lemma reachable_lists_sorted (r : Recurrence) : Reachable r -> listsSorted r.
Proof.
  induction 1 as [|m r _ IH|b r _ IH|o r _ IH|o r _ IH|b r _ IH|r _ IH].
  - repeat split; constructor.
  - now apply run_keeps_lists_sorted.
  - unfold listsSorted. pose proof (explicitLists_of_build b r) as E.
    injection E as -> -> -> ->. exact IH.
  - unfold addObserver. now destruct (existsb _ _).
  - unfold removeObserver. now destruct (existsb _ _).
  - exact IH.
  - unfold recurrenceType. now destruct (RecurType_eqb _ _).
Qed.

End UnderLaws.

Lemma reachable_replay (ms : list Mutator) (r : Recurrence) :
  Reachable r -> Reachable (replay ms r).
Proof.
  revert r; induction ms as [|m ms IH]; intros r H; simpl; [exact H|].
  apply IH. now constructor.
Qed.

(** X23: with comparisons that order the date/times and the dates, and
    time specs whose shift keeps that order, the four explicit lists of a
    recurrence are sorted ascending and free of duplicates in a fresh
    recurrence, stay so under every mutator and therefore are so in every
    state that can be reached.  On a recurrence that is not read-only each
    mutator leaves the lists that [listsAfter] names: a bulk setter stores
    its argument sorted and deduplicated, an adder inserts in place,
    shiftTimes shifts the date/times where they stand, clear empties the
    four, and every other mutator leaves them alone. *)
Theorem explicit_lists_stay_sorted :
  OrderLaws dt_lt dt_eq -> OrderLaws date_lt date_eq -> ShiftLaws ->
  listsSorted newRecurrence
  /\ (forall m r, listsSorted r -> listsSorted (run m r))
  /\ (forall rdates r, mRecurReadOnly r = false ->
        sortedUnique dt_lt dt_eq (mRDateTimes (setRDateTimes rdates r)))
  /\ (forall rdate r, listsSorted r -> mRecurReadOnly r = false ->
        mRDates (addRDate rdate r) = insertSorted date_lt date_eq rdate (mRDates r)
        /\ sortedUnique date_lt date_eq (mRDates (addRDate rdate r)))
  /\ (forall m r, mRecurReadOnly r = false -> explicitLists (run m r) = listsAfter m r)
  /\ (forall r, Reachable r -> listsSorted r).
Proof.
  intros Hdt Hdate Hshift. split; [|split; [|split; [|split; [|split]]]].
  - repeat split; constructor.
  - intros m r. now apply run_keeps_lists_sorted.
  - intros rdates r Hro. unfold setRDateTimes. rewrite Hro. simpl.
    now apply sortUnique_sorted.
  - intros rdate r H Hro. unfold addRDate. rewrite Hro. simpl.
    split; [reflexivity|]. apply insertSorted_sorted; [assumption|]. apply H.
  - intros m r. apply explicitLists_of_run.
  - intros r. now apply reachable_lists_sorted.
Qed.

End SortedInvariant.

(** ** setStartDateTime *)

Section StartDateTime.
Context {TM : TimeModel} {RM : RuleModel TM}.

(** With a start that has a time, the start reaches every held rule. *)
Lemma setStartDateTime_timed (start : KDateTime) (r : Recurrence) :
  (forall s x, rule_startDt (rule_setStartDt s x) = s) ->
  mRecurReadOnly r = false -> isDateOnly start = false ->
  let r' := setStartDateTime start r in
  mStartDateTime r' = start
  /\ mFloating r' = false
  /\ Forall (fun x => rule_startDt x = start) (mRRules r' ++ mExRules r')
  /\ passesBetween (updateRounds (SetStartDateTime start) r) r r'.
Proof.
  intros Hset Hro Hd r'.
  pose proof (passes_of_mutator (m := SetStartDateTime start) r Hro) as Hp.
  split; [|split; [|split]]; [| | |apply Hp; discriminate].
  all: subst r'; destruct r as [exr rr rdts rds exdts exds st obs cache fl ro dl];
    simpl in Hro; subst ro; unfold setStartDateTime, setFloats; simpl; rewrite Hd;
    destruct fl; simpl; closed_forms; try reflexivity.
  all: rewrite Forall_forall; intros x Hx; rewrite in_app_iff, ?map_map in Hx;
    destruct Hx as [Hx|Hx]; apply in_map_iff in Hx; destruct Hx as (y & <- & _);
    apply Hset.
Qed.

(** With a date-only start, no held rule is given the start: the rules are
    as setFloats(true) leaves them, which is untouched when the recurrence
    was all-day before. *)
Lemma setStartDateTime_dateOnly (start : KDateTime) (r : Recurrence) :
  mRecurReadOnly r = false -> isDateOnly start = true ->
  let r' := setStartDateTime start r in
  mStartDateTime r' = start
  /\ mFloating r' = true
  /\ mRRules r' = (if mFloating r then mRRules r else map (rule_setFloats true) (mRRules r))
  /\ mExRules r' = (if mFloating r then mExRules r
                    else map (rule_setFloats true) (mExRules r)).
Proof.
  intros Hro Hd r'. subst r'.
  destruct r as [exr rr rdts rds exdts exds st obs cache fl ro dl].
  simpl in Hro; subst ro. unfold setStartDateTime, setFloats; simpl. rewrite Hd.
  destruct fl; simpl; closed_forms; repeat split.
Qed.

End StartDateTime.

Section StartDateTimeExample.
Import FixedOffset TableRules.

(** C7: a recurrence that starts on day 10 at 09:00 UTC and holds one
    weekly inclusion rule with that start.  setStartDateTime() with the
    date-only value of day 20 moves the start of the recurrence and makes it
    all-day, and notifies, but the rule still starts on day 10 at 09:00;
    with day 20, 09:00 instead, the rule starts there too. *)
Theorem setStartDateTime_dateOnly_skips_the_rules :
  let weekly := table 1 (at_ 10 9 0 0) rWeekly 1 (-1)
                  [at_ 10 9 0 0; at_ 17 9 0 0; at_ 24 9 0 0] in
  let r : Rec :=
    addRRule (Some weekly) (addObserver (Some 5) (startingAt (at_ 10 9 0 0))) in
  let r' := setStartDateTime (day_ 20 0) r in
  mRecurReadOnly r = false
  /\ mStartDateTime r' = day_ 20 0
  /\ mFloating r' = true
  /\ map start (mRRules r') = [at_ 10 9 0 0]
  /\ delivered r' = delivered r ++ [5; 5; 5]
  /\ map start (mRRules (setStartDateTime (at_ 20 9 0 0) r)) = [at_ 20 9 0 0].
Proof. vm_compute. repeat split. Qed.

End StartDateTimeExample.

(** ** shiftTimes *)

Section ShiftTimes.
Context {TM : TimeModel} {RM : RuleModel TM}.

Lemma storedInstants_shiftTimes (oldSpec newSpec : Spec) (r : Recurrence) :
  mRecurReadOnly r = false ->
  storedInstants (shiftTimes oldSpec newSpec r)
  = map (shiftDateTime oldSpec newSpec) (storedInstants r).
Proof.
  intro Hro. destruct r as [exr rr rdts rds exdts exds st obs cache fl ro dl].
  simpl in Hro; subst ro. unfold shiftTimes, storedInstants; simpl. closed_forms.
  now rewrite map_app.
Qed.

(** C8, as the code has it: shiftTimes(Z1, Z2) on a recurrence that is not
    read-only replaces every stored date/time by its shift, and the shift of
    a date/time has the time spec Z2 and the wall clock that the date/time
    shows when it is read in Z1; the wall clock it had is kept for the
    date/times that were stored in Z1. *)
Theorem shiftTimes_keeps_the_wall_clock_of_Z1 (Z1 Z2 : Spec) (r : Recurrence) :
  (forall k s, timeSpec (setTimeSpec k s) = s) ->
  (forall k s, wallClock (setTimeSpec k s) = wallClock k) ->
  (forall k, wallClock (toTimeSpec k (timeSpec k)) = wallClock k) ->
  mRecurReadOnly r = false ->
  storedInstants (shiftTimes Z1 Z2 r) = map (shiftDateTime Z1 Z2) (storedInstants r)
  /\ forall k, In k (storedInstants r) ->
       timeSpec (shiftDateTime Z1 Z2 k) = Z2
       /\ wallClock (shiftDateTime Z1 Z2 k) = wallClock (toTimeSpec k Z1)
       /\ (timeSpec k = Z1 -> wallClock (shiftDateTime Z1 Z2 k) = wallClock k).
Proof.
  intros Hspec Hwall Hsame Hro. split; [now apply storedInstants_shiftTimes|].
  intros k _. unfold shiftDateTime. rewrite Hspec, Hwall.
  repeat split. intros <-. apply Hsame.
Qed.

End ShiftTimes.

(** ** The instances obey the laws *)

Section InstanceLaws.
Import FixedOffset TableRules.

Lemma fixedOffset_dt_lt_trans (a b c : DateTime) :
  dt_lt a b = true -> dt_lt b c = true -> dt_lt a c = true.
Proof. simpl. rewrite !Z.ltb_lt. lia. Qed.

Lemma fixedOffset_dt_laws : OrderLaws (dt_lt (TimeModel := FixedOffset.model)) dt_eq.
Proof.
  split; simpl; intros *; rewrite ?Z.ltb_lt, ?Z.ltb_ge, ?Z.eqb_neq; lia.
Qed.

Lemma fixedOffset_date_laws : OrderLaws (date_lt (TimeModel := FixedOffset.model)) date_eq.
Proof.
  split; simpl; intros *; rewrite ?Z.ltb_lt, ?Z.ltb_ge, ?Z.eqb_neq; lia.
Qed.

Lemma fixedOffset_shift_laws : ShiftLaws (TM := FixedOffset.model).
Proof.
  split; simpl; unfold toSpec, setSpec, utc; simpl.
  - reflexivity.
  - intros a b s. destruct (wall a - zone a <? wall b - zone b)%Z eqn:E.
    + apply Z.ltb_lt in E. apply Z.ltb_lt. lia.
    + apply Z.ltb_ge in E. apply Z.ltb_ge. lia.
  - intros a b s ->. destruct (wall a - zone b <? wall b - zone b)%Z eqn:E.
    + apply Z.ltb_lt in E. apply Z.ltb_lt. lia.
    + apply Z.ltb_ge in E. apply Z.ltb_ge. lia.
Qed.

Lemma fixedOffset_same_spec (k : DateTime) :
  wallClock (TM := FixedOffset.model) (toTimeSpec k (timeSpec k)) = wallClock k.
Proof.
  unfold wallClock; simpl. unfold dayOf, timeOf, toSpec, utc; simpl.
  now replace (wall k - zone k + zone k)%Z with (wall k) by lia.
Qed.

Lemma tableRules_sides (rule : Rule) (c y : DateTime) :
  (rule_getNextDate rule c = Some y -> dt_lt c y = true)
  /\ (rule_getPreviousDate rule c = Some y -> dt_lt y c = true).
Proof.
  simpl. split; intro H; apply find_some in H; apply H.
Qed.

End InstanceLaws.

(** ** The statements at work *)

Section Instances.
Import FixedOffset TableRules Examples.

Lemma recursAt_exclusion_then_inclusion_witness :
  recursAt dailyButDay62 (at_ 62 8 0 0) = false
  /\ (recursAt dailyButDay62 (at_ 61 8 0 0) = true
      <-> includedAt dailyButDay62
            (toTimeSpec (at_ 61 8 0 0) (timeSpec (mStartDateTime dailyButDay62)))).
Proof.
  split.
  - apply (proj1 (recursAt_exclusion_then_inclusion dailyButDay62 (at_ 62 8 0 0))).
    left. exists 62%Z. split; [left; reflexivity|reflexivity].
  - apply (proj2 (recursAt_exclusion_then_inclusion dailyButDay62 (at_ 61 8 0 0))).
    intros [(d & Hin & Hd)|[(x & Hin & Hx)|(rule & Hin & Hr)]].
    + destruct Hin as [<-|[]]. discriminate Hd.
    + destruct Hin.
    + destruct Hin.
Defined.

Lemma recursOn_iff_recurTimesOn_witness :
  recursOn dailyNoonDay61 61%Z 0%Z = true <-> recurTimesOn dailyNoonDay61 61%Z 0%Z <> [].
Proof.
  apply (proj1 (recursOn_iff_recurTimesOn dailyNoonDay61 61%Z 0%Z)).
  - reflexivity.
  - reflexivity.
  - reflexivity.
  - intros x [<-|[]]. reflexivity.
Defined.

(** C2 fails as stated, twice, on a recurrence that starts on day 10 at
    10:00 UTC.  Holding the inclusion date/time day 5, 12:00, it does not
    recur on day 5, which ends before the start, while recurTimesOn() has
    12:00 for that day.  Holding the inclusion date day 15, it recurs on day
    15, by the short cut on the inclusion dates, while recurTimesOn() has no
    time for that day. *)
Lemma recursOn_true_without_times :
  let early : Rec := set_mRDateTimes [at_ 5 12 0 0] (startingAt (at_ 10 10 0 0)) in
  let r : Rec := set_mRDates [15%Z] (startingAt (at_ 10 10 0 0)) in
  (recursOn early 5%Z 0%Z = false /\ recurTimesOn early 5%Z 0%Z = [43200%Z])
  /\ (recursOn r 15%Z 0%Z = true /\ recurTimesOn r 15%Z 0%Z = [])
  /\ ~ (recursOn early 5%Z 0%Z = true <-> recurTimesOn early 5%Z 0%Z <> [])
  /\ ~ (recursOn r 15%Z 0%Z = true <-> recurTimesOn r 15%Z 0%Z <> []).
Proof.
  intros early r. repeat split.
  - intros [_ H].
    assert (E : recursOn early 5%Z 0%Z = true) by (apply H; discriminate).
    discriminate E.
  - intros [H _]. apply H; reflexivity.
Defined.

Lemma next_and_previous_search_witness :
  (exists t, getNextDateTime dailyButDay62 (at_ 61 8 0 0) = Some t
             /\ dt_lt (at_ 61 8 0 0) t = true /\ ~ excludedAt dailyButDay62 t)
  /\ (exists t, getPreviousDateTime dailyButDay62 (at_ 63 8 0 0) = Some t
                /\ dt_lt t (at_ 63 8 0 0) = true /\ ~ excludedAt dailyButDay62 t).
Proof.
  assert (Hrules : forall (rule : Rule) (c y : DateTime),
            In rule (mRRules dailyButDay62) ->
            (rule_getNextDate rule c = Some y -> dt_lt c y = true)
            /\ (rule_getPreviousDate rule c = Some y -> dt_lt y c = true)).
  { intros rule c y _. apply tableRules_sides. }
  split.
  - exists (at_ 63 8 0 0). split; [reflexivity|].
    apply (proj2 (proj1 (next_and_previous_search dailyButDay62 (at_ 61 8 0 0)
                           fixedOffset_dt_lt_trans Hrules))).
    reflexivity.
  - exists (at_ 61 8 0 0). split; [reflexivity|].
    apply (proj2 (proj2 (next_and_previous_search dailyButDay62 (at_ 63 8 0 0)
                           fixedOffset_dt_lt_trans Hrules))).
    reflexivity.
Defined.

(** C4 fails as stated: a recurrence that starts on day 10 and holds day 12,
    09:00 both as an inclusion and as an exclusion date/time.  Asked for the
    next date/time after day 11, the first round has the candidate day 12,
    09:00, which is later than day 11; it is rejected, the second round has
    no candidate, and the search gives up there, 998 rounds short of the
    limit. *)
Lemma getNextDateTime_gives_up_after_a_rejection :
  let r : Rec :=
    set_mExDateTimes [at_ 12 9 0 0]
      (set_mRDateTimes [at_ 12 9 0 0] (startingAt (at_ 10 10 0 0))) in
  let after := at_ 11 0 0 0 in
  ~ (getNextDateTime r after = None
     <-> nextCandidates r after = [] \/ nextSearch 1000 r after = LoopLimit).
Proof.
  intros r after [H _]. destruct (H eq_refl) as [E|E]; discriminate E.
Defined.



(** addYearlyDay() does not make the read-only test: on a read-only
    recurrence with a yearly rule it changes the rule and calls the
    observers. *)
Lemma addYearlyDay_on_read_only :
  let yearly := table 3 (at_ 60 8 0 0) rYearly 1 (-1) [at_ 60 8 0 0] in
  let r : Rec :=
    setRecurReadOnly true
      (addRRule (Some yearly) (addObserver (Some 4) (startingAt (at_ 60 8 0 0)))) in
  let r' := addYearlyDay 100%Z r in
  mRecurReadOnly r = true
  /\ map byYearDays (mRRules r) = [[]]
  /\ map byYearDays (mRRules r') = [[100%Z]]
  /\ delivered r' = delivered r ++ [4; 4].
Proof. vm_compute. repeat split. Qed.

Lemma read_only_mutators_are_no_ops_witness :
  run Clear (setRecurReadOnly true observed) = setRecurReadOnly true observed
  /\ run (SetStartDateTime (at_ 1 0 0 0)) (setRecurReadOnly true observed)
     = setRecurReadOnly true observed.
Proof.
  split; apply read_only_mutators_are_no_ops; reflexivity.
Defined.

Lemma shiftTimes_keeps_the_wall_clock_of_Z1_witness :
  storedInstants (shiftTimes 3600%Z 7200%Z eastOfUTC)
  = map (shiftDateTime 3600%Z 7200%Z) (storedInstants eastOfUTC)
  /\ forall k, In k (storedInstants eastOfUTC) ->
       timeSpec (shiftDateTime 3600%Z 7200%Z k) = 7200%Z
       /\ wallClock (shiftDateTime 3600%Z 7200%Z k) = wallClock (toTimeSpec k 3600%Z)
       /\ (timeSpec k = 3600%Z -> wallClock (shiftDateTime 3600%Z 7200%Z k) = wallClock k).
Proof.
  apply shiftTimes_keeps_the_wall_clock_of_Z1.
  - reflexivity.
  - reflexivity.
  - exact fixedOffset_same_spec.
  - reflexivity.
Defined.

(** C8 fails as stated: the start day 10, 10:00 UTC shifted from the spec
    one hour east of UTC to the spec two hours east reads 11:00, the time it
    showed one hour east, and no longer 10:00. *)
Lemma shiftTimes_changes_the_wall_clock :
  let r : Rec := startingAt (at_ 10 10 0 0) in
  let r' := shiftTimes 3600%Z 7200%Z r in
  mRecurReadOnly r = false
  /\ timeSpec (mStartDateTime r') = 7200%Z
  /\ wallClock (mStartDateTime r) = (10, 36000)%Z
  /\ wallClock (mStartDateTime r') = (10, 39600)%Z
  /\ wallClock (mStartDateTime r') <> wallClock (mStartDateTime r).
Proof.
  intros r r'. repeat split. discriminate.
Defined.

Lemma explicit_lists_stay_sorted_witness :
  listsSorted (replay history newRecurrence)
  /\ mRDateTimes (replay history newRecurrence)
     = [at_ 3 7 0 1; at_ 5 0 0 1; at_ 9 8 0 1].
Proof.
  destruct (explicit_lists_stay_sorted fixedOffset_dt_laws fixedOffset_date_laws
              fixedOffset_shift_laws) as (_ & _ & _ & _ & _ & H).
  split; [|vm_compute; reflexivity]. apply H, reachable_replay, reach_new.
Defined.

Lemma aggregates_consult_first_rule_witness :
  duration dailyButDay62 = duration dailyNoonDay61
  /\ (forall t, durationTo dailyButDay62 t = durationTo dailyNoonDay61 t)
  /\ frequency dailyButDay62 = frequency dailyNoonDay61.
Proof.
  apply (proj2 (proj2 (aggregates_consult_first_rule dailyButDay62 dailyNoonDay61))).
  reflexivity.
Defined.

End Instances.

(** * Further properties *)

(** ** More facts about sorted lists *)

Section SortedListFacts.
Variable T : Type.
Variables ltb eqb : T -> T -> bool.
Hypothesis order : OrderLaws ltb eqb.
Hypothesis equiv : EquivLaws ltb eqb.

Lemma ltb_irrefl (a : T) : ltb a a = false.
Proof.
  destruct (ltb a a) eqn:E; [|reflexivity].
  apply (lt_not_eq order) in E. now rewrite (eqb_refl equiv) in E.
Qed.

Lemma ltb_asym (a b : T) : ltb a b = true -> ltb b a = false.
Proof.
  intro H. destruct (ltb b a) eqn:E; [|reflexivity].
  pose proof (lt_trans order _ _ _ H E) as F. now rewrite ltb_irrefl in F.
Qed.

Lemma eqb_sym_false (a b : T) : eqb a b = false -> eqb b a = false.
Proof.
  intro H. destruct (eqb b a) eqn:E; [|reflexivity].
  apply (eqb_sym equiv) in E. congruence.
Qed.

Lemma sorted_nth (R : T -> T -> Prop) (l : list T) (i j : nat) (a b : T) :
  StronglySorted R l -> i < j ->
  nth_error l i = Some a -> nth_error l j = Some b -> R a b.
Proof.
  intro H. revert i j. induction H as [|x xs Hs IH Hx]; intros i j Hij Ha Hb.
  - now destruct i.
  - destruct j as [|j]; [lia|]. destruct i as [|i]; simpl in *.
    + injection Ha as <-. rewrite Forall_forall in Hx. apply Hx.
      now apply nth_error_In with j.
    + apply (IH i j); [lia|assumption|assumption].
Qed.

Lemma In_removeAt (i : nat) (l : list T) (x : T) :
  In x (removeAt i l) -> exists k, k <> i /\ nth_error l k = Some x.
Proof.
  revert i; induction l as [|y ys IH]; intros i; simpl.
  - now destruct i.
  - destruct i as [|i]; simpl.
    + intro H. apply In_nth_error in H. destruct H as [k Hk]. exists (S k). now split.
    + intros [->|H]; [exists O; now split|].
      destruct (IH i H) as (k & Hk & Hn). exists (S k). split; [lia|exact Hn].
Qed.

Lemma nth_error_removeAt_before (i k : nat) (l : list T) :
  k < i -> nth_error (removeAt i l) k = nth_error l k.
Proof.
  revert i k; induction l as [|y ys IH]; intros i k Hk; simpl.
  - now destruct i.
  - destruct i as [|i]; [lia|]. destruct k as [|k]; simpl; [reflexivity|].
    apply IH. lia.
Qed.

Lemma removeAt_sorted (R : T -> T -> Prop) (i : nat) (l : list T) :
  StronglySorted R l -> StronglySorted R (removeAt i l).
Proof.
  intro H. revert i. induction H as [|x xs Hs IH Hx]; intro i; simpl.
  - destruct i; constructor.
  - destruct i as [|i]; [exact Hs|]. constructor; [apply IH|].
    rewrite Forall_forall in *. intros y Hy. apply Hx.
    apply In_removeAt in Hy. destruct Hy as (k & _ & Hk). now apply nth_error_In with k.
Qed.

Lemma findSorted_some (v : T) (st j : nat) (l : list T) :
  findSorted eqb v st l = Some j ->
  st <= j /\ exists x, nth_error l j = Some x /\ eqb v x = true.
Proof.
  revert st j; induction l as [|y ys IH]; intros st j; simpl; [discriminate|].
  destruct st as [|st].
  - destruct (eqb v y) eqn:E.
    + intros [= <-]. split; [lia|]. exists y. now split.
    + destruct (findSorted eqb v 0 ys) as [k|] eqn:F; simpl; [|discriminate].
      intros [= <-]. destruct (IH 0 k F) as (_ & x & Hx & Hv).
      split; [lia|]. now exists x.
  - destruct (findSorted eqb v st ys) as [k|] eqn:F; simpl; [|discriminate].
    intros [= <-]. destruct (IH st k F) as (Hk & x & Hx & Hv).
    split; [lia|]. now exists x.
Qed.

Lemma findSorted_none (v : T) (st i : nat) (l : list T) (x : T) :
  findSorted eqb v st l = None -> st <= i -> nth_error l i = Some x -> eqb v x = false.
Proof.
  revert st i; induction l as [|y ys IH]; intros st i; simpl.
  - now destruct i.
  - destruct st as [|st].
    + destruct (eqb v y) eqn:E; [discriminate|].
      destruct (findSorted eqb v 0 ys) eqn:F; simpl; [discriminate|].
      intros _ _. destruct i as [|i]; simpl.
      * now intros [= <-].
      * apply (IH 0 i F). lia.
    + destruct (findSorted eqb v st ys) eqn:F; simpl; [discriminate|].
      intros _ Hi. destruct i as [|i]; [lia|]. simpl. apply (IH st i F). lia.
Qed.

Lemma In_removeEach (es : list T) (st : nat) (l : list T) (x : T) :
  In x (removeEach eqb es st l) -> In x l.
Proof.
  revert st l; induction es as [|e es IH]; intros st l; simpl; [tauto|].
  unfold removeSorted. destruct (findSorted eqb e st l) as [j|].
  - intro H. apply IH in H. apply In_removeAt in H.
    destruct H as (k & _ & Hk). now apply nth_error_In with k.
  - apply IH.
Qed.

Lemma removeEach_sorted (R : T -> T -> Prop) (es : list T) (st : nat) (l : list T) :
  StronglySorted R l -> StronglySorted R (removeEach eqb es st l).
Proof.
  revert st l; induction es as [|e es IH]; intros st l H; simpl; [exact H|].
  unfold removeSorted. destruct (findSorted eqb e st l) as [j|].
  - apply IH. now apply removeAt_sorted.
  - now apply IH.
Qed.

(** The loop that removes the sorted list [es] from the sorted list
    [times], resuming each search where the last one ended, leaves no
    element equal to one of [es]. *)
Lemma removeEach_excludes (es : list T) :
  forall (st : nat) (times : list T),
  sortedUnique ltb eqb times -> sortedUnique ltb eqb es ->
  (forall i x e, i < st -> nth_error times i = Some x -> In e es -> eqb e x = false) ->
  forall e x, In e es -> In x (removeEach eqb es st times) -> eqb e x = false.
Proof.
  induction es as [|e0 es IH]; intros st times Ht He Hinv e x Hin Hx; [destruct Hin|].
  assert (Hes : sortedUnique ltb eqb es) by now inversion He.
  assert (He0 : forall e', In e' es -> ltb e0 e' = true).
  { inversion He as [|? ? _ Hall]; subst. rewrite Forall_forall in Hall.
    intros e' H'. now apply Hall. }
  simpl in Hx. unfold removeSorted in Hx.
  destruct (findSorted eqb e0 st times) as [j|] eqn:F.
  - destruct (findSorted_some _ _ _ F) as (Hj & xj & Hxj & Hvj).
    assert (Hdistinct : forall k y, k <> j -> nth_error times k = Some y ->
                                    eqb e0 y = false).
    { intros k y Hk Hy. destruct (eqb e0 y) eqn:E; [|reflexivity].
      assert (Hjy : eqb xj y = true)
        by (apply (eqb_trans equiv) with e0; [now apply (eqb_sym equiv)|exact E]).
      destruct (Nat.lt_total k j) as [Hlt|[Heq|Hgt]]; [|contradiction|].
      - destruct (sorted_nth Ht Hlt Hy Hxj) as [_ Hn].
        apply eqb_sym_false in Hn. congruence.
      - destruct (sorted_nth Ht Hgt Hxj Hy) as [_ Hn]. congruence. }
    destruct Hin as [<-|Hin].
    + apply In_removeEach, In_removeAt in Hx. destruct Hx as (k & Hk & Hy).
      now apply Hdistinct with k.
    + apply (IH j (removeAt j times)); try assumption.
      * now apply removeAt_sorted.
      * intros i y e' Hi Hy He'. rewrite nth_error_removeAt_before in Hy by exact Hi.
        destruct (Nat.lt_ge_cases i st) as [Hlt|Hge].
        { apply Hinv with i; [assumption|assumption|now right]. }
        destruct (eqb e' y) eqn:E; [|reflexivity].
        destruct (sorted_nth Ht Hi Hy Hxj) as [Hlt _].
        assert (H1 : ltb e' xj = true).
        { rewrite (ltb_eqb_l equiv e' y xj E). exact Hlt. }
        assert (H2 : ltb xj e' = true).
        { rewrite <- (ltb_eqb_l equiv e0 xj e' Hvj). now apply He0. }
        apply ltb_asym in H1. congruence.
  - destruct Hin as [<-|Hin].
    + apply In_removeEach in Hx. apply In_nth_error in Hx. destruct Hx as [k Hk].
      destruct (Nat.lt_ge_cases k st) as [Hlt|Hge].
      * apply Hinv with k; [assumption|assumption|now left].
      * now apply findSorted_none with (st := st) (i := k) (l := times).
    + apply (IH st times); try assumption.
      intros i y e' Hi Hy He'. apply Hinv with i; [assumption|assumption|now right].
Qed.

Lemma In_insertSorted_keeps (v x : T) (l : list T) :
  In x l -> In x (insertSorted ltb eqb v l).
Proof.
  induction l as [|y ys IH]; simpl; [intros []|].
  destruct (ltb v y); [simpl; intuition|]. destruct (eqb v y); [simpl; intuition|].
  simpl. intros [->|H]; [now left|right; auto].
Qed.

Lemma insertSorted_has (v : T) (l : list T) :
  exists y, In y (insertSorted ltb eqb v l) /\ eqb v y = true.
Proof.
  induction l as [|x xs IH]; simpl.
  - exists v. split; [now left|apply (eqb_refl equiv)].
  - destruct (ltb v x).
    + exists v. split; [now left|apply (eqb_refl equiv)].
    + destruct (eqb v x) eqn:E.
      * exists x. split; [now left|exact E].
      * destruct IH as (y & Hy & Hv). exists y. split; [now right|exact Hv].
Qed.

(** Sorting loses no value: each element is in the sorted list up to
    equality. *)
Lemma sortUnique_complete (l : list T) (x : T) :
  In x l -> exists y, In y (sortUnique ltb eqb l) /\ eqb x y = true.
Proof.
  induction l as [|z zs IH]; simpl; [tauto|]. intros [->|H].
  - apply insertSorted_has.
  - destruct (IH H) as (y & Hy & Hxy). exists y.
    split; [now apply In_insertSorted_keeps|exact Hxy].
Qed.

(** The last element of a sorted list is below none of the others. *)
Lemma sorted_last_max (l : list T) (e x : T) (rest : list T) :
  sortedUnique ltb eqb l -> rev l = e :: rest -> In x l -> ltb e x = false.
Proof.
  intros Hs Hrev Hx.
  assert (Hl : l = rev rest ++ [e]).
  { rewrite <- (rev_involutive l), Hrev. reflexivity. }
  subst l. apply in_app_iff in Hx. destruct Hx as [Hx|[<-|[]]]; [|apply ltb_irrefl].
  apply In_nth_error in Hx. destruct Hx as [i Hi].
  assert (Hlen : i < length (rev rest)) by (apply nth_error_Some; congruence).
  apply ltb_asym.
  refine (proj1 (sorted_nth (i := i) (j := length (rev rest)) Hs Hlen _ _)).
  - rewrite nth_error_app1 by exact Hlen. exact Hi.
  - rewrite nth_error_app2 by lia. now rewrite Nat.sub_diag.
Qed.

End SortedListFacts.

(** ** timesInInterval and recurTimesOn: what is in the answer *)

Section AnswerFacts.
Context {TM : TimeModel} {RM : RuleModel TM}.

Lemma sorted_app_inv (A : Type) (R : A -> A -> Prop) (a b : list A) :
  StronglySorted R (a ++ b) ->
  StronglySorted R a /\ StronglySorted R b
  /\ (forall x y, In x a -> In y b -> R x y).
Proof.
  induction a as [|z zs IH]; simpl; intro H.
  - split; [constructor|]. split; [exact H|]. intros x y [].
  - inversion H as [|? ? Hs Hall]; subst. destruct (IH Hs) as (Ha & Hb & Hab).
    rewrite Forall_forall in Hall. split; [|split].
    + constructor; [exact Ha|]. apply Forall_forall. intros y Hy.
      apply Hall, in_or_app. now left.
    + exact Hb.
    + intros x y [<-|Hx] Hy; [apply Hall, in_or_app; now right|now apply Hab].
Qed.

Lemma sorted_app (A : Type) (R : A -> A -> Prop) (a b : list A) :
  StronglySorted R a -> StronglySorted R b ->
  (forall x y, In x a -> In y b -> R x y) -> StronglySorted R (a ++ b).
Proof.
  induction a as [|z zs IH]; simpl; intros Ha Hb Hab; [exact Hb|].
  inversion Ha as [|? ? Hs Hall]; subst. constructor.
  - apply IH; [exact Hs|exact Hb|]. intros x y Hx Hy. apply Hab; [now right|exact Hy].
  - rewrite Forall_forall in *. intros y Hy. apply in_app_iff in Hy.
    destruct Hy as [Hy|Hy]; [now apply Hall|]. apply Hab; [now left|exact Hy].
Qed.

Lemma sorted_weaken (A : Type) (R S : A -> A -> Prop) (l : list A) :
  (forall x y, In x l -> In y l -> R x y -> S x y) ->
  StronglySorted R l -> StronglySorted S l.
Proof.
  intros H Hs. induction Hs as [|x xs Hs IH Hx]; constructor.
  - apply IH. intros a b Ha Hb. apply H; now right.
  - rewrite Forall_forall in *. intros y Hy. apply H; [now left|now right|now apply Hx].
Qed.

Lemma span_app (A : Type) (p : A -> bool) (l : list A) :
  fst (span p l) ++ snd (span p l) = l.
Proof.
  induction l as [|x xs IH]; simpl; [reflexivity|].
  destruct (p x); [|reflexivity]. destruct (span p xs) as [a b]. simpl in *.
  now rewrite IH.
Qed.

Lemma span_kept (A : Type) (p : A -> bool) (l : list A) (x : A) :
  In x (fst (span p l)) -> p x = true.
Proof.
  induction l as [|y ys IH]; simpl; [tauto|].
  destruct (p y) eqn:E; [|simpl; tauto]. destruct (span p ys) as [a b]. simpl in *.
  intros [<-|H]; [exact E|now apply IH].
Qed.

Lemma span_rest (A : Type) (p : A -> bool) (l : list A) (h : A) (t : list A) :
  snd (span p l) = h :: t -> p h = false.
Proof.
  induction l as [|y ys IH]; simpl; [discriminate|].
  destruct (p y) eqn:E.
  - destruct (span p ys) as [a b]. simpl in *. exact IH.
  - simpl. now intros [= <- _].
Qed.

Lemma dropWhile_suffix (A : Type) (p : A -> bool) (l : list A) :
  exists a, l = a ++ dropWhile p l.
Proof.
  induction l as [|y ys IH]; simpl; [now exists []|].
  destruct (p y); [|now exists []]. destruct IH as [a Ha]. exists (y :: a).
  simpl. now rewrite <- Ha.
Qed.

Lemma dropWhile_head (A : Type) (p : A -> bool) (l : list A) (h : A) (t : list A) :
  dropWhile p l = h :: t -> p h = false.
Proof.
  induction l as [|y ys IH]; simpl; [discriminate|].
  destruct (p y) eqn:E; [exact IH|]. now intros [= <- _].
Qed.

Lemma In_removeExDates (ds : list QDate) (l : list KDateTime) (x : KDateTime) :
  In x (removeExDates ds l) -> In x l.
Proof.
  revert l; induction ds as [|d ds IH]; intro l; simpl; [tauto|].
  destruct l as [|y ys]; [tauto|].
  pose proof (span_app (fun t => date_lt (date t) d) (y :: ys)) as Hspan.
  destruct (span (fun t => date_lt (date t) d) (y :: ys)) as [kept rest]. simpl in Hspan.
  intro H. rewrite <- Hspan. apply in_app_iff in H. apply in_or_app.
  destruct H as [H|H]; [now left|right].
  apply IH in H.
  destruct (dropWhile_suffix (fun t => date_eq (date t) d) rest) as [a Ha].
  rewrite Ha. apply in_or_app. now right.
Qed.

Lemma removeExDates_sorted (R : KDateTime -> KDateTime -> Prop) (ds : list QDate)
    (l : list KDateTime) :
  StronglySorted R l -> StronglySorted R (removeExDates ds l).
Proof.
  revert l; induction ds as [|d ds IH]; intros l H; simpl; [exact H|].
  destruct l as [|y ys]; [constructor|].
  pose proof (span_app (fun t => date_lt (date t) d) (y :: ys)) as Hspan.
  destruct (span (fun t => date_lt (date t) d) (y :: ys)) as [kept rest]. simpl in Hspan.
  rewrite <- Hspan in H. destruct (sorted_app_inv _ _ H) as (Hk & Hr & Hkr).
  destruct (dropWhile_suffix (fun t => date_eq (date t) d) rest) as [a Ha].
  assert (Hd : StronglySorted R (dropWhile (fun t => date_eq (date t) d) rest)).
  { rewrite Ha in Hr. now destruct (sorted_app_inv _ _ Hr) as (_ & Hd & _). }
  apply sorted_app; [exact Hk|now apply IH|].
  intros a0 b0 Ha0 Hb0. apply Hkr; [exact Ha0|].
  apply In_removeExDates in Hb0. rewrite Ha. apply in_or_app. now right.
Qed.

(** The walk over the excluded dates removes every time on one of them,
    when the dates are sorted and the times go by ascending date. *)
Lemma removeExDates_excludes (ds : list QDate) :
  OrderLaws date_lt date_eq -> EquivLaws date_lt date_eq ->
  forall l : list KDateTime,
  sortedUnique date_lt date_eq ds ->
  StronglySorted (fun a b => date_lt (date b) (date a) = false) l ->
  forall x d, In x (removeExDates ds l) -> In d ds -> date_eq (date x) d = false.
Proof.
  intros order equiv.
  induction ds as [|d0 ds IH]; intros l Hds Hl x d Hx Hd; [destruct Hd|].
  assert (Hds' : sortedUnique date_lt date_eq ds) by now inversion Hds.
  assert (Hd0 : forall d', In d' ds -> date_lt d0 d' = true).
  { inversion Hds as [|? ? _ Hall]; subst. rewrite Forall_forall in Hall.
    intros d' H'. now apply Hall. }
  simpl in Hx. destruct l as [|y ys]; [destruct Hx|].
  pose proof (span_app (fun t => date_lt (date t) d0) (y :: ys)) as Hspan.
  pose proof (span_kept (fun t => date_lt (date t) d0) (y :: ys)) as Hkept.
  pose proof (span_rest (fun t => date_lt (date t) d0) (y :: ys)) as Hrest.
  destruct (span (fun t => date_lt (date t) d0) (y :: ys)) as [kept rest].
  simpl in Hspan, Hkept, Hrest.
  rewrite <- Hspan in Hl. destruct (sorted_app_inv _ _ Hl) as (_ & Hr & _).
  destruct (dropWhile_suffix (fun t => date_eq (date t) d0) rest) as [a Ha].
  pose proof (dropWhile_head (fun t => date_eq (date t) d0) rest) as Hhead.
  set (rest' := dropWhile (fun t => date_eq (date t) d0) rest) in *.
  assert (Hr' : StronglySorted (fun a b => date_lt (date b) (date a) = false) rest').
  { rewrite Ha in Hr. now destruct (sorted_app_inv _ _ Hr) as (_ & Hr' & _). }
  apply in_app_iff in Hx. destruct Hx as [Hx|Hx].
  - (* a time kept before the excluded date *)
    specialize (Hkept x Hx). destruct Hd as [<-|Hd].
    + now apply (lt_not_eq order).
    + apply (lt_not_eq order). apply (lt_trans order) with d0; [exact Hkept|now apply Hd0].
  - destruct Hd as [<-|Hd]; [|now apply (IH rest')].
    apply In_removeExDates in Hx.
    (* every time left after the excluded date lies on a later date *)
    destruct rest' as [|z zs] eqn:Ez; [destruct Hx|].
    specialize (Hhead z zs eq_refl). simpl in Hhead.
    destruct rest as [|h t]; [now destruct a|].
    specialize (Hrest h t eq_refl). simpl in Hrest.
    assert (Hhz : date_lt (date z) (date h) = false).
    { destruct a as [|a0 a'].
      - simpl in Ha. injection Ha as Eh _. rewrite Eh. apply (ltb_irrefl order equiv).
      - simpl in Ha. injection Ha as Eh Ht. inversion Hr as [|? ? _ Hall].
        rewrite Forall_forall in Hall. apply Hall. rewrite Ht.
        apply in_or_app. right. now left. }
    assert (Hzd : date_lt (date z) d0 = false).
    { destruct (date_lt (date z) d0) eqn:E; [|reflexivity].
      destruct (date_eq (date h) d0) eqn:Eh.
      - rewrite <- (ltb_eqb_r equiv (date h) d0 (date z) Eh) in E. congruence.
      - pose proof (lt_total order _ _ Hrest Eh) as F.
        pose proof (lt_trans order _ _ _ E F). congruence. }
    assert (Hdz : date_lt d0 (date z) = true) by now apply (lt_total order).
    destruct (date_eq (date x) d0) eqn:E; [|reflexivity].
    destruct Hx as [<-|Hx]; [congruence|].
    inversion Hr' as [|? ? _ Hall]; subst. rewrite Forall_forall in Hall.
    specialize (Hall x Hx). simpl in Hall.
    rewrite (ltb_eqb_l equiv (date x) d0 (date z) E) in Hall. congruence.
Qed.

End AnswerFacts.

Section TimesInIntervalAnswer.
Context {TM : TimeModel} {RM : RuleModel TM}.
Hypothesis order : OrderLaws dt_lt dt_eq.

Lemma timesInInterval_sorted (r : Recurrence) (start end_ : KDateTime) :
  sortedUnique dt_lt dt_eq (timesInInterval r start end_).
Proof.
  unfold timesInInterval, sortedUnique.
  apply removeEach_sorted, removeExDates_sorted. now apply sortUnique_sorted.
Qed.

Lemma timesInInterval_included (r : Recurrence) (start end_ x : KDateTime) :
  In x (timesInInterval r start end_) -> In x (includedTimes r start end_).
Proof.
  unfold timesInInterval, includedTimes. intro H.
  apply In_removeEach, In_removeExDates, In_sortUnique in H.
  now rewrite <- app_assoc in H.
Qed.

(** X1: the answer of timesInInterval() is sorted ascending without
    duplicates, and each of its date/times is one of those collected from
    the inclusion rules, the inclusion date/times and the inclusion dates
    taken at the start's time of day: the exclusion steps only remove. *)
Theorem timesInInterval_is_sorted_and_included (r : Recurrence) (start end_ : KDateTime) :
  sortedUnique dt_lt dt_eq (timesInInterval r start end_)
  /\ forall x, In x (timesInInterval r start end_) -> In x (includedTimes r start end_).
Proof.
  split; [apply timesInInterval_sorted|]. intro x. apply timesInInterval_included.
Qed.

Hypothesis equiv : EquivLaws dt_lt dt_eq.

(** X2: no date/time in the answer of timesInInterval() is equal to an
    exclusion date/time, or to a date/time that an exclusion rule reports
    for the same interval. *)
Theorem timesInInterval_leaves_out_excluded_times (r : Recurrence)
    (start end_ x : KDateTime) :
  In x (timesInInterval r start end_) ->
  (forall t, In t (mExDateTimes r) -> dt_eq t x = false)
  /\ (forall rule t, In rule (mExRules r) ->
        In t (rule_timesInInterval rule start end_) -> dt_eq t x = false).
Proof.
  intro Hx. unfold timesInInterval in Hx.
  set (extimes := flat_map (fun y => rule_timesInInterval y start end_) (mExRules r)
                    ++ mExDateTimes r) in *.
  assert (Hraw : forall t, In t extimes -> dt_eq t x = false).
  { intros t Ht. destruct (dt_eq t x) eqn:E; [|reflexivity].
    destruct (sortUnique_complete equiv _ _ Ht) as (y & Hy & Hty).
    assert (Hyx : dt_eq y x = false).
    { refine (removeEach_excludes order equiv (st := 0) _ _ _ _ _ Hy Hx).
      - apply removeExDates_sorted. now apply sortUnique_sorted.
      - now apply sortUnique_sorted.
      - intros i ? ? Hi. inversion Hi. }
    rewrite (eqb_trans equiv y t x) in Hyx; [discriminate| |exact E].
    now apply (eqb_sym equiv). }
  split.
  - intros t Ht. apply Hraw, in_or_app. now right.
  - intros rule t Hrule Ht. apply Hraw, in_or_app. left.
    apply in_flat_map. now exists rule.
Qed.

(** X3: with the exclusion dates sorted, and the collected date/times
    ascending by date when they ascend as date/times, no date/time in the
    answer of timesInInterval() falls on an exclusion date. *)
Theorem timesInInterval_leaves_out_excluded_dates (r : Recurrence)
    (start end_ x : KDateTime) (d : QDate) :
  OrderLaws date_lt date_eq -> EquivLaws date_lt date_eq ->
  sortedUnique date_lt date_eq (mExDates r) ->
  (forall a b, In a (includedTimes r start end_) -> In b (includedTimes r start end_) ->
     dt_lt a b = true -> date_lt (date b) (date a) = false) ->
  In x (timesInInterval r start end_) -> In d (mExDates r) ->
  date_eq (date x) d = false.
Proof.
  intros dorder dequiv Hds Hmono Hx Hd. unfold timesInInterval in Hx.
  apply In_removeEach in Hx.
  refine (removeExDates_excludes dorder dequiv Hds _ _ _ Hx Hd).
  apply sorted_weaken with (R := fun a b => dt_lt a b = true /\ dt_eq a b = false).
  - intros a b Ha Hb [Hab _]. apply Hmono; [| |exact Hab].
    + apply In_sortUnique in Ha. unfold includedTimes. now rewrite <- app_assoc in Ha.
    + apply In_sortUnique in Hb. unfold includedTimes. now rewrite <- app_assoc in Hb.
  - now apply sortUnique_sorted.
Qed.

End TimesInIntervalAnswer.

Section RecurTimesOnAnswer.
Context {TM : TimeModel} {RM : RuleModel TM}.
Hypothesis order : OrderLaws time_lt time_eq.
Hypothesis equiv : EquivLaws time_lt time_eq.

(** X4: the answer of recurTimesOn() is sorted ascending without
    duplicates and holds no time equal to the time of an exclusion
    date/time found on that date, nor, for a recurrence with times, to a
    time an exclusion rule reports for the date; for an exclusion date the
    answer is empty. *)
Theorem recurTimesOn_is_sorted_without_excluded_times (r : Recurrence) (qd : QDate)
    (ts : Spec) :
  sortedUnique time_lt time_eq (recurTimesOn r qd ts)
  /\ (forall x, In x (recurTimesOn r qd ts) ->
        (forall t, In t (timesOnDate (mExDateTimes r) qd ts false) -> time_eq t x = false)
        /\ (floats r = false -> forall rule t, In rule (mExRules r) ->
              In t (rule_recurTimesOn rule qd ts) -> time_eq t x = false))
  /\ (containsSorted date_eq qd (mExDates r) = true -> recurTimesOn r qd ts = []).
Proof.
  unfold recurTimesOn.
  destruct (containsSorted date_eq qd (mExDates r)) eqn:Eex.
  { split; [constructor|]. split; [intros x []|reflexivity]. }
  destruct (floats r && existsb (fun x => rule_recursOn x qd ts) (mExRules r)) eqn:Efl.
  { split; [constructor|]. split; [intros x []|discriminate]. }
  set (raw := if negb (floats r) then _ else _).
  set (times := sortUnique time_lt time_eq (_ ++ _)).
  assert (Hs : sortedUnique time_lt time_eq times) by now apply sortUnique_sorted.
  split; [now apply removeEach_sorted|]. split; [|discriminate].
  intros x Hx.
  assert (Hraw : forall t, In t raw -> time_eq t x = false).
  { intros t Ht. destruct (time_eq t x) eqn:E; [|reflexivity].
    destruct (sortUnique_complete equiv _ _ Ht) as (y & Hy & Hty).
    assert (Hyx : time_eq y x = false).
    { refine (removeEach_excludes order equiv (st := 0) _ _ _ _ _ Hy Hx).
      - exact Hs.
      - now apply sortUnique_sorted.
      - intros i ? ? Hi. inversion Hi. }
    rewrite (eqb_trans equiv y t x) in Hyx; [discriminate| |exact E].
    now apply (eqb_sym equiv). }
  split.
  - intros t Ht. apply Hraw. unfold raw. destruct (negb (floats r)); [|exact Ht].
    apply in_or_app. now left.
  - intros Hfl rule t Hrule Ht. apply Hraw. unfold raw. rewrite Hfl. simpl.
    apply in_or_app. right. apply in_flat_map. now exists rule.
Qed.

End RecurTimesOnAnswer.

(** ** endDateTime *)

Section EndDateTime.
Context {TM : TimeModel} {RM : RuleModel TM}.

Lemma ruleEnds_some (rules : list RecurrenceRule) (ends : list KDateTime) :
  ruleEnds rules = Some ends ->
  forall rule, In rule rules -> exists t, rule_endDt rule = Some t /\ In t ends.
Proof.
  revert ends; induction rules as [|x xs IH]; intros ends H rule Hin; [destruct Hin|].
  simpl in H. destruct (rule_endDt x) as [rl|] eqn:E; [|discriminate].
  destruct (ruleEnds xs) as [ends'|]; [|discriminate]. simpl in H. injection H as <-.
  destruct Hin as [<-|Hin].
  - exists rl. split; [exact E|now left].
  - destruct (IH ends' eq_refl rule Hin) as (t & Ht & Hi). exists t. split; [exact Ht|now right].
Qed.

Lemma endCandidates_start (midnight : QTime) (r : Recurrence) :
  In (startDateTime r) (endCandidates midnight r).
Proof.
  unfold endCandidates. destruct (rev (mRDates r)), (rev (mRDateTimes r));
    repeat (apply in_or_app; left); now left.
Qed.

Hypothesis order : OrderLaws dt_lt dt_eq.
Hypothesis equiv : EquivLaws dt_lt dt_eq.

(** No element of a list is above the last element of its sorted version. *)
Lemma last_of_sorted_is_max (l : list KDateTime) (e x : KDateTime) (rest : list KDateTime) :
  rev (sortUnique dt_lt dt_eq l) = e :: rest -> In x l -> dt_lt e x = false.
Proof.
  intros Hrev Hx. destruct (sortUnique_complete equiv _ _ Hx) as (y & Hy & Hxy).
  rewrite (ltb_eqb_r equiv x y e Hxy).
  exact (sorted_last_max order equiv y (sortUnique_sorted order l) Hrev Hy).
Qed.

Lemma not_below_the_last (l : list KDateTime) (e last x : KDateTime) (rest : list KDateTime) :
  sortedUnique dt_lt dt_eq l -> rev l = last :: rest -> dt_lt e last = false ->
  In x l -> dt_lt e x = false.
Proof.
  intros Hs Hrev He Hx.
  pose proof (sorted_last_max order equiv x Hs Hrev Hx) as Hlx.
  destruct (dt_lt e x) eqn:E; [|reflexivity].
  destruct (dt_eq last x) eqn:Eq.
  - rewrite (ltb_eqb_r equiv last x e Eq) in He. congruence.
  - pose proof (lt_total order _ _ Hlx Eq) as Hxl.
    pose proof (lt_trans order _ _ _ E Hxl). congruence.
Qed.

(** X6: when endDateTime() answers with a date/time, that date/time is not
    before the start, not before the end of any inclusion rule and, the
    inclusion date/times being sorted, not before any of them. *)
Theorem endDateTime_is_not_before_any_end (midnight : QTime)
    (valid : KDateTime -> bool) (r : Recurrence) (e : KDateTime) :
  sortedUnique dt_lt dt_eq (mRDateTimes r) ->
  endDateTime midnight valid r = Some e ->
  dt_lt e (startDateTime r) = false
  /\ (forall t, In t (mRDateTimes r) -> dt_lt e t = false)
  /\ (forall rule, In rule (mRRules r) ->
        exists t, rule_endDt rule = Some t /\ dt_lt e t = false).
Proof.
  intros Hs H. unfold endDateTime in H.
  destruct (ruleEnds (mRRules r)) as [ends|] eqn:Ee; [|discriminate].
  destruct (rev (sortUnique dt_lt dt_eq (endCandidates midnight r ++ ends)))
    as [|lastEnd rest] eqn:Er; [discriminate|].
  destruct (valid lastEnd); [|discriminate]. injection H as ->.
  assert (Hmax : forall x, In x (endCandidates midnight r ++ ends) -> dt_lt e x = false).
  { intros x Hx. exact (last_of_sorted_is_max _ x Er Hx). }
  split; [|split].
  - apply Hmax, in_or_app. left. apply endCandidates_start.
  - destruct (rev (mRDateTimes r)) as [|lastDateTime rest'] eqn:Et.
    { apply (f_equal (@rev _)) in Et. rewrite rev_involutive in Et. rewrite Et.
      intros t []. }
    intros t Ht. apply (not_below_the_last e t Hs Et); [|exact Ht].
    apply Hmax, in_or_app. left. unfold endCandidates. rewrite Et.
    apply in_or_app. right. now left.
  - intros rule Hrule. destruct (ruleEnds_some _ Ee rule Hrule) as (t & Ht & Hi).
    exists t. split; [exact Ht|]. apply Hmax, in_or_app. now right.
Qed.

End EndDateTime.

(** ** What the mutators leave alone *)

Section Frames.
Context {TM : TimeModel} {RM : RuleModel TM}.

Lemma cacheKept_refl (r : Recurrence) : cacheKept r r.
Proof. right. now split. Qed.

Lemma cacheKept_trans (r1 r2 r3 : Recurrence) :
  cacheKept r1 r2 -> cacheKept r2 r3 -> cacheKept r1 r3.
Proof.
  unfold cacheKept. intros H12 [H|[Hc Hr]]; [now left|].
  destruct H12 as [H|[Hc' Hr']]; [left; congruence|right; split; congruence].
Qed.

(** A step of a rule-building mutator: everything beside the inclusion
    rules stays, and the cached type is dropped or kept with the rules. *)
Local Abbreviation ruleStep r r' :=
  (besideTheRules r' = besideTheRules r /\ cacheKept r r').

Lemma ruleStep_refl (r : Recurrence) : ruleStep r r.
Proof. split; [reflexivity|apply cacheKept_refl]. Qed.

Lemma ruleStep_trans (r1 r2 r3 : Recurrence) :
  ruleStep r1 r2 -> ruleStep r2 r3 -> ruleStep r1 r3.
Proof.
  intros [H1 C1] [H2 C2]. split; [congruence|now apply cacheKept_trans with r2].
Qed.

Lemma ruleStep_updated (r : Recurrence) : ruleStep r (updated r).
Proof. split; [reflexivity|now left]. Qed.

Lemma ruleStep_rules_updated (v : list RecurrenceRule) (r : Recurrence) :
  ruleStep r (updated (set_mRRules v r)).
Proof. split; [reflexivity|now left]. Qed.

Lemma ruleStep_mutateDefaultRRule (f : RecurrenceRule -> RecurrenceRule) (r : Recurrence) :
  ruleStep r (mutateDefaultRRule f r).
Proof.
  unfold mutateDefaultRRule. destruct (mRRules r); [apply ruleStep_refl|].
  split; [reflexivity|now left].
Qed.

Lemma ruleStep_addRRule (x : option RecurrenceRule) (r : Recurrence) :
  ruleStep r (addRRule x r).
Proof.
  unfold addRRule, ruleMutated. destruct x as [x|]; [|apply ruleStep_refl].
  destruct (mRecurReadOnly r); [apply ruleStep_refl|].
  destruct (holds r x); (split; [reflexivity|now left]).
Qed.

Lemma ruleStep_defaultRRule (create : bool) (r : Recurrence) :
  ruleStep r (snd (defaultRRule create r)).
Proof.
  unfold defaultRRule. destruct (mRRules r); [|apply ruleStep_refl].
  destruct (negb create || mRecurReadOnly r); [apply ruleStep_refl|].
  cbn [snd]. apply ruleStep_addRRule.
Qed.

Ltac chain r' := apply ruleStep_trans with r'.

Lemma ruleStep_setEndDateTime (dt : KDateTime) (r : Recurrence) :
  ruleStep r (setEndDateTime dt r).
Proof.
  unfold setEndDateTime. destruct (mRecurReadOnly r); [apply ruleStep_refl|].
  pose proof (ruleStep_defaultRRule true r) as E.
  destruct (defaultRRule true r) as [[x|] r1]; cbn [snd] in E; [|exact E].
  chain r1; [exact E|]. chain (mutateDefaultRRule (rule_setEndDt dt) r1);
    [apply ruleStep_mutateDefaultRRule|apply ruleStep_updated].
Qed.

Lemma ruleStep_setNewRecurrenceType (type : PeriodType) (freq : Z) (r : Recurrence) :
  ruleStep r (snd (setNewRecurrenceType type freq r)).
Proof.
  unfold setNewRecurrenceType.
  destruct (mRecurReadOnly r || (freq <=? 0)%Z); [apply ruleStep_refl|].
  pose proof (ruleStep_defaultRRule true (updated (set_mRRules [] r))) as E.
  destruct (defaultRRule true (updated (set_mRRules [] r))) as [[x|] r1]; cbn [snd] in *.
  - chain (updated (set_mRRules [] r)); [apply ruleStep_rules_updated|].
    chain r1; [exact E|].
    repeat (eapply ruleStep_trans; [|apply ruleStep_mutateDefaultRRule]).
    apply ruleStep_refl.
  - chain (updated (set_mRRules [] r)); [apply ruleStep_rules_updated|exact E].
Qed.

Lemma ruleStep_setPeriodic (type : PeriodType) (freq : Z) (r : Recurrence) :
  ruleStep r (setPeriodic type freq r).
Proof.
  unfold setPeriodic. pose proof (ruleStep_setNewRecurrenceType type freq r) as E.
  destruct (setNewRecurrenceType type freq r) as [[|] r1]; cbn [snd] in E; [|exact E].
  chain r1; [exact E|apply ruleStep_updated].
Qed.

Lemma ruleStep_setWeekly (freq weekStart : Z) (r : Recurrence) :
  ruleStep r (setWeekly freq weekStart r).
Proof.
  unfold setWeekly. pose proof (ruleStep_setNewRecurrenceType rWeekly freq r) as E.
  destruct (setNewRecurrenceType rWeekly freq r) as [[|] r1]; cbn [snd] in E; [|exact E].
  chain r1; [exact E|]. chain (mutateDefaultRRule (rule_setWeekStart weekStart) r1);
    [apply ruleStep_mutateDefaultRRule|apply ruleStep_updated].
Qed.

Lemma ruleStep_changed (f : RecurrenceRule -> RecurrenceRule) (r r1 : Recurrence) :
  ruleStep r r1 -> ruleStep r (updated (mutateDefaultRRule f r1)).
Proof.
  intro E. chain r1; [exact E|]. chain (mutateDefaultRRule f r1);
    [apply ruleStep_mutateDefaultRRule|apply ruleStep_updated].
Qed.

Lemma ruleStep_addMonthlyPos (pos : Z) (days : list bool) (r : Recurrence) :
  ruleStep r (addMonthlyPos pos days r).
Proof.
  unfold addMonthlyPos.
  destruct (mRecurReadOnly r || (53 <? pos)%Z || (pos <? -53)%Z); [apply ruleStep_refl|].
  pose proof (ruleStep_defaultRRule false r) as E.
  destruct (defaultRRule false r) as [[x|] r1]; cbn [snd] in E; [|exact E].
  destruct (addPositions pos days 0 7 (rule_byDays x) false) as [positions [|]];
    [|exact E].
  now apply ruleStep_changed.
Qed.

Lemma ruleStep_addMonthlyDate (day : Z) (r : Recurrence) :
  ruleStep r (addMonthlyDate day r).
Proof.
  unfold addMonthlyDate.
  destruct (mRecurReadOnly r || (31 <? day)%Z || (day <? -31)%Z); [apply ruleStep_refl|].
  pose proof (ruleStep_defaultRRule true r) as E.
  destruct (defaultRRule true r) as [[x|] r1]; cbn [snd] in E; [|exact E].
  destruct (existsb (Z.eqb day) (rule_byMonthDays x)); [exact E|].
  now apply ruleStep_changed.
Qed.

Lemma ruleStep_build (b : RuleBuilder) (r : Recurrence) : ruleStep r (build b r).
Proof.
  destruct b; simpl;
    unfold setEndDate, setMinutely, setHourly, setDaily, setMonthly, setYearly,
      setWeeklyDays, addWeeklyDays, addYearlyDate, addYearlyPos.
  all: try apply ruleStep_setEndDateTime.
  all: try apply ruleStep_setPeriodic.
  all: try apply ruleStep_setWeekly.
  all: try apply ruleStep_addMonthlyPos.
  all: try apply ruleStep_addMonthlyDate.
  - chain (setWeekly freq weekStart r);
      [apply ruleStep_setWeekly|apply ruleStep_addMonthlyPos].
  - unfold addMonthlyPosDay.
    destruct (mRecurReadOnly r || (53 <? pos)%Z || (pos <? -53)%Z); [apply ruleStep_refl|].
    pose proof (ruleStep_defaultRRule false r) as E.
    destruct (defaultRRule false r) as [[x|] r1]; cbn [snd] in E; [|exact E].
    destruct (existsb _ (rule_byDays x)); [exact E|]. now apply ruleStep_changed.
  - unfold addYearlyDay.
    pose proof (ruleStep_defaultRRule false r) as E.
    destruct (defaultRRule false r) as [[x|] r1]; cbn [snd] in E; [|exact E].
    destruct (existsb _ (rule_byYearDays x)); [exact E|]. now apply ruleStep_changed.
  - unfold addYearlyMonth.
    destruct (mRecurReadOnly r || (month <? 1)%Z || (12 <? month)%Z); [apply ruleStep_refl|].
    pose proof (ruleStep_defaultRRule false r) as E.
    destruct (defaultRRule false r) as [[x|] r1]; cbn [snd] in E; [|exact E].
    destruct (existsb _ (rule_byMonths x)); [exact E|]. now apply ruleStep_changed.
Qed.

(** X7: the rule-building mutators (setDaily, setWeekly, addMonthlyPos,
    addMonthlyDate, addYearlyDay, addYearlyMonth, setEndDate and the rest)
    work on the inclusion rules only: the exclusion rules, the four
    explicit lists, the start, the observers, the all-day flag and the
    read-only flag are as before. *)
Theorem builders_touch_only_the_inclusion_rules (b : RuleBuilder) (r : Recurrence) :
  besideTheRules (build b r) = besideTheRules r.
Proof. apply ruleStep_build. Qed.

Lemma run_observers (m : Mutator) (r : Recurrence) :
  mObservers (run m r) = mObservers r.
Proof.
  destruct (mRecurReadOnly r) eqn:Hro; [now rewrite run_read_only|].
  assert (H : (forall l, m <> SetExDateTimes l) -> mObservers (run m r) = mObservers r).
  { intro Hm. apply (passes_of_mutator r Hro Hm). }
  destruct m; try (apply H; intros l; discriminate).
  simpl. unfold setExDateTimes. now rewrite Hro.
Qed.

Lemma run_cacheKept (m : Mutator) (r : Recurrence) : cacheKept r (run m r).
Proof.
  destruct (mRecurReadOnly r) eqn:Hro; [rewrite run_read_only by exact Hro; apply cacheKept_refl|].
  destruct r as [exr rr rdts rds exdts exds st obs cache fl ro dl].
  simpl in Hro; subst ro. unfold cacheKept.
  destruct m as [| |start|b|dateTime|n|freq|oldSpec newSpec|rrule|rrule|exrule|exrule
                |l|x|l|x|l|x|l|x]; simpl;
    unfold clear, unsetRecurs, setStartDateTime, setFloats, setEndDateTime, setDuration,
      setFrequency, shiftTimes, addRRule, removeRRule, addExRule, removeExRule,
      setRDateTimes, addRDateTime, setRDates, addRDate, setExDateTimes, addExDateTime,
      setExDates, addExDate, defaultRRule, addRRule, ruleMutated, recurrenceChanged,
      mutateDefaultRRule; simpl.
  all: try (closed_forms; first [left; reflexivity|right; split; reflexivity]).
  - destruct (isDateOnly start), fl; simpl; closed_forms; now left.
  - destruct b, fl; simpl; closed_forms;
      first [left; reflexivity|right; split; reflexivity].
  - destruct rr; simpl; [destruct (holds _ _); simpl|]; closed_forms; now left.
  - destruct rr; simpl; [destruct (holds _ _); simpl|]; closed_forms; now left.
  - destruct (freq <=? 0)%Z; simpl; [right; now split|].
    destruct rr; simpl; [destruct (holds _ _); simpl|]; closed_forms; now left.
  - closed_forms. destruct rr, exr; simpl;
      first [left; reflexivity|right; split; reflexivity].
  - destruct rrule as [x|]; simpl; [|right; now split].
    destruct (holds _ x); simpl; closed_forms; now left.
  - destruct exrule as [x|]; simpl; [|right; now split].
    destruct (holds _ x); simpl; closed_forms; now left.
Qed.

Lemma observer_eqb_eq (a b : option Observer) : observer_eqb a b = true <-> a = b.
Proof.
  destruct a, b; simpl; rewrite ?Nat.eqb_eq; split; congruence.
Qed.

Lemma addObserver_NoDup (o : option Observer) (r : Recurrence) :
  NoDup (mObservers r) -> NoDup (mObservers (addObserver o r)).
Proof.
  intro H. unfold addObserver.
  destruct (existsb (observer_eqb o) (mObservers r)) eqn:E; [exact H|]. simpl.
  apply NoDup_app; [exact H|constructor; [intros []|constructor]|].
  intros x Hx [<-|[]]. rewrite <- Bool.not_true_iff_false in E. apply E.
  apply existsb_exists. exists o. split; [exact Hx|now apply observer_eqb_eq].
Qed.

Lemma removeObserver_NoDup (o : option Observer) (r : Recurrence) :
  NoDup (mObservers r) -> NoDup (mObservers (removeObserver o r)).
Proof.
  intro H. unfold removeObserver.
  destruct (existsb (observer_eqb o) (mObservers r)); [|exact H]. simpl.
  now apply NoDup_filter.
Qed.

Lemma removeObserver_gone (o : option Observer) (r : Recurrence) :
  ~ In o (mObservers (removeObserver o r)).
Proof.
  unfold removeObserver.
  destruct (existsb (observer_eqb o) (mObservers r)) eqn:E; simpl.
  - intro H. apply filter_In in H. destruct H as [_ H].
    rewrite (proj2 (observer_eqb_eq o o) eq_refl) in H. discriminate.
  - intro H. rewrite <- Bool.not_true_iff_false in E. apply E.
    apply existsb_exists. exists o. split; [exact H|now apply observer_eqb_eq].
Qed.

Lemma addObserver_there (o : option Observer) (r : Recurrence) :
  In o (mObservers (addObserver o r)).
Proof.
  unfold addObserver. destruct (existsb (observer_eqb o) (mObservers r)) eqn:E; simpl.
  - apply existsb_exists in E. destruct E as (x & Hx & Ex).
    apply observer_eqb_eq in Ex. now subst x.
  - apply in_or_app. right. now left.
Qed.

Lemma In_notified (o : Observer) (obs : list (option Observer)) :
  In o (notified obs) <-> In (Some o) obs.
Proof.
  induction obs as [|[x|] xs IH]; simpl; [tauto| |].
  - rewrite IH. split; intros [H|H]; try (now right); left; congruence.
  - rewrite IH. split; [now right|]. intros [H|H]; [discriminate|exact H].
Qed.

Lemma notified_NoDup (obs : list (option Observer)) :
  NoDup obs -> NoDup (notified obs).
Proof.
  induction 1 as [|[x|] xs Hx Hs IH]; simpl; [constructor| |exact IH].
  constructor; [|exact IH]. now rewrite In_notified.
Qed.

Lemma reachable_NoDup (r : Recurrence) : Reachable r -> NoDup (mObservers r).
Proof.
  induction 1 as [|m r _ IH|b r _ IH|o r _ IH|o r _ IH|b r _ IH|r _ IH].
  - constructor.
  - now rewrite run_observers.
  - pose proof (f_equal (fun t => snd (fst (fst t))) (proj1 (ruleStep_build b r))) as E.
    simpl in E. now rewrite E.
  - now apply addObserver_NoDup.
  - now apply removeObserver_NoDup.
  - exact IH.
  - unfold recurrenceType. now destruct (RecurType_eqb (mCachedType r) rMax).
Qed.

(** X8: in every state a recurrence can be in, no observer is registered
    twice, so one pass of updated() calls each observer at most once: an
    observer that has just been added is called exactly once per pass, one
    that has just been removed is not called at all. *)
Theorem each_observer_is_called_once_per_pass (r : Recurrence) (o : Observer) :
  Reachable r ->
  NoDup (notified (mObservers r))
  /\ count_occ Nat.eq_dec (notified (mObservers (addObserver (Some o) r))) o = 1
  /\ count_occ Nat.eq_dec (notified (mObservers (removeObserver (Some o) r))) o = 0.
Proof.
  intro H. pose proof (reachable_NoDup H) as Hn. split; [|split].
  - now apply notified_NoDup.
  - apply NoDup_count_occ'.
    + now apply notified_NoDup, addObserver_NoDup.
    + apply In_notified, addObserver_there.
  - apply count_occ_not_In. rewrite In_notified. apply removeObserver_gone.
Qed.

Lemma cacheFresh_kept (r r' : Recurrence) :
  cacheFresh r -> cacheKept r r' -> cacheFresh r'.
Proof.
  unfold cacheFresh, cacheKept, defaultRRuleConst. intros H [K|[Kc Kr]]; [now left|].
  rewrite Kc, Kr. exact H.
Qed.

Lemma reachable_cacheFresh (r : Recurrence) : Reachable r -> cacheFresh r.
Proof.
  induction 1 as [|m r _ IH|b r _ IH|o r _ IH|o r _ IH|b r _ IH|r _ IH].
  - now left.
  - apply cacheFresh_kept with r; [exact IH|apply run_cacheKept].
  - apply cacheFresh_kept with r; [exact IH|apply ruleStep_build].
  - unfold addObserver. now destruct (existsb _ _).
  - unfold removeObserver. now destruct (existsb _ _).
  - exact IH.
  - unfold recurrenceType. destruct (RecurType_eqb (mCachedType r) rMax); [|exact IH].
    right. reflexivity.
Qed.

(** X9: the cached type is never stale.  In every state a recurrence can
    be in, recurrenceType() answers with the classification of the first
    inclusion rule as it is now, whether it reads the cache or fills it. *)
Theorem recurrenceType_is_never_stale (r : Recurrence) :
  Reachable r -> fst (recurrenceType r) = recurrenceTypeOf (defaultRRuleConst r).
Proof.
  intro H. apply reachable_cacheFresh in H. unfold recurrenceType.
  destruct (RecurType_eqb (mCachedType r) rMax) eqn:E; [reflexivity|]. simpl.
  destruct H as [H|H]; [|exact H]. rewrite H in E. discriminate.
Qed.

End Frames.

(** ** The default rule and its setters *)

Section DefaultRule.
Context {TM : TimeModel} {RM : RuleModel TM}.

(** On a recurrence that is not read-only, defaultRRule(true) always comes
    back with a rule, which is the first inclusion rule afterwards. *)
Lemma defaultRRule_creates (r : Recurrence) :
  mRecurReadOnly r = false ->
  exists x rest r1,
    defaultRRule true r = (Some x, r1) /\ mRRules r1 = x :: rest
    /\ mRecurReadOnly r1 = false
    /\ (mRRules r = [] ->
        x = rule_setFloats (mFloating r)
              (rule_setStartDt (startDateTime r) (rule_new (freshAddr r)))
        /\ rest = []).
Proof.
  intro Hro. destruct r as [exr rr rdts rds exdts exds st obs cache fl ro dl].
  simpl in Hro; subst ro. unfold defaultRRule. simpl.
  destruct rr as [|x rest].
  - unfold addRRule, ruleMutated, defaultRRuleConst. simpl.
    destruct (holds _ _); simpl; (eexists; exists []; eexists; repeat split).
  - exists x, rest. eexists. split; [reflexivity|]. split; [reflexivity|].
    split; [reflexivity|]. simpl. discriminate.
Qed.

(** defaultRRule(false) hands out the first inclusion rule, if there is
    one, and changes nothing. *)
Lemma defaultRRule_existing (r : Recurrence) :
  defaultRRule false r = (defaultRRuleConst r, r).
Proof. unfold defaultRRule, defaultRRuleConst. now destruct (mRRules r). Qed.

Lemma defaultRRule_head (create : bool) (r : Recurrence) (x : RecurrenceRule)
    (rest : list RecurrenceRule) :
  mRRules r = x :: rest -> defaultRRule create r = (Some x, r).
Proof. unfold defaultRRule. now intros ->. Qed.

Lemma changed_head (f : RecurrenceRule -> RecurrenceRule) (r : Recurrence)
    (x : RecurrenceRule) (rest : list RecurrenceRule) :
  mRRules r = x :: rest ->
  mRRules (updated (mutateDefaultRRule f r)) = f x :: rest
  /\ mRecurReadOnly (updated (mutateDefaultRRule f r)) = mRecurReadOnly r.
Proof.
  intro H. unfold mutateDefaultRRule. rewrite H. split; reflexivity.
Qed.

(** X10: on a recurrence that is not read-only, setFrequency(f) with
    f > 0 makes frequency() answer f and setDuration(n) makes duration()
    answer n, a default rule being created when there is none;
    setFrequency(f) with f <= 0 changes nothing. *)
Theorem setFrequency_and_setDuration_are_read_back (r : Recurrence) (f n : Z) :
  (forall v x, rule_frequency (rule_setFrequency v x) = v) ->
  (forall v x, rule_duration (rule_setDuration v x) = v) ->
  mRecurReadOnly r = false ->
  ((0 < f)%Z -> frequency (setFrequency f r) = f)
  /\ ((f <= 0)%Z -> setFrequency f r = r)
  /\ duration (setDuration n r) = n.
Proof.
  intros Hf Hd Hro.
  destruct (defaultRRule_creates r Hro) as (x & rest & r1 & E & Hr1 & _ & _).
  split; [|split].
  - intro Hpos. unfold setFrequency. rewrite Hro, E. simpl.
    replace (f <=? 0)%Z with false by (symmetry; apply Z.leb_gt; lia).
    unfold frequency, defaultRRuleConst.
    rewrite (proj1 (changed_head (rule_setFrequency f) r1 Hr1)). apply Hf.
  - intro Hle. unfold setFrequency.
    replace (f <=? 0)%Z with true by (symmetry; apply Z.leb_le; lia).
    now rewrite orb_true_r.
  - unfold setDuration. rewrite Hro, E. unfold duration, defaultRRuleConst.
    rewrite (proj1 (changed_head (rule_setDuration n) r1 Hr1)). apply Hd.
Qed.

(** X11: addMonthlyDate(day) takes every day from -31 to 31, 0 included:
    on a recurrence that is not read-only the day is among monthDays()
    afterwards, a default rule being created when there is none.  A day
    out of that range changes nothing, and adding a day a second time
    changes nothing either. *)
Theorem addMonthlyDate_adds_the_day_once (r : Recurrence) (day : Z) :
  (forall l x, rule_byMonthDays (rule_setByMonthDays l x) = l) ->
  (mRecurReadOnly r = false -> (-31 <= day <= 31)%Z ->
     In day (monthDays (addMonthlyDate day r)))
  /\ ((day < -31 \/ 31 < day)%Z -> addMonthlyDate day r = r)
  /\ addMonthlyDate day (addMonthlyDate day r) = addMonthlyDate day r.
Proof.
  intro Hlaw.
  assert (Hout : forall r0, (mRecurReadOnly r0 || (31 <? day)%Z || (day <? -31)%Z) = true ->
                 addMonthlyDate day r0 = r0).
  { intros r0 H. unfold addMonthlyDate. now rewrite H. }
  assert (Hin : forall r0, mRecurReadOnly r0 = false -> (-31 <= day <= 31)%Z ->
            exists x rest, mRRules (addMonthlyDate day r0) = x :: rest
              /\ mRecurReadOnly (addMonthlyDate day r0) = false
              /\ existsb (Z.eqb day) (rule_byMonthDays x) = true).
  { intros r0 Hro Hday.
    destruct (defaultRRule_creates r0 Hro) as (x & rest & r1 & E & Hr1 & Hro1 & _).
    unfold addMonthlyDate. rewrite Hro, E.
    replace (31 <? day)%Z with false by (symmetry; apply Z.ltb_ge; lia).
    replace (day <? -31)%Z with false by (symmetry; apply Z.ltb_ge; lia). simpl.
    destruct (existsb (Z.eqb day) (rule_byMonthDays x)) eqn:Ex.
    - exists x, rest. now repeat split.
    - destruct (changed_head (rule_setByMonthDays (rule_byMonthDays x ++ [day])) r1 Hr1)
        as [Hh Hr]. eexists. exists rest. split; [exact Hh|]. split; [congruence|].
      rewrite Hlaw, existsb_app. simpl. now rewrite Z.eqb_refl, orb_true_r. }
  split; [|split].
  - intros Hro Hday. destruct (Hin r Hro Hday) as (x & rest & Hx & _ & Hex).
    unfold monthDays, defaultRRuleConst. rewrite Hx.
    apply existsb_exists in Hex. destruct Hex as (y & Hy & Ey).
    apply Z.eqb_eq in Ey. now subst y.
  - intro Hday. apply Hout.
    assert (H : ((31 <? day)%Z || (day <? -31)%Z) = true).
    { apply orb_true_iff. rewrite !Z.ltb_lt. lia. }
    rewrite <- orb_assoc, H. apply orb_true_r.
  - destruct (mRecurReadOnly r || (31 <? day)%Z || (day <? -31)%Z) eqn:G.
    + now rewrite !(Hout r G).
    + rewrite !orb_false_iff in G. destruct G as [[Hro H1] H2].
      destruct (Hin r Hro) as (x & rest & Hx & Hro' & Hex);
        [apply Z.ltb_ge in H1, H2; lia|].
      generalize dependent (addMonthlyDate day r). intros r' Hx Hro'.
      unfold addMonthlyDate at 1.
      now rewrite Hro', H1, H2, (defaultRRule_head true r' Hx), Hex.
Qed.

(** X12: addYearlyMonth(month) takes the months 1 to 12.  It works on
    the first inclusion rule and never creates one: without an inclusion
    rule it changes nothing.  With one, on a recurrence that is not
    read-only, the month is among yearMonths() afterwards; and adding a
    month a second time changes nothing. *)
Theorem addYearlyMonth_needs_a_rule (r : Recurrence) (month : Z) :
  (forall l x, rule_byMonths (rule_setByMonths l x) = l) ->
  (mRRules r = [] -> addYearlyMonth month r = r)
  /\ (mRecurReadOnly r = false -> (1 <= month <= 12)%Z -> mRRules r <> [] ->
        In month (yearMonths (addYearlyMonth month r)))
  /\ ((month < 1 \/ 12 < month)%Z -> addYearlyMonth month r = r)
  /\ addYearlyMonth month (addYearlyMonth month r) = addYearlyMonth month r.
Proof.
  intro Hlaw.
  assert (Hout : forall r0, (mRecurReadOnly r0 || (month <? 1)%Z || (12 <? month)%Z) = true ->
                 addYearlyMonth month r0 = r0).
  { intros r0 H. unfold addYearlyMonth. now rewrite H. }
  assert (Hnone : forall r0, mRRules r0 = [] -> addYearlyMonth month r0 = r0).
  { intros r0 H. unfold addYearlyMonth. rewrite defaultRRule_existing.
    unfold defaultRRuleConst. rewrite H. now destruct (_ || _). }
  assert (Hin : forall r0 x rest, mRecurReadOnly r0 = false -> (1 <= month <= 12)%Z ->
            mRRules r0 = x :: rest ->
            exists x', mRRules (addYearlyMonth month r0) = x' :: rest
              /\ mRecurReadOnly (addYearlyMonth month r0) = false
              /\ existsb (Z.eqb month) (rule_byMonths x') = true).
  { intros r0 x rest Hro Hm Hx. unfold addYearlyMonth.
    rewrite Hro, (defaultRRule_head false r0 Hx).
    replace (month <? 1)%Z with false by (symmetry; apply Z.ltb_ge; lia).
    replace (12 <? month)%Z with false by (symmetry; apply Z.ltb_ge; lia). simpl.
    destruct (existsb (Z.eqb month) (rule_byMonths x)) eqn:Ex.
    - exists x. now repeat split.
    - destruct (changed_head (rule_setByMonths (rule_byMonths x ++ [month])) r0 Hx)
        as [Hh Hr]. eexists. split; [exact Hh|]. split; [congruence|].
      rewrite Hlaw, existsb_app. simpl. now rewrite Z.eqb_refl, orb_true_r. }
  split; [exact (Hnone r)|]. split; [|split].
  - intros Hro Hm Hne. destruct (mRRules r) as [|x rest] eqn:Hx; [now destruct Hne|].
    destruct (Hin r x rest Hro Hm Hx) as (x' & Hx' & _ & Hex).
    unfold yearMonths, defaultRRuleConst. rewrite Hx'.
    apply existsb_exists in Hex. destruct Hex as (y & Hy & Ey).
    apply Z.eqb_eq in Ey. now subst y.
  - intro Hm. apply Hout.
    assert (H : ((month <? 1)%Z || (12 <? month)%Z) = true).
    { apply orb_true_iff. rewrite !Z.ltb_lt. lia. }
    rewrite <- orb_assoc, H. apply orb_true_r.
  - destruct (mRecurReadOnly r || (month <? 1)%Z || (12 <? month)%Z) eqn:G.
    + now rewrite !(Hout r G).
    + rewrite !orb_false_iff in G. destruct G as [[Hro H1] H2].
      destruct (mRRules r) as [|x rest] eqn:Hx.
      * now rewrite !(Hnone r Hx).
      * destruct (Hin r x rest Hro) as (x' & Hx' & Hro' & Hex);
          [apply Z.ltb_ge in H1, H2; lia|exact Hx|].
        generalize dependent (addYearlyMonth month r). intros r' Hx' Hro'.
        unfold addYearlyMonth at 1.
        now rewrite Hro', H1, H2, (defaultRRule_head false r' Hx'), Hex.
Qed.

(** X13: addYearlyDay(day) checks neither the read-only flag nor the
    range of the day.  With an inclusion rule held, any day at all is among
    yearDays() afterwards, on a read-only recurrence too; without one
    nothing changes.  Adding a day a second time changes nothing. *)
Theorem addYearlyDay_takes_any_day (r : Recurrence) (day : Z) :
  (forall l x, rule_byYearDays (rule_setByYearDays l x) = l) ->
  (mRRules r = [] -> addYearlyDay day r = r)
  /\ (mRRules r <> [] -> In day (yearDays (addYearlyDay day r)))
  /\ addYearlyDay day (addYearlyDay day r) = addYearlyDay day r.
Proof.
  intro Hlaw.
  assert (Hnone : forall r0, mRRules r0 = [] -> addYearlyDay day r0 = r0).
  { intros r0 H. unfold addYearlyDay. rewrite defaultRRule_existing.
    unfold defaultRRuleConst. now rewrite H. }
  assert (Hin : forall r0 x rest, mRRules r0 = x :: rest ->
            exists x', mRRules (addYearlyDay day r0) = x' :: rest
              /\ existsb (Z.eqb day) (rule_byYearDays x') = true).
  { intros r0 x rest Hx. unfold addYearlyDay. rewrite (defaultRRule_head false r0 Hx).
    destruct (existsb (Z.eqb day) (rule_byYearDays x)) eqn:Ex.
    - exists x. now split.
    - destruct (changed_head (rule_setByYearDays (rule_byYearDays x ++ [day])) r0 Hx)
        as [Hh _]. eexists. split; [exact Hh|].
      rewrite Hlaw, existsb_app. simpl. now rewrite Z.eqb_refl, orb_true_r. }
  split; [exact (Hnone r)|]. split.
  - intro Hne. destruct (mRRules r) as [|x rest] eqn:Hx; [now destruct Hne|].
    destruct (Hin r x rest Hx) as (x' & Hx' & Hex).
    unfold yearDays, defaultRRuleConst. rewrite Hx'.
    apply existsb_exists in Hex. destruct Hex as (y & Hy & Ey).
    apply Z.eqb_eq in Ey. now subst y.
  - destruct (mRRules r) as [|x rest] eqn:Hx.
    + now rewrite !(Hnone r Hx).
    + destruct (Hin r x rest Hx) as (x' & Hx' & Hex).
      generalize dependent (addYearlyDay day r). intros r' Hx'.
      unfold addYearlyDay at 1. now rewrite (defaultRRule_head false r' Hx'), Hex.
Qed.

(** X14: setMinutely, setHourly, setDaily, setMonthly and setYearly with
    a frequency above 0, on a recurrence that is not read-only, throw away
    every inclusion rule held and leave exactly one: a new rule given the
    start and the all-day flag of the recurrence, then the type, the
    frequency and the duration -1.  With a frequency of 0 or less they
    change nothing. *)
Theorem setPeriodic_replaces_the_inclusion_rules (type : PeriodType) (freq : Z)
    (r : Recurrence) :
  mRecurReadOnly r = false ->
  ((0 < freq)%Z ->
     exists a,
       mRRules (setPeriodic type freq r)
       = [rule_setDuration (-1)
            (rule_setFrequency freq
               (rule_setRecurrenceType type
                  (rule_setFloats (mFloating r)
                     (rule_setStartDt (startDateTime r) (rule_new a)))))])
  /\ ((freq <= 0)%Z -> setPeriodic type freq r = r).
Proof.
  intro Hro. split.
  - intro Hpos. exists (freshAddr (updated (set_mRRules [] r))).
    unfold setPeriodic, setNewRecurrenceType. rewrite Hro.
    replace (freq <=? 0)%Z with false by (symmetry; apply Z.leb_gt; lia). simpl.
    destruct (defaultRRule_creates (updated (set_mRRules [] r)) Hro)
      as (x & rest & r1 & E & Hr1 & _ & Hnew).
    destruct (Hnew eq_refl) as [-> ->]. rewrite E.
    unfold mutateDefaultRRule at 3. rewrite Hr1. unfold recurrenceChanged.
    unfold mutateDefaultRRule at 2. simpl. unfold recurrenceChanged.
    unfold mutateDefaultRRule. simpl. reflexivity.
  - intro Hle. unfold setPeriodic, setNewRecurrenceType.
    replace (freq <=? 0)%Z with true by (symmetry; apply Z.leb_le; lia).
    now rewrite orb_true_r.
Qed.

End DefaultRule.

(** ** Recurrences that do not recur, and dates added to the lists *)

Section EdgeQueries.
Context {TM : TimeModel} {RM : RuleModel TM}.

Lemma nextSearch_admitted (n : nat) (r : Recurrence) (c x : KDateTime) :
  nextSearch n r c = Found x -> admitted r x = true.
Proof.
  revert c; induction n as [|n IH]; intro c; simpl; [discriminate|].
  destruct (nextCandidates r c) as [|y ys]; [discriminate|].
  destruct (admitted r y) eqn:E; [now intros [= <-]|apply IH].
Qed.

Lemma previousSearch_admitted (n : nat) (r : Recurrence) (c x : KDateTime) :
  previousSearch n r c = Found x -> admitted r x = true.
Proof.
  revert c; induction n as [|n IH]; intro c; simpl; [discriminate|].
  destruct (rev (previousCandidates r c)) as [|y ys]; [discriminate|].
  destruct (admitted r y) eqn:E; [now intros [= <-]|apply IH].
Qed.

Lemma recurs_false (r : Recurrence) :
  recurs r = false -> mRRules r = [] /\ mRDates r = [] /\ mRDateTimes r = [].
Proof.
  unfold recurs. rewrite !orb_false_iff, !negb_false_iff, !isEmpty_true. tauto.
Qed.

Lemma nextCandidates_start_only (r : Recurrence) (c : KDateTime) :
  recurs r = false ->
  nextCandidates r c = if dt_lt c (startDateTime r) then [startDateTime r] else [].
Proof.
  intro H. destruct (recurs_false r H) as (Hr & Hd & Ht).
  unfold nextCandidates. rewrite Hr, Hd, Ht. simpl.
  now destruct (dt_lt c (startDateTime r)).
Qed.

Lemma previousCandidates_start_only (r : Recurrence) (c : KDateTime) :
  recurs r = false ->
  previousCandidates r c = if dt_lt (startDateTime r) c then [startDateTime r] else [].
Proof.
  intro H. destruct (recurs_false r H) as (Hr & Hd & Ht).
  unfold previousCandidates. rewrite Hr, Hd, Ht. simpl.
  now destruct (dt_lt (startDateTime r) c).
Qed.

Lemma nextSearch_stuck (n : nat) (r : Recurrence) (c : KDateTime) :
  recurs r = false -> admitted r (startDateTime r) = false ->
  result (nextSearch n r c) = None.
Proof.
  intros H Ha. revert c; induction n as [|n IH]; intro c; simpl; [reflexivity|].
  rewrite (nextCandidates_start_only r c H).
  destruct (dt_lt c (startDateTime r)); [|reflexivity]. rewrite Ha. apply IH.
Qed.

Lemma previousSearch_stuck (n : nat) (r : Recurrence) (c : KDateTime) :
  recurs r = false -> admitted r (startDateTime r) = false ->
  result (previousSearch n r c) = None.
Proof.
  intros H Ha. revert c; induction n as [|n IH]; intro c; simpl; [reflexivity|].
  rewrite (previousCandidates_start_only r c H).
  destruct (dt_lt (startDateTime r) c); [|reflexivity]. simpl. rewrite Ha. apply IH.
Qed.

Lemma nextSearch_start_only (n : nat) (r : Recurrence) (c : KDateTime) :
  recurs r = false ->
  result (nextSearch (S n) r c)
  = (if dt_lt c (startDateTime r) && admitted r (startDateTime r)
     then Some (startDateTime r) else None).
Proof.
  intro H. simpl. rewrite (nextCandidates_start_only r c H).
  destruct (dt_lt c (startDateTime r)); [|reflexivity]. simpl.
  destruct (admitted r (startDateTime r)) eqn:Ha; [reflexivity|].
  now apply nextSearch_stuck.
Qed.

Lemma previousSearch_start_only (n : nat) (r : Recurrence) (c : KDateTime) :
  recurs r = false ->
  result (previousSearch (S n) r c)
  = (if dt_lt (startDateTime r) c && admitted r (startDateTime r)
     then Some (startDateTime r) else None).
Proof.
  intro H. simpl. rewrite (previousCandidates_start_only r c H).
  destruct (dt_lt (startDateTime r) c); [|reflexivity]. simpl.
  destruct (admitted r (startDateTime r)) eqn:Ha; [reflexivity|].
  now apply previousSearch_stuck.
Qed.

Lemma nextSearch_first (n : nat) (r : Recurrence) (c : KDateTime) :
  (forall x, admitted r x = true) ->
  result (nextSearch (S n) r c) = hd_error (nextCandidates r c).
Proof.
  intro Ha. simpl. destruct (nextCandidates r c) as [|y ys]; [reflexivity|].
  now rewrite Ha.
Qed.

(** X15: a recurrence for which recurs() is false (no inclusion rule,
    date or date/time) has no times in any interval, its start included;
    yet getNextDateTime() and getPreviousDateTime() answer with the start
    when it lies on the asked side and no exclusion names it, and with
    nothing otherwise. *)
Theorem without_recurrence_only_the_start_is_found (r : Recurrence)
    (start end_ c : KDateTime) :
  recurs r = false ->
  timesInInterval r start end_ = []
  /\ getNextDateTime r c
     = (if dt_lt c (startDateTime r) && admitted r (startDateTime r)
        then Some (startDateTime r) else None)
  /\ getPreviousDateTime r c
     = (if dt_lt (startDateTime r) c && admitted r (startDateTime r)
        then Some (startDateTime r) else None).
Proof.
  intro H. destruct (recurs_false r H) as (Hr & Hd & Ht). split; [|split].
  - unfold timesInInterval. rewrite Hr, Hd, Ht. simpl.
    replace (removeExDates (mExDates r) []) with (@nil KDateTime)
      by now destruct (mExDates r).
    apply removeEach_nil_times.
  - exact (nextSearch_start_only 999 r c H).
  - exact (previousSearch_start_only 999 r c H).
Qed.

Lemma contains_inserted (q d : QDate) (l : list QDate) :
  EquivLaws date_lt date_eq -> date_eq q d = true ->
  containsSorted date_eq q (insertSorted date_lt date_eq d l) = true.
Proof.
  intros equiv Hq. destruct (insertSorted_has equiv d l) as (y & Hy & Hdy).
  apply existsb_exists. exists y. split; [exact Hy|].
  now apply (eqb_trans equiv) with d.
Qed.

(** X16: after addExDate(d) on a recurrence that is not read-only, the
    date d is out: recursOn(d) is false and recurTimesOn(d) is empty in
    every time spec, recursAt() is false for every date/time that falls on
    d in the start's time spec, and neither getNextDateTime() nor
    getPreviousDateTime() answers with a date/time on d. *)
Theorem addExDate_takes_the_date_out (r : Recurrence) (d : QDate) :
  EquivLaws date_lt date_eq ->
  mRecurReadOnly r = false ->
  let r' := addExDate d r in
  (forall ts, recursOn r' d ts = false /\ recurTimesOn r' d ts = [])
  /\ (forall t, date_eq (date (toTimeSpec t (timeSpec (mStartDateTime r)))) d = true ->
        recursAt r' t = false)
  /\ (forall c x, getNextDateTime r' c = Some x \/ getPreviousDateTime r' c = Some x ->
        date_eq (date x) d = false).
Proof.
  intros equiv Hro r'.
  assert (Hex : mExDates r' = insertSorted date_lt date_eq d (mExDates r)).
  { unfold r', addExDate. now rewrite Hro. }
  assert (Hst : mStartDateTime r' = mStartDateTime r).
  { unfold r', addExDate. now rewrite Hro. }
  assert (Hin : forall q, date_eq q d = true -> containsSorted date_eq q (mExDates r') = true).
  { intros q Hq. rewrite Hex. now apply contains_inserted. }
  split; [|split].
  - intro ts. unfold recursOn, recurTimesOn.
    rewrite (Hin d (eqb_refl equiv d)). split; [|reflexivity].
    now destruct (dt_lt _ _).
  - intros t Ht. unfold recursAt. rewrite Hst, (Hin _ Ht). now rewrite orb_true_r.
  - intros c x Hx.
    assert (Ha : admitted r' x = true).
    { destruct Hx as [Hx|Hx].
      - unfold getNextDateTime in Hx.
        destruct (nextSearch 1000 r' c) eqn:E; [|discriminate..].
        injection Hx as ->. exact (nextSearch_admitted _ _ _ E).
      - unfold getPreviousDateTime in Hx.
        destruct (previousSearch 1000 r' c) eqn:E; [|discriminate..].
        injection Hx as ->. exact (previousSearch_admitted _ _ _ E). }
    destruct (date_eq (date x) d) eqn:E; [|reflexivity].
    unfold admitted in Ha. rewrite (Hin _ E) in Ha. discriminate.
Qed.

(** X17: after addRDateTime(t) on a recurrence that is not read-only,
    recursAt(t) is true unless an exclusion names t, and after addRDate(d)
    recursOn(d) is true unless d ends before the start or is excluded as a
    whole day.  Asked of the date/times: one converted to another time spec
    still compares equal to itself. *)
Theorem added_inclusions_are_reported (r : Recurrence) (t : KDateTime) (d : QDate)
    (ts : Spec) :
  EquivLaws dt_lt dt_eq -> EquivLaws date_lt date_eq ->
  (forall k s, dt_eq (toTimeSpec k s) k = true) ->
  mRecurReadOnly r = false ->
  (admitted r (toTimeSpec t (timeSpec (mStartDateTime r))) = true ->
     recursAt (addRDateTime t r) t = true)
  /\ (dt_lt (mkDateTime d endOfDay ts) (mStartDateTime r) = false ->
      containsSorted date_eq d (mExDates r) = false ->
      floats r && existsb (fun x => rule_recursOn x d ts) (mExRules r) = false ->
      recursOn (addRDate d r) d ts = true).
Proof.
  intros equiv dequiv Hconv Hro. split.
  - intro Ha. unfold recursAt, addRDateTime. rewrite Hro. simpl.
    set (dtrecur := toTimeSpec t (timeSpec (mStartDateTime r))) in *.
    unfold admitted in Ha. rewrite allowed_fold in Ha. simpl in Ha.
    destruct (containsSorted date_eq (date dtrecur) (mExDates r)); [discriminate|].
    destruct (containsSorted dt_eq dtrecur (mExDateTimes r)); [discriminate|].
    simpl in *. apply negb_true_iff in Ha. rewrite Ha.
    destruct (insertSorted_has equiv t (mRDateTimes r)) as (y & Hy & Hty).
    assert (Hc : containsSorted dt_eq dtrecur (insertSorted dt_lt dt_eq t (mRDateTimes r))
                 = true).
    { apply existsb_exists. exists y. split; [exact Hy|].
      apply (eqb_trans equiv) with t; [apply Hconv|exact Hty]. }
    rewrite Hc. now rewrite orb_true_r.
  - intros Hs He Hf. unfold recursOn, addRDate. rewrite Hro. simpl.
    rewrite Hs, He. unfold floats in *. simpl. rewrite Hf.
    rewrite contains_inserted; [reflexivity|exact dequiv|apply (eqb_refl dequiv)].
Qed.

(** X18: with no exclusion date, date/time or rule, getNextDateTime()
    answers in its first round with the first of the sorted candidates
    after the given date/time, and that answer is above none of them: not
    above the start when the start comes after, and not above the next date
    of any inclusion rule. *)
Theorem getNextDateTime_without_exclusions_is_the_first_candidate (r : Recurrence)
    (c : KDateTime) :
  OrderLaws dt_lt dt_eq -> EquivLaws dt_lt dt_eq ->
  mExDates r = [] -> mExDateTimes r = [] -> mExRules r = [] ->
  getNextDateTime r c = hd_error (nextCandidates r c)
  /\ (forall x, getNextDateTime r c = Some x ->
        (dt_lt c (startDateTime r) = true -> dt_lt (startDateTime r) x = false)
        /\ (forall rule y, In rule (mRRules r) -> rule_getNextDate rule c = Some y ->
              dt_lt y x = false)).
Proof.
  intros order equiv Hd Ht Hr.
  assert (Ha : forall x, admitted r x = true).
  { intro x. unfold admitted. now rewrite Hd, Ht, Hr. }
  assert (Hg : getNextDateTime r c = hd_error (nextCandidates r c)).
  { exact (nextSearch_first 999 r c Ha). }
  split; [exact Hg|]. intros x Hx. rewrite Hg in Hx.
  unfold nextCandidates in Hx.
  set (raw := ((_ ++ _) ++ _) ++ _) in Hx.
  assert (Hmin : forall y, In y raw -> dt_lt y x = false).
  { intros y Hy. destruct (sortUnique_complete equiv _ _ Hy) as (z & Hz & Hyz).
    rewrite (ltb_eqb_l equiv y z x Hyz).
    pose proof (sortUnique_sorted order raw) as Hs.
    destruct (sortUnique dt_lt dt_eq raw) as [|h rest]; [discriminate|].
    simpl in Hx. injection Hx as ->. destruct Hz as [<-|Hz].
    - apply (ltb_irrefl order equiv).
    - inversion Hs as [|? ? _ Hall]; subst. rewrite Forall_forall in Hall.
      apply (ltb_asym order equiv). now apply Hall. }
  split.
  - intro Hlt. apply Hmin. unfold raw. rewrite Hlt.
    repeat (apply in_or_app; left). now left.
  - intros rule y Hrule Hy. apply Hmin. unfold raw. apply in_or_app. right.
    apply in_flat_map. exists rule. split; [exact Hrule|]. rewrite Hy. now left.
Qed.

End EdgeQueries.

(** ** Shifting there and back *)

Section ShiftRoundTrip.
Context {TM : TimeModel} {RM : RuleModel TM}.
Hypothesis toTimeSpec_sets : forall k s, timeSpec (toTimeSpec k s) = s.
Hypothesis toTimeSpec_same : forall k, toTimeSpec k (timeSpec k) = k.
Hypothesis setTimeSpec_sets : forall k s, timeSpec (setTimeSpec k s) = s.
Hypothesis setTimeSpec_twice : forall k s s', setTimeSpec (setTimeSpec k s) s' = setTimeSpec k s'.
Hypothesis setTimeSpec_same : forall k, setTimeSpec k (timeSpec k) = k.

Lemma shiftDateTime_back (a b : Spec) (x : KDateTime) :
  shiftDateTime b a (shiftDateTime a b x) = toTimeSpec x a.
Proof.
  unfold shiftDateTime.
  pose proof (toTimeSpec_same (setTimeSpec (toTimeSpec x a) b)) as E.
  rewrite setTimeSpec_sets in E. rewrite E, setTimeSpec_twice.
  pose proof (setTimeSpec_same (toTimeSpec x a)) as F.
  now rewrite toTimeSpec_sets in F.
Qed.

Lemma shiftTimes_stays_writable (a b : Spec) (r : Recurrence) :
  mRecurReadOnly (shiftTimes a b r) = mRecurReadOnly r.
Proof.
  unfold shiftTimes. destruct (mRecurReadOnly r) eqn:Hro; [exact Hro|].
  closed_forms. exact Hro.
Qed.

(** X19: on a recurrence that is not read-only, shiftTimes(a, b)
    followed by shiftTimes(b, a) brings every stored date/time (the start,
    the inclusion and the exclusion date/times) back to the moment it had,
    expressed in the spec a; a recurrence stored in a gets its date/times
    back as they were. *)
Theorem shiftTimes_there_and_back (a b : Spec) (r : Recurrence) :
  mRecurReadOnly r = false ->
  storedInstants (shiftTimes b a (shiftTimes a b r))
  = map (fun x => toTimeSpec x a) (storedInstants r)
  /\ ((forall x, In x (storedInstants r) -> timeSpec x = a) ->
      storedInstants (shiftTimes b a (shiftTimes a b r)) = storedInstants r).
Proof.
  intro Hro.
  assert (E : storedInstants (shiftTimes b a (shiftTimes a b r))
              = map (fun x => toTimeSpec x a) (storedInstants r)).
  { rewrite storedInstants_shiftTimes by now rewrite shiftTimes_stays_writable.
    rewrite storedInstants_shiftTimes by exact Hro.
    rewrite map_map. apply map_ext. intro x. apply shiftDateTime_back. }
  split; [exact E|]. intro Hspec. rewrite E.
  rewrite <- (map_id (storedInstants r)) at 2. apply map_ext_in.
  intros x Hx. rewrite <- (Hspec x Hx). apply toTimeSpec_same.
Qed.

End ShiftRoundTrip.

(** ** Busy periods *)

Section BusyPeriods.
Variable QDateTime : Type.
Variable secsTo : QDateTime -> QDateTime -> Z.
Hypothesis secsTo_back : forall a b, secsTo a b = (- secsTo b a)%Z.


End BusyPeriods.

(** ** The all-day flag and the rule lists *)

Section FlagAndRules.
Context {TM : TimeModel} {RM : RuleModel TM}.

(** X21: on a recurrence that is not read-only, setFloats(b) makes
    floats() answer b, and a second setFloats(b) changes nothing and calls
    no observer; when the flag does change, it is passed on to every
    inclusion and exclusion rule. *)
Theorem setFloats_settles (b : bool) (r : Recurrence) :
  mRecurReadOnly r = false ->
  floats (setFloats b r) = b
  /\ setFloats b (setFloats b r) = setFloats b r
  /\ (b <> floats r ->
      mRRules (setFloats b r) = map (rule_setFloats b) (mRRules r)
      /\ mExRules (setFloats b r) = map (rule_setFloats b) (mExRules r)).
Proof.
  intro Hro.
  assert (Hsame : forall r0, Bool.eqb b (mFloating r0) = true -> setFloats b r0 = r0).
  { intros r0 E. unfold setFloats. rewrite E. now rewrite orb_true_r. }
  destruct (Bool.eqb b (mFloating r)) eqn:E.
  - rewrite !(Hsame r E). apply Bool.eqb_prop in E. unfold floats.
    split; [now symmetry|]. split; [reflexivity|]. intro H. now destruct H.
  - assert (Hset : mFloating (setFloats b r) = b
                   /\ mRRules (setFloats b r) = map (rule_setFloats b) (mRRules r)
                   /\ mExRules (setFloats b r) = map (rule_setFloats b) (mExRules r)).
    { unfold setFloats. rewrite Hro, E. simpl. closed_forms. now repeat split. }
    destruct Hset as (Hfl & Hrr & Hex). unfold floats.
    split; [exact Hfl|]. split; [|intros _; now split].
    apply Hsame. rewrite Hfl. apply Bool.eqb_reflx.
Qed.

Lemma removeAll_others (x : RecurrenceRule) (l : list RecurrenceRule) :
  (forall y, In y l -> rule_addr y <> rule_addr x) -> removeAll x l = l.
Proof.
  induction l as [|y ys IH]; intro H; simpl; [reflexivity|].
  assert (E : Nat.eqb (rule_addr y) (rule_addr x) = false).
  { apply Nat.eqb_neq, H. now left. }
  rewrite E. simpl. f_equal. apply IH. intros z Hz. apply H. now right.
Qed.

(** X22: removeRRule(x) undoes addRRule(x).  On a recurrence that is not
    read-only and holds no inclusion rule at the address of x, adding x and
    then removing it leaves the inclusion rules as they were; whatever was
    held, no inclusion rule at the address of x is left after removeRRule(x). *)
Theorem removeRRule_undoes_addRRule (x : RecurrenceRule) (r : Recurrence) :
  (forall b y, rule_addr (rule_setFloats b y) = rule_addr y) ->
  mRecurReadOnly r = false ->
  (forall y, In y (mRRules (removeRRule x r)) -> rule_addr y <> rule_addr x)
  /\ ((forall y, In y (mRRules r) -> rule_addr y <> rule_addr x) ->
      mRRules (removeRRule x (addRRule (Some x) r)) = mRRules r).
Proof.
  intros Haddr Hro. split.
  - unfold removeRRule. rewrite Hro. simpl. unfold removeAll. intros y Hy.
    apply filter_In in Hy. destruct Hy as [_ Hy].
    now apply Nat.eqb_neq, negb_true_iff.
  - intro Hnew. destruct r as [exr rr rdts rds exdts exds st obs cache fl ro dl].
    simpl in *; subst ro. unfold addRRule, ruleMutated. simpl.
    assert (E : removeAll x (rr ++ [rule_setFloats fl x]) = rr).
    { unfold removeAll. rewrite filter_app. simpl.
      rewrite Haddr, Nat.eqb_refl. simpl. rewrite app_nil_r.
      now apply removeAll_others. }
    destruct (holds _ x); unfold removeRRule; simpl; exact E.
Qed.

End FlagAndRules.

(** ** More laws of the instances *)

Section MoreInstanceLaws.
Import FixedOffset TableRules.

Lemma fixedOffset_dt_equiv : EquivLaws (dt_lt (TimeModel := FixedOffset.model)) dt_eq.
Proof.
  split; simpl; intros *; rewrite ?Z.eqb_eq; try lia; intro H; now rewrite H.
Qed.

Lemma fixedOffset_date_equiv : EquivLaws (date_lt (TimeModel := FixedOffset.model)) date_eq.
Proof.
  split; simpl; intros *; rewrite ?Z.eqb_eq; try lia; intro H; now rewrite H.
Qed.

Lemma fixedOffset_time_laws : OrderLaws (time_lt (TimeModel := FixedOffset.model)) time_eq.
Proof.
  split; simpl; intros *; rewrite ?Z.ltb_lt, ?Z.ltb_ge, ?Z.eqb_neq; lia.
Qed.

Lemma fixedOffset_time_equiv : EquivLaws (time_lt (TimeModel := FixedOffset.model)) time_eq.
Proof.
  split; simpl; intros *; rewrite ?Z.eqb_eq; try lia; intro H; now rewrite H.
Qed.

Lemma fixedOffset_same_moment (k : DateTime) (s : Z) :
  dt_eq (TimeModel := FixedOffset.model) (toTimeSpec k s) k = true.
Proof. simpl. unfold toSpec, utc. simpl. apply Z.eqb_eq. lia. Qed.

Lemma fixedOffset_toTimeSpec_same (k : DateTime) :
  toTimeSpec (TimeModel := FixedOffset.model) k (timeSpec k) = k.
Proof.
  destruct k as [w z o]. simpl. unfold toSpec, utc. simpl. f_equal. lia.
Qed.

Lemma fixedOffset_setTimeSpec_same (k : DateTime) :
  setTimeSpec (TimeModel := FixedOffset.model) k (timeSpec k) = k.
Proof. now destruct k. Qed.

End MoreInstanceLaws.

(** ** The further properties at work *)

Section MoreInstances.
Import FixedOffset TableRules Examples.

Lemma timesInInterval_is_sorted_and_included_witness :
  sortedUnique dt_lt dt_eq (timesInInterval dailyNoonDay61 (at_ 60 0 0 0) (at_ 65 0 0 0))
  /\ forall x, In x (timesInInterval dailyNoonDay61 (at_ 60 0 0 0) (at_ 65 0 0 0)) ->
       In x (includedTimes dailyNoonDay61 (at_ 60 0 0 0) (at_ 65 0 0 0)).
Proof.
  exact (timesInInterval_is_sorted_and_included fixedOffset_dt_laws dailyNoonDay61
           (at_ 60 0 0 0) (at_ 65 0 0 0)).
Defined.

Lemma timesInInterval_leaves_out_excluded_times_witness :
  In (at_ 61 12 0 0) (timesInInterval dailyNoonDay61 (at_ 60 0 0 0) (at_ 65 0 0 0))
  /\ forall t, In t (mExDateTimes dailyNoonDay61) -> dt_eq t (at_ 61 12 0 0) = false.
Proof.
  assert (H : In (at_ 61 12 0 0)
                (timesInInterval dailyNoonDay61 (at_ 60 0 0 0) (at_ 65 0 0 0))).
  { right. left. reflexivity. }
  split; [exact H|].
  exact (proj1 (timesInInterval_leaves_out_excluded_times fixedOffset_dt_laws
                  fixedOffset_dt_equiv dailyNoonDay61 _ _ _ H)).
Defined.

Lemma timesInInterval_leaves_out_excluded_dates_witness :
  In (at_ 61 8 0 0) (timesInInterval dailyButDay62 (at_ 61 0 0 0) (at_ 63 0 0 0))
  /\ date_eq (date (at_ 61 8 0 0)) 62%Z = false.
Proof.
  assert (H : In (at_ 61 8 0 0)
                (timesInInterval dailyButDay62 (at_ 61 0 0 0) (at_ 63 0 0 0))).
  { left. reflexivity. }
  split; [exact H|].
  apply (@timesInInterval_leaves_out_excluded_dates _ _ fixedOffset_dt_laws
           dailyButDay62 (at_ 61 0 0 0) (at_ 63 0 0 0) (at_ 61 8 0 0) 62%Z
           fixedOffset_date_laws fixedOffset_date_equiv).
  - repeat constructor.
  - intros a b Ha Hb Hlt. simpl in Ha, Hb.
    destruct Ha as [<-|[<-|[]]]; destruct Hb as [<-|[<-|[]]];
      first [reflexivity|discriminate Hlt].
  - exact H.
  - left. reflexivity.
Defined.

Lemma recurTimesOn_is_sorted_without_excluded_times_witness :
  sortedUnique time_lt time_eq (recurTimesOn dailyNoonDay61 61%Z 0%Z)
  /\ recurTimesOn dailyNoonDay61 61%Z 0%Z = [43200%Z].
Proof.
  split; [|reflexivity].
  exact (proj1 (recurTimesOn_is_sorted_without_excluded_times fixedOffset_time_laws
                  fixedOffset_time_equiv dailyNoonDay61 61%Z 0%Z)).
Defined.

Lemma endDateTime_is_not_before_any_end_witness :
  endDateTime 0%Z (fun _ => true) (setEndDateTime (at_ 64 8 0 0) dailyNoonDay61)
  = Some (at_ 64 8 0 0)
  /\ dt_lt (at_ 64 8 0 0) (startDateTime (setEndDateTime (at_ 64 8 0 0) dailyNoonDay61))
     = false.
Proof.
  assert (H : endDateTime 0%Z (fun _ => true)
                (setEndDateTime (at_ 64 8 0 0) dailyNoonDay61)
              = Some (at_ 64 8 0 0)) by reflexivity.
  split; [exact H|].
  refine (proj1 (endDateTime_is_not_before_any_end fixedOffset_dt_laws fixedOffset_dt_equiv
                   0%Z (fun _ => true) (setEndDateTime (at_ 64 8 0 0) dailyNoonDay61)
                   _ H)).
  repeat constructor.
Defined.

Lemma each_observer_is_called_once_per_pass_witness :
  count_occ Nat.eq_dec
    (notified (mObservers (addObserver (Some 7) (replay history newRecurrence)))) 7 = 1.
Proof.
  apply (each_observer_is_called_once_per_pass (r := replay history newRecurrence) 7).
  apply reachable_replay, reach_new.
Defined.

Lemma recurrenceType_is_never_stale_witness :
  fst (recurrenceType (replay history newRecurrence)) = tDaily.
Proof.
  rewrite (recurrenceType_is_never_stale (r := replay history newRecurrence)).
  - reflexivity.
  - apply reachable_replay, reach_new.
Defined.

Lemma setFrequency_and_setDuration_are_read_back_witness :
  frequency (setFrequency 2 (startingAt (at_ 60 8 0 0))) = 2%Z
  /\ duration (setDuration 5 (startingAt (at_ 60 8 0 0))) = 5%Z.
Proof.
  destruct (setFrequency_and_setDuration_are_read_back (startingAt (at_ 60 8 0 0)) 2 5)
    as (Hf & _ & Hd).
  - reflexivity.
  - reflexivity.
  - reflexivity.
  - split; [apply Hf; lia|exact Hd].
Defined.

Lemma addMonthlyDate_adds_the_day_once_witness :
  In 0%Z (monthDays (addMonthlyDate 0 (startingAt (at_ 60 8 0 0))))
  /\ addMonthlyDate 32 dailyNoonDay61 = dailyNoonDay61.
Proof.
  destruct (addMonthlyDate_adds_the_day_once (startingAt (at_ 60 8 0 0)) 0) as (H & _ & _).
  { reflexivity. }
  destruct (addMonthlyDate_adds_the_day_once dailyNoonDay61 32) as (_ & H' & _).
  { reflexivity. }
  split; [apply H; [reflexivity|lia]|apply H'; lia].
Defined.

Lemma addYearlyMonth_needs_a_rule_witness :
  addYearlyMonth 3 (startingAt (at_ 60 8 0 0)) = startingAt (at_ 60 8 0 0)
  /\ In 3%Z (yearMonths (addYearlyMonth 3 dailyNoonDay61)).
Proof.
  destruct (addYearlyMonth_needs_a_rule (startingAt (at_ 60 8 0 0)) 3) as (H & _).
  { reflexivity. }
  destruct (addYearlyMonth_needs_a_rule dailyNoonDay61 3) as (_ & H' & _).
  { reflexivity. }
  split; [apply H; reflexivity|apply H'; [reflexivity|lia|discriminate]].
Defined.

Lemma addYearlyDay_takes_any_day_witness :
  In 1000%Z (yearDays (addYearlyDay 1000 (setRecurReadOnly true dailyNoonDay61))).
Proof.
  apply (addYearlyDay_takes_any_day (setRecurReadOnly true dailyNoonDay61) 1000).
  - reflexivity.
  - discriminate.
Defined.

Lemma setPeriodic_replaces_the_inclusion_rules_witness :
  length (mRRules (setDaily 2 dailyNoonDay61)) = 1
  /\ setDaily 0 dailyNoonDay61 = dailyNoonDay61.
Proof.
  destruct (setPeriodic_replaces_the_inclusion_rules rDaily 2 dailyNoonDay61 eq_refl)
    as [H _].
  destruct (setPeriodic_replaces_the_inclusion_rules rDaily 0 dailyNoonDay61 eq_refl)
    as [_ H'].
  split.
  - destruct H as [a Ha]; [lia|]. unfold setDaily. now rewrite Ha.
  - apply H'. lia.
Defined.

Lemma without_recurrence_only_the_start_is_found_witness :
  timesInInterval (startingAt (at_ 60 8 0 0)) (at_ 50 0 0 0) (at_ 70 0 0 0) = []
  /\ getNextDateTime (startingAt (at_ 60 8 0 0)) (at_ 50 0 0 0) = Some (at_ 60 8 0 0).
Proof.
  destruct (without_recurrence_only_the_start_is_found (startingAt (at_ 60 8 0 0))
              (at_ 50 0 0 0) (at_ 70 0 0 0) (at_ 50 0 0 0) eq_refl) as (H1 & H2 & _).
  split; [exact H1|]. rewrite H2. reflexivity.
Defined.

Lemma addExDate_takes_the_date_out_witness :
  recursOn (addExDate 61%Z dailyNoonDay61) 61%Z 0%Z = false
  /\ recurTimesOn (addExDate 61%Z dailyNoonDay61) 61%Z 0%Z = [].
Proof.
  apply (addExDate_takes_the_date_out dailyNoonDay61 61%Z fixedOffset_date_equiv eq_refl).
Defined.

Lemma added_inclusions_are_reported_witness :
  recursAt (addRDateTime (at_ 70 9 0 1) dailyNoonDay61) (at_ 70 9 0 1) = true
  /\ recursOn (addRDate 80%Z dailyNoonDay61) 80%Z 0%Z = true.
Proof.
  destruct (added_inclusions_are_reported dailyNoonDay61 (at_ 70 9 0 1) 80%Z 0%Z
              fixedOffset_dt_equiv fixedOffset_date_equiv fixedOffset_same_moment eq_refl)
    as [H1 H2].
  split; [apply H1; reflexivity|apply H2; reflexivity].
Defined.

Lemma getNextDateTime_without_exclusions_is_the_first_candidate_witness :
  getNextDateTime dailyOnly (at_ 61 9 0 0)
  = hd_error (nextCandidates dailyOnly (at_ 61 9 0 0)).
Proof.
  apply (getNextDateTime_without_exclusions_is_the_first_candidate
           dailyOnly (at_ 61 9 0 0) fixedOffset_dt_laws fixedOffset_dt_equiv);
    reflexivity.
Defined.

Lemma shiftTimes_there_and_back_witness :
  storedInstants (shiftTimes 7200%Z 3600%Z (shiftTimes 3600%Z 7200%Z eastOfUTC))
  = storedInstants eastOfUTC.
Proof.
  apply (shiftTimes_there_and_back (TM := FixedOffset.model) (RM := TableRules.model)).
  - reflexivity.
  - exact fixedOffset_toTimeSpec_same.
  - reflexivity.
  - reflexivity.
  - exact fixedOffset_setTimeSpec_same.
  - reflexivity.
  - intros x [<-|[<-|[<-|[]]]]; reflexivity.
Defined.


Lemma setFloats_settles_witness :
  floats (setFloats true dailyNoonDay61) = true
  /\ setFloats true (setFloats true dailyNoonDay61) = setFloats true dailyNoonDay61.
Proof.
  destruct (setFloats_settles true dailyNoonDay61 eq_refl) as (H1 & H2 & _).
  now split.
Defined.

Lemma removeRRule_undoes_addRRule_witness :
  mRRules (removeRRule daily dailyOnly) = mRRules (startingAt (at_ 60 8 0 0)).
Proof.
  apply (proj2 (@removeRRule_undoes_addRRule FixedOffset.model TableRules.model daily
                  (startingAt (at_ 60 8 0 0)) (fun _ _ => eq_refl) eq_refl)).
  intros y [].
Defined.

End MoreInstances.

(** ** A shift across the end of daylight-saving time *)

Section DaylightShift.
Import Daylight.

Lemma daylight_dt_laws : OrderLaws (dt_lt (TimeModel := Daylight.model)) dt_eq.
Proof.
  split; simpl; intros *; rewrite ?Z.ltb_lt, ?Z.ltb_ge, ?Z.eqb_neq; lia.
Qed.

(** C9 is not kept by shiftTimes(), which converts and re-stamps the
    inclusion date/times where they stand and does not sort them again.  The
    inclusion date/times 00:50 UTC and 01:10 UTC lie on either side of the
    moment the zone's clocks go back, where they read 02:50 and 02:10;
    shiftTimes(zone, UTC) on this reachable, sorted recurrence stamps those
    readings as UTC and leaves the list 02:50 UTC, 02:10 UTC: the later
    date/time first. *)
Theorem shiftTimes_leaves_the_rDateTimes_unsorted :
  let r := aroundTheChange in
  let r' := shiftTimes Local Utc r in
  OrderLaws (dt_lt (TimeModel := Daylight.model)) dt_eq
  /\ Reachable r /\ listsSorted r
  /\ mRDateTimes r = [utc_ 0 50; utc_ 1 10]
  /\ map (fun k => wall (toTimeSpec k Local)) (mRDateTimes r) = [10200; 7800]%Z
  /\ Reachable r'
  /\ mRDateTimes r' = [utc_ 2 50; utc_ 2 10]
  /\ ~ listsSorted r'.
Proof.
  intros r r'.
  assert (Hr : Reachable r).
  { exact (reach_run (SetRDateTimes [utc_ 0 50; utc_ 1 10]) reach_new). }
  split; [exact daylight_dt_laws|]. split; [exact Hr|].
  split; [repeat split; repeat constructor|].
  split; [reflexivity|]. split; [reflexivity|].
  split; [exact (reach_run (ShiftTimes Local Utc) Hr)|].
  split; [reflexivity|].
  intros [H _]. inversion H as [|? ? _ Hall]; subst.
  inversion Hall as [|? ? [Hlt _] _]; subst. discriminate Hlt.
Qed.

End DaylightShift.
